(** * Sheep Rentals backend: dashboard aggregation and status machines

    A shallow embedding of the Express route handlers of the backend
    (routes/users.ts, routes/properties.ts, the payments and applications
    routers, and the role gates of middleware/auth) over a model of the
    DynamoDB DocumentClient, followed by the properties proved about them.

    Items are what the DocumentClient hands to the handlers: maps from
    attribute names to values.  Handlers run in a small state-and-exception
    monad over the five tables.

    Conventions of the model:
    - numbers are modelled on the integers (amounts in whole units, times in
      milliseconds), with NaN and the infinities as values of their own; the
      sums of the dashboards are the exact sums, which is what the double
      additions of the code compute as long as no partial sum leaves the
      range of the integers a double holds exactly (2^53 on either side);
    - a request reads the clock once: every [new Date()] of one request is the
      same instant, passed to the handler as [now];
    - a call to AWS either is rejected and changes nothing, or is carried out
      in full; which calls the service fails to answer is part of the world
      ([faults]); DynamoDB moreover refuses every expression that names one
      of its reserved words as an attribute (no handler passes
      ExpressionAttributeNames), every key that is not a non-empty string,
      and every number it cannot hold;
    - a scan returns every matching item of the table, in one page;
    - [req.user] is set by the authentication middleware before a router
      runs, so handlers take the user as an argument. *)

From stdpp Require Import gmap strings list fin_maps sorting.
From Stdlib Require Import ZArith Lia Ascii.

Local Open Scope string_scope.

(** ** Values, items and request bodies *)

(** A JavaScript value as it occurs in an item or in [req.body].  Finite
    numbers are modelled by integers, objects by the list of their fields.
    NaN and the infinities occur as results of [Number] and [JSON.parse]
    only. *)
#[warnings="-register-all"]
Inductive Attr : Type :=
  | ANull
  | ABool (b : bool)
  | ANum (n : Z)
  | ANaN
  | AInfinity (negative : bool)
  | AStr (s : string)
  | AList (l : list Attr)
  | AObj (fields : list (string * Attr)).

(** An item of a table, and also the shape of [req.body]. *)
Abbreviation Item := (gmap string Attr).

(** JavaScript truthiness of [o.field]; [None] is [undefined]. *)
Definition truthy (v : option Attr) : bool :=
  match v with
  | None | Some ANull => false
  | Some (ABool b) => b
  | Some (ANum n) => negb (n =? 0)%Z
  | Some ANaN => false
  | Some (AInfinity _) => true
  | Some (AStr s) => negb (String.eqb s "")
  | Some (AList _) | Some (AObj _) => true
  end.

(** [v === 'lit'] against a string. *)
Definition str_is (lit : string) (v : option Attr) : bool :=
  match v with
  | Some (AStr s) => String.eqb s lit
  | _ => false
  end.

(** [['a', 'b', ...].includes(v)] for a list of string literals. *)
Definition includes (lits : list string) (v : option Attr) : bool :=
  existsb (fun lit => str_is lit v) lits.

(** The numeric value of a field declared [number] in types/index.ts, for
    the items that hold a finite number there, as every stored payment does:
    POST /payments writes [Number(amount)] and the store takes no other
    number. *)
Definition num (v : option Attr) : Z :=
  match v with
  | Some (ANum n) => n
  | _ => 0%Z
  end.

(** A JavaScript number as a conversion yields it. *)
Inductive JsNumber : Type :=
  | JsFinite (n : Z)
  | JsNaN
  | JsInfinity (negative : bool).

Definition number (x : JsNumber) : Attr :=
  match x with
  | JsFinite n => ANum n
  | JsNaN => ANaN
  | JsInfinity negative => AInfinity negative
  end.

(** [x > 0] on a number. *)
Definition is_positive (x : JsNumber) : bool :=
  match x with
  | JsFinite n => (0 <? n)%Z
  | JsNaN => false
  | JsInfinity negative => negb negative
  end.

(** Whether the template literal [`${v}`] yields a string.  An object is
    converted through its [toString]; a value that came in as JSON holds no
    function, so an object with a field of that name has no primitive and the
    literal throws a TypeError.  An array joins the strings of its
    elements. *)
Fixpoint printable (v : Attr) : bool :=
  match v with
  | AObj fields => negb (existsb (fun kv => String.eqb (fst kv) "toString") fields)
  | AList l => forallb printable l
  | _ => true
  end.

(** [SET k = v] clauses of an UpdateExpression, and object literals, applied
    left to right. *)
Definition assign (sets : list (string * Attr)) (item : Item) : Item :=
  fold_left (fun it kv => <[kv.1 := kv.2]> it) sets item.

(** A field of an object literal whose value may be [undefined]: the
    DocumentClient drops it when marshalling. *)
Definition field (k : string) (v : option Attr) : list (string * Attr) :=
  match v with
  | Some a => [(k, a)]
  | None => []
  end.

(** An object literal. *)
Definition object (fields : list (string * Attr)) : Item := assign fields ∅.

(** [a || b] on values. *)
Definition or_else (a : option Attr) (b : Attr) : Attr :=
  match a with
  | Some v => if truthy a then v else b
  | None => b
  end.

(** [o?.[k]]: a field of an object value; [undefined] on anything that has no
    such field. *)
Definition index (o : option Attr) (k : string) : option Attr :=
  match o with
  | Some (AObj fields) => snd <$> List.find (fun kv => String.eqb kv.1 k) fields
  | _ => None
  end.

(** [name.split('.').pop()]: what follows the last dot, the whole name when it
    has none.  [seg] is the segment read so far. *)
Fixpoint split_pop (seg : string) (name : string) : string :=
  match name with
  | EmptyString => seg
  | String c rest =>
      if Ascii.eqb c "."%char then split_pop "" rest
      else split_pop (seg +:+ String c "") rest
  end.

(** [array.sort(cmp)]: the sort is stable, so for a comparator that orders the
    elements consistently the result is the one stable arrangement; inserting
    each element in front of the first one that does not precede it computes
    it. *)
Fixpoint insert_by {A} (cmp : A -> A -> Z) (x : A) (l : list A) : list A :=
  match l with
  | [] => [x]
  | y :: l' => if (cmp x y <=? 0)%Z then x :: y :: l' else y :: insert_by cmp x l'
  end.

Definition Array_sort {A} (cmp : A -> A -> Z) (l : list A) : list A :=
  foldr (insert_by cmp) [] l.

(** ** The runtime the handlers rely on

    Library functions of the JavaScript runtime whose code is not part of the
    repository.  They are taken as an interface. *)
Class Runtime := {
  (** [new Date(v).getTime()], [None] for an Invalid Date (NaN);
      the argument is [None] for [undefined]. *)
  Date_getTime : option Attr -> option Z;
  (** [new Date(t).toISOString()] for the time value [t]. *)
  toISOString : Z -> string;
  (** [JSON.parse(s)]; [None] when it throws a SyntaxError. *)
  JSON_parse : Attr -> option Attr;
  (** [Number(v)]; [None] when the conversion throws a TypeError (an object
      that has no primitive value). *)
  Number_ : option Attr -> option JsNumber;
  (** The n-th identifier that [uuidv4()] hands out. *)
  uuid_at : nat -> string;
  (** Whether the compiled handlers keep [const] bindings read-only, as the
      language has them, so that an assignment to one throws a TypeError;
      [false] when the build emits [var] for [const]. *)
  const_is_readonly : bool
}.

(** ** Errors and responses *)

(** What a handler can throw: an error built by [createError], the rejection
    of a call to an AWS service, the SyntaxError of [JSON.parse], or the
    TypeError of an assignment to a constant. *)
Inductive Exn : Type :=
  | HttpError (message : string) (statusCode : Z)
  | AwsError
  | SyntaxError
  | TypeError.

(** Modelled from the spec: [createError] of middleware/errorHandler is not
    among the sources; an error carries a human-readable message and a numeric
    status code. *)
Definition createError (message : string) (statusCode : Z) : Exn :=
  HttpError message statusCode.

Inductive Result (A : Type) : Type :=
  | Ok (a : A)
  | Throw (e : Exn).
Arguments Ok {A} a.
Arguments Throw {A} e.

(** The JSON envelope written to the client. *)
Inductive Response (D : Type) : Type :=
  | Success (status : Z) (message : option string) (data : D)
  | Failure (status : Z) (error : string).
Arguments Success {D} status message data.
Arguments Failure {D} status error.

Definition data_or {D} (none : D) (r : Response D) : D :=
  match r with
  | Success _ _ d => d
  | Failure _ _ => none
  end.

Definition succeeded {D} (r : Response D) : bool :=
  match r with
  | Success _ _ _ => true
  | Failure _ _ => false
  end.

(** ** The world: five tables, the bucket, and the environment's choices *)

Inductive Table : Type :=
  | USERS | PROPERTIES | APPLICATIONS | PAYMENTS | RENTAL_AGREEMENTS.

Record File : Type := mkFile {
  fieldname : string;
  originalname : string;
  mimetype : string;
  buffer : string
}.

Record DB : Type := mkDB {
  users : gmap string Item;
  properties : gmap string Item;
  applications : gmap string Item;
  payments : gmap string Item;
  rentalAgreements : gmap string Item
}.

Record World : Type := mkWorld {
  db : DB;
  (** objects of the S3 bucket, by key *)
  bucket : gmap string File;
  (** outcome of the coming calls to AWS, in order: [true] rejects the call;
      once the list is used up every call goes through *)
  faults : list bool;
  (** number of identifiers drawn from [uuidv4] so far *)
  drawn : nat
}.

Definition table (t : Table) (d : DB) : gmap string Item :=
  match t with
  | USERS => users d
  | PROPERTIES => properties d
  | APPLICATIONS => applications d
  | PAYMENTS => payments d
  | RENTAL_AGREEMENTS => rentalAgreements d
  end.

Definition set_table (t : Table) (m : gmap string Item) (d : DB) : DB :=
  match t with
  | USERS => mkDB m (properties d) (applications d) (payments d) (rentalAgreements d)
  | PROPERTIES => mkDB (users d) m (applications d) (payments d) (rentalAgreements d)
  | APPLICATIONS => mkDB (users d) (properties d) m (payments d) (rentalAgreements d)
  | PAYMENTS => mkDB (users d) (properties d) (applications d) m (rentalAgreements d)
  | RENTAL_AGREEMENTS => mkDB (users d) (properties d) (applications d) (payments d) m
  end.

Definition set_db (d : DB) (w : World) : World :=
  mkWorld d (bucket w) (faults w) (drawn w).

(** ** The handler monad: state and exceptions *)

Definition M (A : Type) : Type := World -> Result A * World.

Definition ret {A} (a : A) : M A := fun w => (Ok a, w).

Definition bind {A B} (m : M A) (k : A -> M B) : M B :=
  fun w =>
    match m w with
    | (Ok a, w') => k a w'
    | (Throw e, w') => (Throw e, w')
    end.

Definition throw {A} (e : Exn) : M A := fun w => (Throw e, w).

(** [try { m } catch (error) { h error }]: what [m] wrote before it threw
    stays written. *)
Definition try_catch {A} (m : M A) (h : Exn -> M A) : M A :=
  fun w =>
    match m w with
    | (Ok a, w') => (Ok a, w')
    | (Throw e, w') => h e w'
    end.

Declare Scope handler_scope.
Delimit Scope handler_scope with handler.
Notation "x <- c ;; k" := (bind c (fun x => k))
  (at level 100, c at next level, right associativity) : handler_scope.
Notation "c ;;; k" := (bind c (fun _ => k))
  (at level 100, right associativity) : handler_scope.
Notation "'when' b 'raise' e ;;; k" := (if b then throw e else k)
  (at level 100, b at next level, e at next level, right associativity) : handler_scope.
Local Open Scope handler_scope.

(** ** The Record Store: DynamoDB DocumentClient *)

(** The reserved words of DynamoDB.  An expression that uses one of them as
    an attribute name, in whatever case, is refused with a
    ValidationException unless the name is passed through
    ExpressionAttributeNames. *)
Definition reserved_words : list string :=
  ["ABORT"; "ABSOLUTE"; "ACTION"; "ADD"; "AFTER"; "AGENT"; "AGGREGATE"; "ALL";
   "ALLOCATE"; "ALTER"; "ANALYZE"; "AND"; "ANY"; "ARCHIVE"; "ARE"; "ARRAY"; "AS";
   "ASC"; "ASCII"; "ASENSITIVE"; "ASSERTION"; "ASYMMETRIC"; "AT"; "ATOMIC";
   "ATTACH"; "ATTRIBUTE"; "AUTH"; "AUTHORIZATION"; "AUTHORIZE"; "AUTO"; "AVG";
   "BACK"; "BACKUP"; "BASE"; "BATCH"; "BEFORE"; "BEGIN"; "BETWEEN"; "BIGINT";
   "BINARY"; "BIT"; "BLOB"; "BLOCK"; "BOOLEAN"; "BOTH"; "BREADTH"; "BUCKET";
   "BULK"; "BY"; "BYTE"; "CALL"; "CALLED"; "CALLING"; "CAPACITY"; "CASCADE";
   "CASCADED"; "CASE"; "CAST"; "CATALOG"; "CHAR"; "CHARACTER"; "CHECK"; "CLASS";
   "CLOB"; "CLOSE"; "CLUSTER"; "CLUSTERED"; "CLUSTERING"; "CLUSTERS"; "COALESCE";
   "COLLATE"; "COLLATION"; "COLLECTION"; "COLUMN"; "COLUMNS"; "COMBINE";
   "COMMENT"; "COMMIT"; "COMPACT"; "COMPILE"; "COMPRESS"; "CONDITION";
   "CONFLICT"; "CONNECT"; "CONNECTION"; "CONSISTENCY"; "CONSISTENT";
   "CONSTRAINT"; "CONSTRAINTS"; "CONSTRUCTOR"; "CONSUMED"; "CONTINUE"; "CONVERT";
   "COPY"; "CORRESPONDING"; "COUNT"; "COUNTER"; "CREATE"; "CROSS"; "CUBE";
   "CURRENT"; "CURSOR"; "CYCLE"; "DATA"; "DATABASE"; "DATE"; "DATETIME"; "DAY";
   "DEALLOCATE"; "DEC"; "DECIMAL"; "DECLARE"; "DEFAULT"; "DEFERRABLE";
   "DEFERRED"; "DEFINE"; "DEFINED"; "DEFINITION"; "DELETE"; "DELIMITED"; "DEPTH";
   "DEREF"; "DESC"; "DESCRIBE"; "DESCRIPTOR"; "DETACH"; "DETERMINISTIC";
   "DIAGNOSTICS"; "DIRECTORIES"; "DISABLE"; "DISCONNECT"; "DISTINCT";
   "DISTRIBUTE"; "DO"; "DOMAIN"; "DOUBLE"; "DROP"; "DUMP"; "DURATION"; "DYNAMIC";
   "EACH"; "ELEMENT"; "ELSE"; "ELSEIF"; "EMPTY"; "ENABLE"; "END"; "EQUAL";
   "EQUALS"; "ERROR"; "ESCAPE"; "ESCAPED"; "EVAL"; "EVALUATE"; "EXCEEDED";
   "EXCEPT"; "EXCEPTION"; "EXCEPTIONS"; "EXCLUSIVE"; "EXEC"; "EXECUTE"; "EXISTS";
   "EXIT"; "EXPLAIN"; "EXPLODE"; "EXPORT"; "EXPRESSION"; "EXTENDED"; "EXTERNAL";
   "EXTRACT"; "FAIL"; "FALSE"; "FAMILY"; "FETCH"; "FIELDS"; "FILE"; "FILTER";
   "FILTERING"; "FINAL"; "FINISH"; "FIRST"; "FIXED"; "FLATTERN"; "FLOAT"; "FOR";
   "FORCE"; "FOREIGN"; "FORMAT"; "FORWARD"; "FOUND"; "FREE"; "FROM"; "FULL";
   "FUNCTION"; "FUNCTIONS"; "GENERAL"; "GENERATE"; "GET"; "GLOB"; "GLOBAL"; "GO";
   "GOTO"; "GRANT"; "GREATER"; "GROUP"; "GROUPING"; "HANDLER"; "HASH"; "HAVE";
   "HAVING"; "HEAP"; "HIDDEN"; "HOLD"; "HOUR"; "IDENTIFIED"; "IDENTITY"; "IF";
   "IGNORE"; "IMMEDIATE"; "IMPORT"; "IN"; "INCLUDING"; "INCLUSIVE"; "INCREMENT";
   "INCREMENTAL"; "INDEX"; "INDEXED"; "INDEXES"; "INDICATOR"; "INFINITE";
   "INITIALLY"; "INLINE"; "INNER"; "INNTER"; "INOUT"; "INPUT"; "INSENSITIVE";
   "INSERT"; "INSTEAD"; "INT"; "INTEGER"; "INTERSECT"; "INTERVAL"; "INTO";
   "INVALIDATE"; "IS"; "ISOLATION"; "ITEM"; "ITEMS"; "ITERATE"; "JOIN"; "KEY";
   "KEYS"; "LAG"; "LANGUAGE"; "LARGE"; "LAST"; "LATER"; "LATERAL"; "LEAD";
   "LEADING"; "LEAVE"; "LEFT"; "LENGTH"; "LESS"; "LEVEL"; "LIKE"; "LIMIT";
   "LIMITED"; "LINES"; "LIST"; "LOAD"; "LOCAL"; "LOCALTIME"; "LOCALTIMESTAMP";
   "LOCATION"; "LOCATOR"; "LOCK"; "LOCKS"; "LOG"; "LOGED"; "LONG"; "LOOP";
   "LOWER"; "MAP"; "MATCH"; "MATERIALIZED"; "MAX"; "MAXLEN"; "MEMBER"; "MERGE";
   "METHOD"; "METRICS"; "MIN"; "MINUS"; "MINUTE"; "MISSING"; "MOD"; "MODE";
   "MODIFIES"; "MODIFY"; "MODULE"; "MONTH"; "MULTI"; "MULTISET"; "NAME"; "NAMES";
   "NATIONAL"; "NATURAL"; "NCHAR"; "NCLOB"; "NEW"; "NEXT"; "NO"; "NONE"; "NOT";
   "NULL"; "NULLIF"; "NUMBER"; "NUMERIC"; "OBJECT"; "OF"; "OFFLINE"; "OFFSET";
   "OLD"; "ON"; "ONLINE"; "ONLY"; "OPAQUE"; "OPEN"; "OPERATOR"; "OPTION"; "OR";
   "ORDER"; "ORDINALITY"; "OTHER"; "OTHERS"; "OUT"; "OUTER"; "OUTPUT"; "OVER";
   "OVERLAPS"; "OVERRIDE"; "OWNER"; "PAD"; "PARALLEL"; "PARAMETER"; "PARAMETERS";
   "PARTIAL"; "PARTITION"; "PARTITIONED"; "PARTITIONS"; "PATH"; "PERCENT";
   "PERCENTILE"; "PERMISSION"; "PERMISSIONS"; "PIPE"; "PIPELINED"; "PLAN";
   "POOL"; "POSITION"; "PRECISION"; "PREPARE"; "PRESERVE"; "PRIMARY"; "PRIOR";
   "PRIVATE"; "PRIVILEGES"; "PROCEDURE"; "PROCESSED"; "PROJECT"; "PROJECTION";
   "PROPERTY"; "PROVISIONING"; "PUBLIC"; "PUT"; "QUERY"; "QUIT"; "QUORUM";
   "RAISE"; "RANDOM"; "RANGE"; "RANK"; "RAW"; "READ"; "READS"; "REAL"; "REBUILD";
   "RECORD"; "RECURSIVE"; "REDUCE"; "REF"; "REFERENCE"; "REFERENCES";
   "REFERENCING"; "REGEXP"; "REGION"; "REINDEX"; "RELATIVE"; "RELEASE";
   "REMAINDER"; "RENAME"; "REPEAT"; "REPLACE"; "REQUEST"; "RESET"; "RESIGNAL";
   "RESOURCE"; "RESPONSE"; "RESTORE"; "RESTRICT"; "RESULT"; "RETURN";
   "RETURNING"; "RETURNS"; "REVERSE"; "REVOKE"; "RIGHT"; "ROLE"; "ROLES";
   "ROLLBACK"; "ROLLUP"; "ROUTINE"; "ROW"; "ROWS"; "RULE"; "RULES"; "SAMPLE";
   "SATISFIES"; "SAVE"; "SAVEPOINT"; "SCAN"; "SCHEMA"; "SCOPE"; "SCROLL";
   "SEARCH"; "SECOND"; "SECTION"; "SEGMENT"; "SEGMENTS"; "SELECT"; "SELF";
   "SEMI"; "SENSITIVE"; "SEPARATE"; "SEQUENCE"; "SERIALIZABLE"; "SESSION"; "SET";
   "SETS"; "SHARD"; "SHARE"; "SHARED"; "SHORT"; "SHOW"; "SIGNAL"; "SIMILAR";
   "SIZE"; "SKEWED"; "SMALLINT"; "SNAPSHOT"; "SOME"; "SOURCE"; "SPACE"; "SPACES";
   "SPARSE"; "SPECIFIC"; "SPECIFICTYPE"; "SPLIT"; "SQL"; "SQLCODE"; "SQLERROR";
   "SQLEXCEPTION"; "SQLSTATE"; "SQLWARNING"; "START"; "STATE"; "STATIC";
   "STATISTICS"; "STATUS"; "STORAGE"; "STORE"; "STORED"; "STREAM"; "STRING";
   "STRUCT"; "STYLE"; "SUB"; "SUBMULTISET"; "SUBPARTITION"; "SUBSTRING";
   "SUBTYPE"; "SUM"; "SUPER"; "SYMMETRIC"; "SYNONYM"; "SYSTEM"; "TABLE";
   "TABLESAMPLE"; "TEMP"; "TEMPORARY"; "TERMINATED"; "TEXT"; "THAN"; "THEN";
   "THROUGHPUT"; "TIME"; "TIMESTAMP"; "TIMEZONE"; "TINYINT"; "TO"; "TOKEN";
   "TOTAL"; "TOUCH"; "TRAILING"; "TRANSACTION"; "TRANSFORM"; "TRANSLATE";
   "TRANSLATION"; "TREAT"; "TRIGGER"; "TRIM"; "TRUE"; "TRUNCATE"; "TTL"; "TUPLE";
   "TYPE"; "UNDER"; "UNDO"; "UNION"; "UNIQUE"; "UNIT"; "UNKNOWN"; "UNLOGGED";
   "UNNEST"; "UNPROCESSED"; "UNSIGNED"; "UNTIL"; "UPDATE"; "UPPER"; "URL";
   "USAGE"; "USE"; "USER"; "USERS"; "USING"; "UUID"; "VACUUM"; "VALUE"; "VALUED";
   "VALUES"; "VARCHAR"; "VARIABLE"; "VARIANCE"; "VARINT"; "VARYING"; "VIEW";
   "VIEWS"; "VIRTUAL"; "VOID"; "WAIT"; "WHEN"; "WHENEVER"; "WHERE"; "WHILE";
   "WINDOW"; "WITH"; "WITHIN"; "WITHOUT"; "WORK"; "WRAPPED"; "WRITE"; "YEAR";
   "ZONE"].

Definition upper_ascii (c : ascii) : ascii :=
  let n := nat_of_ascii c in
  if (97 <=? n)%nat && (n <=? 122)%nat then ascii_of_nat (n - 32) else c.

Fixpoint upper (s : string) : string :=
  match s with
  | EmptyString => EmptyString
  | String c rest => String (upper_ascii c) (upper rest)
  end.

Definition reserved (name : string) : bool :=
  existsb (String.eqb (upper name)) reserved_words.
Arguments reserved : simpl never.

(** Whether DynamoDB can hold a value: a number has to be finite and of a
    magnitude below 1E+126, also inside a list or a map. *)
Fixpoint storable (v : Attr) : bool :=
  match v with
  | ANum n => (Z.abs n <? 10 ^ 126)%Z
  | ANaN | AInfinity _ => false
  | AList l => forallb storable l
  | AObj fields => forallb (fun kv => storable (snd kv)) fields
  | _ => true
  end.

Definition storable_item (item : Item) : bool :=
  forallb (fun kv => storable (snd kv)) (map_to_list item).

(** Every call to an AWS service first learns whether the service answers. *)
Definition aws : M unit :=
  fun w =>
    match faults w with
    | true :: fs => (Throw AwsError, mkWorld (db w) (bucket w) fs (drawn w))
    | false :: fs => (Ok tt, mkWorld (db w) (bucket w) fs (drawn w))
    | [] => (Ok tt, w)
    end.

(** [dynamoDB.get({TableName, Key: {id}})]: the item, or [None] for an empty
    [result.Item]. *)
Definition dynamoDB_get (t : Table) (id : string) : M (option Item) :=
  aws ;;; fun w => (Ok (table t (db w) !! id), w).

(** [dynamoDB.put({TableName, Item})]: stores the item under its [id],
    replacing what was there; an item with a value the store cannot hold is
    refused. *)
Definition dynamoDB_put (t : Table) (item : Item) : M unit :=
  aws ;;;
  if negb (storable_item item) then throw AwsError else
  match item !! "id" with
  | Some (AStr id) =>
      fun w => (Ok tt, set_db (set_table t (<[id := item]> (table t (db w))) (db w)) w)
  | _ => throw AwsError
  end.

(** Whether DynamoDB refuses the clauses of an update expression. *)
Definition refused_sets (sets : list (string * Attr)) : bool :=
  existsb (fun kv => reserved (fst kv)) sets
  || negb (forallb (fun kv => storable (snd kv)) sets).

(** [dynamoDB.update({TableName, Key: {id}, UpdateExpression: 'SET ...'})]
    with the clauses [k = :k] of the expression and their values: refused
    ([refused_sets]) when a clause names a reserved word or carries a value
    the store cannot hold; otherwise it sets the attributes on the item with that key,
    creating the item when the table has none, and yields the item as it is
    afterwards (ALL_NEW). *)
Definition dynamoDB_update (t : Table) (id : string) (sets : list (string * Attr)) : M Item :=
  aws ;;;
  if refused_sets sets then throw AwsError
  else
    fun w =>
      let old := default {[ "id" := AStr id ]} (table t (db w) !! id) in
      let new := assign sets old in
      (Ok new, set_db (set_table t (<[id := new]> (table t (db w))) (db w)) w).

(** [dynamoDB.delete({TableName, Key: {id}})]. *)
Definition dynamoDB_delete (t : Table) (id : string) : M unit :=
  aws ;;;
  fun w => (Ok tt, set_db (set_table t (delete id (table t (db w))) (db w)) w).

(** [dynamoDB.scan({TableName, FilterExpression})], with the attribute names
    the expression mentions and the test it stands for: refused when one of
    the names is a reserved word; otherwise the items that pass the filter,
    in the order the table yields them.  A filter ['attr = :value'] holds for
    the items that have the attribute with that value. *)
Definition dynamoDB_scan (t : Table) (names : list string) (flt : Item -> bool)
    : M (list Item) :=
  aws ;;;
  if existsb reserved names then throw AwsError
  else fun w => (Ok (List.filter flt (map_to_list (table t (db w))).*2), w).

(** [s3.upload({Key, Body...})]. *)
Definition s3_upload (key : string) (f : File) : M unit :=
  aws ;;;
  fun w => (Ok tt, mkWorld (db w) (<[key := f]> (bucket w)) (faults w) (drawn w)).

(** [uuidv4()]. *)
Definition uuidv4 `{Runtime} : M string :=
  fun w => (Ok (uuid_at (drawn w)), mkWorld (db w) (bucket w) (faults w) (S (drawn w))).

(** [Key: { id: v }] with a value taken from a body or an item: DynamoDB
    rejects a key that is not a string, and the empty string. *)
Definition as_key (v : option Attr) : M string :=
  match v with
  | Some (AStr id) => if String.eqb id "" then throw AwsError else ret id
  | _ => throw AwsError
  end.

(** [for (const x of xs) { ... results.push(...) }]: one pushed entry per
    element, in order. *)
Fixpoint for_of {A B} (xs : list A) (body : A -> M B) : M (list B) :=
  match xs with
  | [] => ret []
  | x :: rest =>
      r <- body x ;;
      rs <- for_of rest body ;;
      ret (r :: rs)
  end.

(** ** Requests *)

(** [req.user] as the authentication middleware leaves it. *)
Record User : Type := mkUser {
  user_id : string;
  userType : string
}.

(** Defaults of config/aws.ts. *)
Definition BUCKET_NAME : string := "sheep-rentals-images".
Definition REGION : string := "us-east-1".

Definition s3_url (fileName : string) : string :=
  "https://" +:+ BUCKET_NAME +:+ ".s3." +:+ REGION +:+ ".amazonaws.com/" +:+ fileName.

(** ** middleware/auth: role gates *)

Definition requireLandlord {D} (user : option User)
    (next : User -> World -> Response D * World) : World -> Response D * World :=
  fun w =>
    match user with
    | None => (Failure 401 "Authentication required", w)
    | Some u =>
        if negb (String.eqb (userType u) "landlord")
        then (Failure 403 "Landlord access required", w)
        else next u w
    end.

Definition requireRenter {D} (user : option User)
    (next : User -> World -> Response D * World) : World -> Response D * World :=
  fun w =>
    match user with
    | None => (Failure 401 "Authentication required", w)
    | Some u =>
        if negb (String.eqb (userType u) "renter")
        then (Failure 403 "Renter access required", w)
        else next u w
    end.

(** Modelled from the spec: [asyncHandler] and the error handler of
    middleware/errorHandler are not among the sources; a thrown error reaches
    the client as a failure envelope with the error's status code, and an
    error without one (a store failure, a SyntaxError, a TypeError) as 500. *)
Definition asyncHandler {D} (h : M (Response D)) : World -> Response D * World :=
  fun w =>
    match h w with
    | (Ok r, w') => (r, w')
    | (Throw (HttpError m c), w') => (Failure c m, w')
    | (Throw AwsError, w') => (Failure 500 "Internal Server Error", w')
    | (Throw SyntaxError, w') => (Failure 500 "Internal Server Error", w')
    | (Throw TypeError, w') => (Failure 500 "Internal Server Error", w')
    end.

Section Model.
Context `{Runtime}.

(** ** Payments router *)

(** [updateExpression += ', k = :k'] with [expressionAttributeValues[':k'] = v].
    The handlers declare [updateExpression] with [const]: where const bindings
    are read-only the assignment throws, where the build turned them into
    variables it extends the expression. *)
Definition append_to_const (updateExpression clause : list (string * Attr))
    : M (list (string * Attr)) :=
  if const_is_readonly then throw TypeError else ret (updateExpression ++ clause)%list.

(** [Number(v)] in a handler. *)
Definition to_number (v : option Attr) : M JsNumber :=
  match Number_ v with
  | Some x => ret x
  | None => throw TypeError
  end.

(** [console.error(`... ${v}:`, error)]: the template literal is evaluated
    first. *)
Definition log_with (v : Attr) : M unit :=
  if printable v then ret tt else throw TypeError.

(** How both payment status updates build them. *)
Definition payment_update_expression (now : Z) (status paidDate notes : option Attr)
    : M (list (string * Attr)) :=
  let updateExpression :=
    (field "status" status ++ [("updatedAt", AStr (toISOString now))])%list in
  updateExpression <-
    (if str_is "paid" status && truthy paidDate
     then append_to_const updateExpression (field "paidDate" paidDate)
     else ret updateExpression) ;;
  if truthy notes
  then append_to_const updateExpression (field "notes" notes)
  else ret updateExpression.

(** POST /payments (landlord only). *)
Definition POST_payments (u : User) (now : Z) (paymentData : Item) : M (Response Item) :=
  when negb (truthy (paymentData !! "rentalAgreementId"))
       || negb (truthy (paymentData !! "amount"))
       || negb (truthy (paymentData !! "type"))
       || negb (truthy (paymentData !! "dueDate"))
  raise createError "Missing required fields" 400 ;;;
  agreementId <- as_key (paymentData !! "rentalAgreementId") ;;
  rentalAgreement <- dynamoDB_get RENTAL_AGREEMENTS agreementId ;;
  match rentalAgreement with
  | None => throw (createError "Rental agreement not found" 404)
  | Some agreement =>
      when negb (str_is (user_id u) (agreement !! "landlordId"))
      raise createError "Unauthorized to create payment for this rental agreement" 403 ;;;
      paymentId <- uuidv4 ;;
      amount <- to_number (paymentData !! "amount") ;;
      let payment := object (
        [("id", AStr paymentId)]
        ++ field "rentalAgreementId" (paymentData !! "rentalAgreementId")
        ++ field "propertyId" (agreement !! "propertyId")
        ++ field "renterId" (agreement !! "renterId")
        ++ [("landlordId", AStr (user_id u));
            ("amount", number amount)]
        ++ field "type" (paymentData !! "type")
        ++ [("status", AStr "pending")]
        ++ field "dueDate" (paymentData !! "dueDate")
        ++ field "month" (paymentData !! "month")
        ++ field "notes" (paymentData !! "notes")
        ++ [("createdAt", AStr (toISOString now));
            ("updatedAt", AStr (toISOString now))]) in
      try_catch
        (dynamoDB_put PAYMENTS payment ;;;
         ret (Success 201 (Some "Payment record created successfully") payment))
        (fun _ => throw (createError "Failed to create payment record" 500))
  end.

(** PATCH /payments/:id/status (landlord only). *)
Definition PATCH_payments_status (u : User) (now : Z) (id : string) (body : Item)
    : M (Response Item) :=
  let status := body !! "status" in
  let paidDate := body !! "paidDate" in
  let notes := body !! "notes" in
  when String.eqb id "" || negb (truthy status)
  raise createError "Payment ID and status are required" 400 ;;;
  when negb (includes ["pending"; "paid"; "overdue"; "cancelled"] status)
  raise createError "Invalid status" 400 ;;;
  existingPayment <- dynamoDB_get PAYMENTS id ;;
  match existingPayment with
  | None => throw (createError "Payment not found" 404)
  | Some item =>
      when negb (str_is (user_id u) (item !! "landlordId"))
      raise createError "Unauthorized to update this payment" 403 ;;;
      try_catch
        (updateExpression <- payment_update_expression now status paidDate notes ;;
         result <- dynamoDB_update PAYMENTS id updateExpression ;;
         ret (Success 200 (Some "Payment status updated successfully") result))
        (fun _ => throw (createError "Failed to update payment status" 500))
  end.

(** One entry of the bulk response. *)
Record BulkResult : Type := mkBulkResult {
  entry_id : Attr;
  entry_success : bool;
  entry_error : option string
}.

(** The body of the loop of the bulk update, for one submitted id. *)
Definition bulk_update_one (u : User) (now : Z) (status paidDate notes : option Attr)
    (paymentId : Attr) : M BulkResult :=
  try_catch
    (key <- as_key (Some paymentId) ;;
     existingPayment <- dynamoDB_get PAYMENTS key ;;
     match existingPayment with
     | None => ret (mkBulkResult paymentId false (Some "Payment not found"))
     | Some item =>
         if negb (str_is (user_id u) (item !! "landlordId"))
         then ret (mkBulkResult paymentId false (Some "Unauthorized"))
         else
           updateExpression <- payment_update_expression now status paidDate notes ;;
           dynamoDB_update PAYMENTS key updateExpression ;;;
           ret (mkBulkResult paymentId true None)
     end)
    (fun _ =>
       log_with paymentId ;;;
       ret (mkBulkResult paymentId false (Some "Update failed"))).

(** PATCH /payments/bulk-update (landlord only). *)
Definition PATCH_payments_bulk_update (u : User) (now : Z) (body : Item)
    : M (Response (list BulkResult)) :=
  let status := body !! "status" in
  match body !! "paymentIds" with
  | Some (AList ((_ :: _) as paymentIds)) =>
      when negb (truthy status)
           || negb (includes ["pending"; "paid"; "overdue"; "cancelled"] status)
      raise createError "Valid status is required" 400 ;;;
      results <- for_of paymentIds
                   (bulk_update_one u now status (body !! "paidDate") (body !! "notes")) ;;
      ret (Success 200 (Some "Bulk update completed") results)
  | _ => throw (createError "Payment IDs array is required" 400)
  end.

(** ** Applications router *)

(** [JSON.parse(v)], which throws on what is not JSON text. *)
Definition parse (v : option Attr) : M Attr :=
  match v with
  | Some text =>
      match JSON_parse text with
      | Some doc => ret doc
      | None => throw SyntaxError
      end
  | None => throw SyntaxError
  end.

(** The upload loop of the application documents. *)
Definition upload_documents (applicationId : string) (documentTypes : option Attr)
    (files : list File) : M (list Attr) :=
  for_of files (fun file =>
    documentId <- uuidv4 ;;
    let fileExtension := split_pop "" (originalname file) in
    let fileName :=
      "applications/" +:+ applicationId +:+ "/" +:+ documentId +:+ "." +:+ fileExtension in
    try_catch
      (s3_upload fileName file ;;;
       ret (AObj [("id", AStr documentId);
                  ("type", or_else (index documentTypes (fieldname file)) (AStr "other"));
                  ("url", AStr (s3_url fileName));
                  ("name", AStr (originalname file))]))
      (fun _ => throw (createError "Failed to upload document" 500))).

(** POST /applications (renter only). *)
Definition POST_applications (u : User) (now : Z) (applicationData : Item)
    (files : list File) : M (Response Item) :=
  when negb (truthy (applicationData !! "propertyId"))
       || negb (truthy (applicationData !! "personalInfo"))
       || negb (truthy (applicationData !! "employment"))
  raise createError "Missing required fields" 400 ;;;
  propertyId <- as_key (applicationData !! "propertyId") ;;
  property <- dynamoDB_get PROPERTIES propertyId ;;
  match property with
  | None => throw (createError "Property not found" 404)
  | Some prop =>
      when negb (str_is "available" (prop !! "status"))
      raise createError "Property is not available for applications" 400 ;;;
      existingApplication <- dynamoDB_scan APPLICATIONS ["propertyId"; "renterId"] (fun a =>
        str_is propertyId (a !! "propertyId") && str_is (user_id u) (a !! "renterId")) ;;
      when bool_decide (0 < length existingApplication)
      raise createError "You have already applied to this property" 409 ;;;
      applicationId <- uuidv4 ;;
      documents <- upload_documents applicationId (applicationData !! "documentTypes") files ;;
      personalInfo <- parse (applicationData !! "personalInfo") ;;
      employment <- parse (applicationData !! "employment") ;;
      references <- parse (Some (or_else (applicationData !! "references") (AStr "[]"))) ;;
      let application := object (
        [("id", AStr applicationId);
         ("propertyId", AStr propertyId);
         ("renterId", AStr (user_id u))]
        ++ field "landlordId" (prop !! "landlordId")
        ++ [("status", AStr "pending");
            ("personalInfo", personalInfo);
            ("employment", employment);
            ("references", references);
            ("documents", AList documents)]
        ++ field "message" (applicationData !! "message")
        ++ [("createdAt", AStr (toISOString now));
            ("updatedAt", AStr (toISOString now))]) in
      try_catch
        (dynamoDB_put APPLICATIONS application ;;;
         ret (Success 201 (Some "Application submitted successfully") application))
        (fun _ => throw (createError "Failed to submit application" 500))
  end.

(** How the handler builds them, again on a [const updateExpression]. *)
Definition application_update_expression (u : User) (now : Z) (status notes : option Attr)
    : M (list (string * Attr)) :=
  let updateExpression :=
    (field "status" status
     ++ [("updatedAt", AStr (toISOString now));
         ("reviewedAt", AStr (toISOString now));
         ("reviewedBy", AStr (user_id u))])%list in
  if truthy notes
  then append_to_const updateExpression (field "notes" notes)
  else ret updateExpression.

(** PATCH /applications/:id/status (landlord only). *)
Definition PATCH_applications_status (u : User) (now : Z) (id : string) (body : Item)
    : M (Response Item) :=
  let status := body !! "status" in
  let notes := body !! "notes" in
  when String.eqb id "" || negb (truthy status)
  raise createError "Application ID and status are required" 400 ;;;
  when negb (includes ["pending"; "approved"; "rejected"; "withdrawn"] status)
  raise createError "Invalid status" 400 ;;;
  existingApplication <- dynamoDB_get APPLICATIONS id ;;
  match existingApplication with
  | None => throw (createError "Application not found" 404)
  | Some item =>
      when negb (str_is (user_id u) (item !! "landlordId"))
      raise createError "Unauthorized to update this application" 403 ;;;
      try_catch
        (updateExpression <- application_update_expression u now status notes ;;
         result <- dynamoDB_update APPLICATIONS id updateExpression ;;
         (if str_is "approved" status
          then
            propertyId <- as_key (item !! "propertyId") ;;
            dynamoDB_update PROPERTIES propertyId
              [("status", AStr "rented"); ("updatedAt", AStr (toISOString now))] ;;;
            ret tt
          else ret tt) ;;;
         ret (Success 200 (Some "Application status updated successfully") result))
        (fun _ => throw (createError "Failed to update application status" 500))
  end.

(** PATCH /applications/:id/withdraw (renter only). *)
Definition PATCH_applications_withdraw (u : User) (now : Z) (id : string)
    : M (Response Item) :=
  when String.eqb id ""
  raise createError "Application ID is required" 400 ;;;
  existingApplication <- dynamoDB_get APPLICATIONS id ;;
  match existingApplication with
  | None => throw (createError "Application not found" 404)
  | Some item =>
      when negb (str_is (user_id u) (item !! "renterId"))
      raise createError "Unauthorized to withdraw this application" 403 ;;;
      when negb (str_is "pending" (item !! "status"))
      raise createError "Cannot withdraw application that is not pending" 400 ;;;
      try_catch
        (result <- dynamoDB_update APPLICATIONS id
           [("status", AStr "withdrawn"); ("updatedAt", AStr (toISOString now))] ;;
         ret (Success 200 (Some "Application withdrawn successfully") result))
        (fun _ => throw (createError "Failed to withdraw application" 500))
  end.

(** ** Properties router *)

(** The upload loop of the property images. *)
Definition upload_images (propertyId : string) (files : list File) : M (list Attr) :=
  for_of files (fun file =>
    imageId <- uuidv4 ;;
    let fileExtension := split_pop "" (originalname file) in
    let fileName := propertyId +:+ "/" +:+ imageId +:+ "." +:+ fileExtension in
    try_catch
      (s3_upload fileName file ;;;
       ret (AStr (s3_url fileName)))
      (fun _ => throw (createError "Failed to upload image" 500))).

(** [v ? JSON.parse(v) : undefined]. *)
Definition parse_if_present (v : option Attr) : M (option Attr) :=
  if truthy v then doc <- parse v ;; ret (Some doc) else ret None.

(** POST /properties (landlord only). *)
Definition POST_properties (u : User) (now : Z) (propertyData : Item)
    (files : list File) : M (Response Item) :=
  when negb (truthy (propertyData !! "title"))
       || negb (truthy (propertyData !! "description"))
       || negb (truthy (propertyData !! "price"))
       || negb (truthy (propertyData !! "address"))
  raise createError "Missing required fields" 400 ;;;
  propertyId <- uuidv4 ;;
  images <- upload_images propertyId files ;;
  address <- parse (propertyData !! "address") ;;
  coordinates <- parse_if_present (propertyData !! "coordinates") ;;
  price <- parse (propertyData !! "price") ;;
  details <- parse (propertyData !! "details") ;;
  amenities <- parse (Some (or_else (propertyData !! "amenities") (AStr "[]"))) ;;
  leaseTerms <- parse_if_present (propertyData !! "leaseTerms") ;;
  let property := object (
    [("id", AStr propertyId);
     ("landlordId", AStr (user_id u))]
    ++ field "title" (propertyData !! "title")
    ++ field "description" (propertyData !! "description")
    ++ [("address", address)]
    ++ field "coordinates" coordinates
    ++ [("price", price);
        ("details", details);
        ("amenities", amenities);
        ("images", AList images);
        ("status", AStr "available");
        ("createdAt", AStr (toISOString now));
        ("updatedAt", AStr (toISOString now))]
    ++ field "availableDate" (propertyData !! "availableDate")
    ++ field "leaseTerms" leaseTerms) in
  try_catch
    (dynamoDB_put PROPERTIES property ;;;
     ret (Success 201 (Some "Property created successfully") property))
    (fun _ => throw (createError "Failed to create property" 500)).

(** ** Users router: the landlord dashboard *)

(** [(a, b) => new Date(a.k).getTime() - new Date(b.k).getTime()]; a NaN
    difference counts as 0 for the sort. *)
Definition by_time (k : string) (a b : Item) : Z :=
  match Date_getTime (a !! k), Date_getTime (b !! k) with
  | Some ta, Some tb => (ta - tb)%Z
  | _, _ => 0%Z
  end.

(** [new Date(v) < new Date()] and [new Date(v) >= new Date()]: comparisons
    with an Invalid Date are false.  All reads of the clock within one request
    see the same instant [now]. *)
Definition date_lt_now (now : Z) (v : option Attr) : bool :=
  match Date_getTime v with
  | Some t => (t <? now)%Z
  | None => false
  end.

Definition date_ge_now (now : Z) (v : option Attr) : bool :=
  match Date_getTime v with
  | Some t => (now <=? t)%Z
  | None => false
  end.

Definition totalEarnings (payments : list Item) : Z :=
  fold_left (fun sum p => (sum + num (p !! "amount"))%Z)
    (List.filter (fun p => str_is "paid" (p !! "status")) payments) 0%Z.

Definition monthlyEarnings (now : Z) (payments : list Item) : Z :=
  let currentMonth := String.substring 0 7 (toISOString now) in
  fold_left (fun sum p => (sum + num (p !! "amount"))%Z)
    (List.filter (fun p => str_is "paid" (p !! "status")
                           && str_is currentMonth (p !! "month")) payments) 0%Z.

Definition recentApplications (applications : list Item) : list Item :=
  take 5 (Array_sort (fun a b => by_time "createdAt" b a) applications).

Definition overduePayments (now : Z) (payments : list Item) : list Item :=
  Array_sort (by_time "dueDate")
    (List.filter (fun p => str_is "pending" (p !! "status")
                           && date_lt_now now (p !! "dueDate")) payments).

Definition upcomingPayments (now : Z) (payments : list Item) : list Item :=
  take 10 (Array_sort (by_time "dueDate")
    (List.filter (fun p => str_is "pending" (p !! "status")
                           && date_ge_now now (p !! "dueDate")) payments)).

Record PropertiesByStatus : Type := mkPropertiesByStatus {
  available : nat;
  rented : nat;
  maintenance : nat
}.

Record LandlordDashboard : Type := mkLandlordDashboard {
  dash_totalProperties : nat;
  dash_totalEarnings : Z;
  dash_monthlyEarnings : Z;
  dash_propertiesByStatus : PropertiesByStatus;
  dash_recentApplications : list Item;
  dash_overduePayments : list Item;
  dash_upcomingPayments : list Item
}.

(** The dashboard computed from the three scans. *)
Definition dashboard_of (now : Z) (properties applications payments : list Item)
    : LandlordDashboard :=
  mkLandlordDashboard
    (length properties)
    (totalEarnings payments)
    (monthlyEarnings now payments)
    (mkPropertiesByStatus
       (length (List.filter (fun p => str_is "available" (p !! "status")) properties))
       (length (List.filter (fun p => str_is "rented" (p !! "status")) properties))
       (length (List.filter (fun p => str_is "maintenance" (p !! "status")) properties)))
    (recentApplications applications)
    (overduePayments now payments)
    (upcomingPayments now payments).

(** GET /users/landlord/dashboard. *)
Definition GET_users_landlord_dashboard (u : User) (now : Z) : M (Response LandlordDashboard) :=
  when negb (String.eqb (userType u) "landlord")
  raise createError "Landlord access required" 403 ;;;
  try_catch
    (properties <- dynamoDB_scan PROPERTIES ["landlordId"]
                    (fun p => str_is (user_id u) (p !! "landlordId")) ;;
     applications <- dynamoDB_scan APPLICATIONS ["landlordId"]
                    (fun a => str_is (user_id u) (a !! "landlordId")) ;;
     payments <- dynamoDB_scan PAYMENTS ["landlordId"]
                    (fun p => str_is (user_id u) (p !! "landlordId")) ;;
     ret (Success 200 None (dashboard_of now properties applications payments)))
    (fun _ => throw (createError "Failed to fetch dashboard" 500)).

(** ** Users router: account deletion *)

(** DELETE /users/account. *)
Definition DELETE_users_account (u : User) : M (Response unit) :=
  try_catch
    ((if String.eqb (userType u) "landlord"
      then
        rentedProperties <- dynamoDB_scan PROPERTIES ["landlordId"; "status"] (fun p =>
          str_is (user_id u) (p !! "landlordId") && str_is "rented" (p !! "status")) ;;
        when bool_decide (0 < length rentedProperties)
        raise createError "Cannot delete account with active rentals" 400 ;;;
        ret tt
      else
        activeAgreements <- dynamoDB_scan RENTAL_AGREEMENTS ["renterId"; "status"] (fun r =>
          str_is (user_id u) (r !! "renterId") && str_is "active" (r !! "status")) ;;
        when bool_decide (0 < length activeAgreements)
        raise createError "Cannot delete account with active rentals" 400 ;;;
        ret tt) ;;;
     dynamoDB_delete USERS (user_id u) ;;;
     ret (Success 200 (Some "Account deleted successfully") tt))
    (fun _ => throw (createError "Failed to delete account" 500)).

(** ** Reading single records *)

(** GET /users/profile. *)
Definition GET_users_profile (u : User) : M (Response Item) :=
  try_catch
    (result <- dynamoDB_get USERS (user_id u) ;;
     match result with
     | None => throw (createError "User profile not found" 404)
     | Some item => ret (Success 200 None item)
     end)
    (fun _ => throw (createError "Failed to fetch user profile" 500)).

(** GET /payments/:id. *)
Definition GET_payments_id (u : User) (id : string) : M (Response Item) :=
  when String.eqb id ""
  raise createError "Payment ID is required" 400 ;;;
  try_catch
    (result <- dynamoDB_get PAYMENTS id ;;
     match result with
     | None => throw (createError "Payment not found" 404)
     | Some item =>
         when String.eqb (userType u) "renter"
              && negb (str_is (user_id u) (item !! "renterId"))
         raise createError "Unauthorized to view this payment" 403 ;;;
         when String.eqb (userType u) "landlord"
              && negb (str_is (user_id u) (item !! "landlordId"))
         raise createError "Unauthorized to view this payment" 403 ;;;
         ret (Success 200 None item)
     end)
    (fun _ => throw (createError "Failed to fetch payment" 500)).

(** GET /applications/:id. *)
Definition GET_applications_id (u : User) (id : string) : M (Response Item) :=
  when String.eqb id ""
  raise createError "Application ID is required" 400 ;;;
  try_catch
    (result <- dynamoDB_get APPLICATIONS id ;;
     match result with
     | None => throw (createError "Application not found" 404)
     | Some item =>
         when String.eqb (userType u) "renter"
              && negb (str_is (user_id u) (item !! "renterId"))
         raise createError "Unauthorized to view this application" 403 ;;;
         when String.eqb (userType u) "landlord"
              && negb (str_is (user_id u) (item !! "landlordId"))
         raise createError "Unauthorized to view this application" 403 ;;;
         ret (Success 200 None item)
     end)
    (fun _ => throw (createError "Failed to fetch application" 500)).

(** GET /properties/:id (authentication optional, the user is not read). *)
Definition GET_properties_id (id : string) : M (Response Item) :=
  when String.eqb id ""
  raise createError "Property ID is required" 400 ;;;
  try_catch
    (result <- dynamoDB_get PROPERTIES id ;;
     match result with
     | None => throw (createError "Property not found" 404)
     | Some item => ret (Success 200 None item)
     end)
    (fun _ => throw (createError "Failed to fetch property" 500)).

(** ** Users router: the renter dashboard and the statistics *)

(** [a || b] where either side may be [undefined]. *)
Definition or_undefined (a b : option Attr) : option Attr :=
  if truthy a then a else b.

(** [(a, b) => new Date(b.paidDate || b.createdAt).getTime()
              - new Date(a.paidDate || a.createdAt).getTime()]. *)
Definition by_paid_desc (a b : Item) : Z :=
  match Date_getTime (or_undefined (b !! "paidDate") (b !! "createdAt")),
        Date_getTime (or_undefined (a !! "paidDate") (a !! "createdAt")) with
  | Some tb, Some ta => (tb - ta)%Z
  | _, _ => 0%Z
  end.

Definition activeApplications (applications : list Item) : list Item :=
  Array_sort (fun a b => by_time "createdAt" b a)
    (List.filter (fun a => str_is "pending" (a !! "status")) applications).

Definition paymentHistory (payments : list Item) : list Item :=
  take 10 (Array_sort by_paid_desc
    (List.filter (fun p => str_is "paid" (p !! "status")) payments)).

Definition renterUpcomingPayments (now : Z) (payments : list Item) : list Item :=
  take 5 (Array_sort (by_time "dueDate")
    (List.filter (fun p => str_is "pending" (p !! "status")
                           && date_ge_now now (p !! "dueDate")) payments)).

Record RenterDashboard : Type := mkRenterDashboard {
  rdash_activeApplications : list Item;
  rdash_currentRentals : list Item;
  rdash_paymentHistory : list Item;
  rdash_upcomingPayments : list Item
}.

(** GET /users/renter/dashboard. *)
Definition GET_users_renter_dashboard (u : User) (now : Z) : M (Response RenterDashboard) :=
  when negb (String.eqb (userType u) "renter")
  raise createError "Renter access required" 403 ;;;
  try_catch
    (applications <- dynamoDB_scan APPLICATIONS ["renterId"]
                    (fun a => str_is (user_id u) (a !! "renterId")) ;;
     currentRentals <- dynamoDB_scan RENTAL_AGREEMENTS ["renterId"; "status"] (fun r =>
       str_is (user_id u) (r !! "renterId") && str_is "active" (r !! "status")) ;;
     payments <- dynamoDB_scan PAYMENTS ["renterId"]
                    (fun p => str_is (user_id u) (p !! "renterId")) ;;
     ret (Success 200 None
            (mkRenterDashboard (activeApplications applications) currentRentals
               (paymentHistory payments) (renterUpcomingPayments now payments))))
    (fun _ => throw (createError "Failed to fetch dashboard" 500)).







(** ** Updates of a profile and of a property *)

(** The assignment [updateExpression += ...] on its own, for the clauses whose
    value is computed after it. *)
Definition assign_to_const : M unit :=
  if const_is_readonly then throw TypeError else ret tt.

(** [if (data.k) { updateExpression += ', k = :k'; values[':k'] = data.k }]. *)
Definition append_if_given (updateExpression : list (string * Attr)) (k : string)
    (v : option Attr) : M (list (string * Attr)) :=
  if truthy v then append_to_const updateExpression (field k v) else ret updateExpression.

(** [if (data.k) { updateExpression += ', k = :k'; values[':k'] = JSON.parse(data.k) }]. *)
Definition append_parsed_if_given (updateExpression : list (string * Attr)) (k : string)
    (v : option Attr) : M (list (string * Attr)) :=
  if truthy v
  then assign_to_const ;;; doc <- parse v ;; ret (updateExpression ++ [(k, doc)])%list
  else ret updateExpression.

(** PUT /users/profile; [file] is what multer leaves in [req.file]. *)
Definition PUT_users_profile (u : User) (now : Z) (profileData : Item)
    (file : option File) : M (Response Item) :=
  profileImageUrl <-
    match file with
    | Some f =>
        let fileExtension := split_pop "" (originalname f) in
        imageId <- uuidv4 ;;
        let fileName :=
          "profiles/" +:+ user_id u +:+ "/" +:+ imageId +:+ "." +:+ fileExtension in
        try_catch
          (s3_upload fileName f ;;;
           ret (Some (AStr (s3_url fileName))))
          (fun _ => throw (createError "Failed to upload profile image" 500))
    | None => ret None
    end ;;
  let updateExpression := [("updatedAt", AStr (toISOString now))] in
  updateExpression <- append_if_given updateExpression "firstName" (profileData !! "firstName") ;;
  updateExpression <- append_if_given updateExpression "lastName" (profileData !! "lastName") ;;
  updateExpression <- append_if_given updateExpression "phone" (profileData !! "phone") ;;
  updateExpression <- append_parsed_if_given updateExpression "address" (profileData !! "address") ;;
  updateExpression <- append_parsed_if_given updateExpression "emergencyContact"
                        (profileData !! "emergencyContact") ;;
  updateExpression <- append_if_given updateExpression "profileImage" profileImageUrl ;;
  try_catch
    (result <- dynamoDB_update USERS (user_id u) updateExpression ;;
     ret (Success 200 (Some "Profile updated successfully") result))
    (fun _ => throw (createError "Failed to update profile" 500)).

(** [v.length > 0] on a value: arrays and strings have a length, an object
    only as a field of that name, which the comparison converts to a number;
    other values have none. *)
Definition has_length (v : Attr) : M bool :=
  match v with
  | AList l => ret (bool_decide (0 < length l))
  | AStr s => ret (bool_decide (0 < String.length s))
  | AObj _ =>
      match index (Some v) "length" with
      | Some n => x <- to_number (Some n) ;; ret (is_positive x)
      | None => ret false
      end
  | _ => ret false
  end.

(** The upload loop of PUT /properties/:id, which pushes each URL onto
    [images]: on what is not an array the first [push] throws, inside the
    [try] around the upload. *)
Definition push_uploads (propertyId : string) (images : Attr) (files : list File) : M Attr :=
  match images with
  | AList l =>
      urls <- upload_images propertyId files ;;
      ret (AList (l ++ urls))
  | _ =>
      match files with
      | [] => ret images
      | file :: _ =>
          imageId <- uuidv4 ;;
          let fileExtension := split_pop "" (originalname file) in
          let fileName := propertyId +:+ "/" +:+ imageId +:+ "." +:+ fileExtension in
          try_catch
            (s3_upload fileName file ;;;
             throw TypeError)
            (fun _ => throw (createError "Failed to upload image" 500))
      end
  end.

(** PUT /properties/:id (landlord only). *)
Definition PUT_properties_id (u : User) (now : Z) (id : string) (propertyData : Item)
    (files : list File) : M (Response Item) :=
  when String.eqb id ""
  raise createError "Property ID is required" 400 ;;;
  existingProperty <- dynamoDB_get PROPERTIES id ;;
  match existingProperty with
  | None => throw (createError "Property not found" 404)
  | Some item =>
      when negb (str_is (user_id u) (item !! "landlordId"))
      raise createError "Unauthorized to update this property" 403 ;;;
      images <- push_uploads id (or_else (item !! "images") (AList [])) files ;;
      let updateExpression := [("updatedAt", AStr (toISOString now))] in
      updateExpression <- append_if_given updateExpression "title" (propertyData !! "title") ;;
      updateExpression <- append_if_given updateExpression "description"
                            (propertyData !! "description") ;;
      updateExpression <- append_parsed_if_given updateExpression "address"
                            (propertyData !! "address") ;;
      updateExpression <- append_parsed_if_given updateExpression "price"
                            (propertyData !! "price") ;;
      updateExpression <- append_parsed_if_given updateExpression "details"
                            (propertyData !! "details") ;;
      updateExpression <- append_parsed_if_given updateExpression "amenities"
                            (propertyData !! "amenities") ;;
      grown <- has_length images ;;
      updateExpression <-
        (if grown
         then append_to_const updateExpression [("images", images)]
         else ret updateExpression) ;;
      updateExpression <- append_if_given updateExpression "status" (propertyData !! "status") ;;
      try_catch
        (result <- dynamoDB_update PROPERTIES id updateExpression ;;
         ret (Success 200 (Some "Property updated successfully") result))
        (fun _ => throw (createError "Failed to update property" 500))
  end.

(** ** Deleting a property *)

(** [s.split('/')]; [seg] is the segment read so far. *)
Fixpoint split_slash (seg : string) (s : string) : list string :=
  match s with
  | EmptyString => [seg]
  | String c rest =>
      if Ascii.eqb c "/"%char then seg :: split_slash "" rest
      else split_slash (seg +:+ String c "") rest
  end.

(** [parts.slice(-2)]. *)
Definition slice_last2 {A} (parts : list A) : list A :=
  drop (length parts - 2) parts.

(** [parts.join('/')]. *)
Fixpoint join_slash (parts : list string) : string :=
  match parts with
  | [] => ""
  | [part] => part
  | part :: rest => part +:+ "/" +:+ join_slash rest
  end.

(** [url.split('/').slice(-2).join('/')]. *)
Definition key_of_url (url : string) : string :=
  join_slash (slice_last2 (split_slash "" url)).

(** [images.map(url => ({ Key: url.split('/').slice(-2).join('/') }))]: what
    is not an array has no [map], what is not a string no [split]. *)
Definition image_keys (images : Attr) : M (list string) :=
  match images with
  | AList urls =>
      for_of urls (fun url =>
        match url with
        | AStr s => ret (key_of_url s)
        | _ => throw TypeError
        end)
  | _ => throw TypeError
  end.

(** [s3.deleteObjects({Delete: {Objects}})]. *)
Definition s3_deleteObjects (keys : list string) : M unit :=
  aws ;;;
  fun w => (Ok tt, mkWorld (db w) (foldr delete (bucket w) keys) (faults w) (drawn w)).

(** DELETE /properties/:id (landlord only). *)
Definition DELETE_properties_id (u : User) (id : string) : M (Response unit) :=
  when String.eqb id ""
  raise createError "Property ID is required" 400 ;;;
  existingProperty <- dynamoDB_get PROPERTIES id ;;
  match existingProperty with
  | None => throw (createError "Property not found" 404)
  | Some item =>
      when negb (str_is (user_id u) (item !! "landlordId"))
      raise createError "Unauthorized to delete this property" 403 ;;;
      try_catch
        (dynamoDB_delete PROPERTIES id ;;;
         match item !! "images" with
         | Some images =>
             filled <- (if truthy (Some images) then has_length images else ret false) ;;
             if filled
             then
               keys <- image_keys images ;;
               try_catch (s3_deleteObjects keys) (fun _ => ret tt) ;;;
               ret (Success 200 (Some "Property deleted successfully") tt)
             else ret (Success 200 (Some "Property deleted successfully") tt)
         | None => ret (Success 200 (Some "Property deleted successfully") tt)
         end)
        (fun _ => throw (createError "Failed to delete property" 500))
  end.

(** ** The routes as mounted: role gate, then handler *)

Definition route_POST_payments (user : option User) (now : Z) (body : Item) :=
  requireLandlord user (fun u => asyncHandler (POST_payments u now body)).

Definition route_PATCH_payments_status (user : option User) (now : Z) (id : string)
    (body : Item) :=
  requireLandlord user (fun u => asyncHandler (PATCH_payments_status u now id body)).

Definition route_PATCH_payments_bulk_update (user : option User) (now : Z) (body : Item) :=
  requireLandlord user (fun u => asyncHandler (PATCH_payments_bulk_update u now body)).

Definition route_POST_applications (user : option User) (now : Z) (body : Item)
    (files : list File) :=
  requireRenter user (fun u => asyncHandler (POST_applications u now body files)).

Definition route_PATCH_applications_status (user : option User) (now : Z) (id : string)
    (body : Item) :=
  requireLandlord user (fun u => asyncHandler (PATCH_applications_status u now id body)).

Definition route_PATCH_applications_withdraw (user : option User) (now : Z) (id : string) :=
  requireRenter user (fun u => asyncHandler (PATCH_applications_withdraw u now id)).

Definition route_POST_properties (user : option User) (now : Z) (body : Item)
    (files : list File) :=
  requireLandlord user (fun u => asyncHandler (POST_properties u now body files)).

Definition route_PUT_properties_id (user : option User) (now : Z) (id : string)
    (body : Item) (files : list File) :=
  requireLandlord user (fun u => asyncHandler (PUT_properties_id u now id body files)).

Definition route_DELETE_properties_id (user : option User) (id : string) :=
  requireLandlord user (fun u => asyncHandler (DELETE_properties_id u id)).

(** GET /properties/:id passes [optionalAuth], which lets every request
    through. *)
Definition route_GET_properties_id (id : string) :=
  asyncHandler (GET_properties_id id).

(** GET /payments/:id and GET /applications/:id have no role gate. *)
Definition route_GET_payments_id (u : User) (id : string) :=
  asyncHandler (GET_payments_id u id).

Definition route_GET_applications_id (u : User) (id : string) :=
  asyncHandler (GET_applications_id u id).

(** The users router has no role gate of its own. *)
Definition route_GET_users_landlord_dashboard (u : User) (now : Z) :=
  asyncHandler (GET_users_landlord_dashboard u now).

Definition route_DELETE_users_account (u : User) :=
  asyncHandler (DELETE_users_account u).

Definition route_GET_users_profile (u : User) :=
  asyncHandler (GET_users_profile u).

Definition route_PUT_users_profile (u : User) (now : Z) (body : Item) (file : option File) :=
  asyncHandler (PUT_users_profile u now body file).

Definition route_GET_users_renter_dashboard (u : User) (now : Z) :=
  asyncHandler (GET_users_renter_dashboard u now).


End Model.

(** ** middleware/auth: authentication against Cognito *)

(** An entry of [UserAttributes] and the answer of [cognito.getUser]. *)
Record AttributeType : Type := mkAttribute {
  attr_Name : string;
  attr_Value : option string
}.

Record GetUserResponse : Type := mkGetUserResponse {
  Username : string;
  UserAttributes : option (list AttributeType)
}.

(** The user pool, whose code is not part of the repository:
    [cognito.getUser({AccessToken})] answers or rejects ([None]). *)
Class Cognito := {
  cognito_getUser : string -> option GetUserResponse
}.

(** [req.user] in full. *)
Record AuthUser : Type := mkAuthUser {
  au_id : string;
  au_email : string;
  au_firstName : string;
  au_lastName : string;
  au_userType : string;
  au_phone : option string;
  au_createdAt : string;
  au_updatedAt : string;
  au_isVerified : bool
}.

(** What the handlers read of it. *)
Definition as_User (a : AuthUser) : User := mkUser (au_id a) (au_userType a).

(** What a middleware does with a request: it calls [next()], with or without
    having set [req.user], or it answers itself. *)
Inductive Passage : Type :=
  | Next (user : option AuthUser)
  | Answer (status : Z) (error : string).

(** [value || fallback] on an optional string. *)
Definition value_or (value : option string) (fallback : string) : string :=
  match value with
  | Some s => if String.eqb s "" then fallback else s
  | None => fallback
  end.

(** The body of the [forEach] over the attributes: the [switch] on
    [attr.Name]. *)
Definition map_attribute (user : AuthUser) (attr : AttributeType) : AuthUser :=
  let 'mkAuthUser id email firstName lastName type phone createdAt updatedAt isVerified :=
    user in
  if String.eqb (attr_Name attr) "email" then
    mkAuthUser id (value_or (attr_Value attr) "") firstName lastName type phone
      createdAt updatedAt isVerified
  else if String.eqb (attr_Name attr) "given_name" then
    mkAuthUser id email (value_or (attr_Value attr) "") lastName type phone
      createdAt updatedAt isVerified
  else if String.eqb (attr_Name attr) "family_name" then
    mkAuthUser id email firstName (value_or (attr_Value attr) "") type phone
      createdAt updatedAt isVerified
  else if String.eqb (attr_Name attr) "custom:userType" then
    mkAuthUser id email firstName lastName (value_or (attr_Value attr) "renter") phone
      createdAt updatedAt isVerified
  else if String.eqb (attr_Name attr) "phone_number" then
    mkAuthUser id email firstName lastName type (Some (value_or (attr_Value attr) ""))
      createdAt updatedAt isVerified
  else if String.eqb (attr_Name attr) "email_verified" then
    mkAuthUser id email firstName lastName type phone createdAt updatedAt
      (bool_decide (attr_Value attr = Some "true"))
  else user.

Section Authentication.
Context `{Runtime} `{Cognito}.

(** The user both middlewares build from the answer of Cognito. *)
Definition user_of_response (now : Z) (result : GetUserResponse) : AuthUser :=
  fold_left map_attribute (default [] (UserAttributes result))
    (mkAuthUser (Username result) "" "" "" "renter" None
       (toISOString now) (toISOString now) false).

(** [!authHeader || !authHeader.startsWith('Bearer ')]. *)
Definition lacks_bearer (authorization : option string) : bool :=
  match authorization with
  | Some authHeader => String.eqb authHeader "" || negb (String.prefix "Bearer " authHeader)
  | None => true
  end.

(** [authHeader.substring(7)]. *)
Definition bearer_token (authHeader : string) : string :=
  String.substring 7 (String.length authHeader - 7) authHeader.

Definition authMiddleware (now : Z) (authorization : option string) : Passage :=
  if lacks_bearer authorization then Answer 401 "Access token required"
  else
    match cognito_getUser (bearer_token (default "" authorization)) with
    | Some result =>
        if String.eqb (Username result) "" then Answer 401 "Invalid token"
        else Next (Some (user_of_response now result))
    | None => Answer 401 "Invalid or expired token"
    end.

Definition optionalAuth (now : Z) (authorization : option string) : Passage :=
  if lacks_bearer authorization then Next None
  else
    match cognito_getUser (bearer_token (default "" authorization)) with
    | Some result =>
        if String.eqb (Username result) "" then Next None
        else Next (Some (user_of_response now result))
    | None => Next None
    end.

(** A route behind [authMiddleware] and a role gate. *)
Definition authenticated {D} (now : Z) (authorization : option string)
    (gate : option User -> (User -> World -> Response D * World) -> World -> Response D * World)
    (next : User -> World -> Response D * World) : World -> Response D * World :=
  fun w =>
    match authMiddleware now authorization with
    | Next user => gate (as_User <$> user) next w
    | Answer status error => (Failure status error, w)
    end.

End Authentication.

(** ** A concrete runtime and concrete worlds for the examples *)

Module Sample.

Definition digit (c : ascii) : option Z :=
  let n := nat_of_ascii c in
  if (48 <=? n)%nat && (n <=? 57)%nat then Some (Z.of_nat (n - 48)) else None.

Fixpoint digits (acc : Z) (s : string) : option Z :=
  match s with
  | EmptyString => Some acc
  | String c rest =>
      match digit c with
      | Some d => digits (10 * acc + d) rest
      | None => None
      end
  end.

(** Days since 1970-01-01 of a civil date, and back. *)
Definition days_from_civil (y m d : Z) : Z :=
  let y' := (if m <=? 2 then y - 1 else y)%Z in
  let era := (y' / 400)%Z in
  let yoe := (y' - era * 400)%Z in
  let doy := ((153 * (if 2 <? m then m - 3 else m + 9) + 2) / 5 + d - 1)%Z in
  let doe := (yoe * 365 + yoe / 4 - yoe / 100 + doy)%Z in
  (era * 146097 + doe - 719468)%Z.

Definition civil_from_days (days : Z) : Z * Z * Z :=
  let z := (days + 719468)%Z in
  let era := (z / 146097)%Z in
  let doe := (z - era * 146097)%Z in
  let yoe := ((doe - doe / 1460 + doe / 36524 - doe / 146096) / 365)%Z in
  let doy := (doe - (365 * yoe + yoe / 4 - yoe / 100))%Z in
  let mp := ((5 * doy + 2) / 153)%Z in
  let d := (doy - (153 * mp + 2) / 5 + 1)%Z in
  let m := (if mp <? 10 then mp + 3 else mp - 9)%Z in
  let y := (yoe + era * 400)%Z in
  ((if m <=? 2 then y + 1 else y)%Z, m, d).

Definition ms_per_day : Z := 86400000.

(** The date part YYYY-MM-DD of a string, as a time value at midnight UTC. *)
Definition date_part (s : string) : option Z :=
  match digits 0 (String.substring 0 4 s),
        digits 0 (String.substring 5 2 s),
        digits 0 (String.substring 8 2 s) with
  | Some y, Some m, Some d =>
      if String.eqb (String.substring 4 1 s) "-"
         && String.eqb (String.substring 7 1 s) "-"
         && (1 <=? m)%Z && (m <=? 12)%Z && (1 <=? d)%Z
         && (d <=? (days_from_civil (if m =? 12 then y + 1 else y)
                      (if m =? 12 then 1 else m + 1) 1
                    - days_from_civil y m 1))%Z
      then Some (days_from_civil y m d * ms_per_day)%Z
      else None
  | _, _, _ => None
  end.

(** The time part THH:MM:SS.mmmZ of a timestamp, in milliseconds. *)
Definition time_part (s : string) : option Z :=
  match digits 0 (String.substring 11 2 s),
        digits 0 (String.substring 14 2 s),
        digits 0 (String.substring 17 2 s),
        digits 0 (String.substring 20 3 s) with
  | Some h, Some m, Some sec, Some ms =>
      if String.eqb (String.substring 10 1 s) "T"
         && String.eqb (String.substring 13 1 s) ":"
         && String.eqb (String.substring 16 1 s) ":"
         && String.eqb (String.substring 19 1 s) "."
         && String.eqb (String.substring 23 1 s) "Z"
         && (h <? 24)%Z && (m <? 60)%Z && (sec <? 60)%Z
      then Some (h * 3600000 + m * 60000 + sec * 1000 + ms)%Z
      else None
  | _, _, _, _ => None
  end.

(** Reads the date-only form YYYY-MM-DD (midnight UTC) and the timestamps
    YYYY-MM-DDTHH:MM:SS.mmmZ that [toISOString] writes; a number is a time
    value already when it lies within the range of a Date; anything else is
    taken for an Invalid Date. *)
Definition getTime (v : option Attr) : option Z :=
  match v with
  | Some (ANum n) => if (Z.abs n <=? 8640000000000000)%Z then Some n else None
  | Some (AStr s) =>
      if (String.length s =? 10)%nat then date_part s
      else if (String.length s =? 24)%nat then
        match date_part s, time_part s with
        | Some d, Some t => Some (d + t)%Z
        | _, _ => None
        end
      else None
  | _ => None
  end.

Definition digit_char (n : Z) : string :=
  String (ascii_of_nat (48 + Z.to_nat (n mod 10))) "".

Definition pad2 (n : Z) : string := digit_char (n / 10) +:+ digit_char n.
Definition pad3 (n : Z) : string := digit_char (n / 100) +:+ pad2 n.
Definition pad4 (n : Z) : string := digit_char (n / 1000) +:+ pad3 n.

Definition isoString (t : Z) : string :=
  let '(y, m, d) := civil_from_days (t / ms_per_day) in
  let r := (t mod ms_per_day)%Z in
  pad4 y +:+ "-" +:+ pad2 m +:+ "-" +:+ pad2 d +:+ "T"
  +:+ pad2 (r / 3600000) +:+ ":" +:+ pad2 (r / 60000 mod 60) +:+ ":"
  +:+ pad2 (r / 1000 mod 60) +:+ "." +:+ pad3 (r mod 1000) +:+ "Z".

(** Parses the JSON texts the examples use: the empty object, the empty
    array, and non-negative integers. *)
Definition jsonParse (v : Attr) : option Attr :=
  match v with
  | AStr "{}" => Some (AObj [])
  | AStr "[]" => Some (AList [])
  | AStr EmptyString => None
  | AStr s => ANum <$> digits 0 s
  | ANum n => Some (ANum n)
  | _ => None
  end.

(** [Number(v)] on the values the examples convert: a number is itself, a
    boolean 1 or 0, null and the empty string 0, a string of digits the
    integer it writes; [undefined], an object without a [toString] of its own
    and any other string are NaN, and an object with a [toString] field has
    no primitive.  (The examples convert no array but the empty one.) *)
Definition toNumber (v : option Attr) : option JsNumber :=
  match v with
  | Some (ANum n) => Some (JsFinite n)
  | Some ANaN | None => Some JsNaN
  | Some (AInfinity negative) => Some (JsInfinity negative)
  | Some (AStr s) =>
      Some (match digits 0 s with Some n => JsFinite n | None => JsNaN end)
  | Some (ABool b) => Some (JsFinite (if b then 1 else 0))
  | Some ANull => Some (JsFinite 0)
  | Some (AList []) => Some (JsFinite 0)
  | Some (AList _) => Some JsNaN
  | Some (AObj fields) => if printable (AObj fields) then Some JsNaN else None
  end.

Fixpoint decimal (fuel : nat) (n : nat) : string :=
  match fuel with
  | O => ""
  | S fuel' =>
      (if (n <? 10)%nat then "" else decimal fuel' (n / 10))
      +:+ String (ascii_of_nat (48 + n mod 10)) ""
  end.

Definition uuid (n : nat) : string := "uuid-" +:+ decimal 20 n.

(** A runtime that keeps [const] read-only, and one whose build turned
    [const] into [var]. *)
Definition runtime : Runtime :=
  {| Date_getTime := getTime;
     toISOString := isoString;
     JSON_parse := jsonParse;
     Number_ := toNumber;
     uuid_at := uuid;
     const_is_readonly := true |}.

Definition downleveled : Runtime :=
  {| Date_getTime := getTime;
     toISOString := isoString;
     JSON_parse := jsonParse;
     Number_ := toNumber;
     uuid_at := uuid;
     const_is_readonly := false |}.

Definition emptyDB : DB := mkDB ∅ ∅ ∅ ∅ ∅.

Definition world (d : DB) : World := mkWorld d ∅ [] 0.

Definition landlord1 : User := mkUser "L1" "landlord".
Definition landlord2 : User := mkUser "L2" "landlord".
Definition renter1 : User := mkUser "R1" "renter".

(** 2024-03-15T00:00:00.000Z *)
Definition now0 : Z := 1710460800000.

(** A payment record as POST /payments stores it (fields the examples read). *)
Definition payment (id landlord status : string) (amount : Z) (dueDate : string) : Item :=
  object [("id", AStr id); ("landlordId", AStr landlord); ("amount", ANum amount);
          ("status", AStr status); ("dueDate", AStr dueDate)].

(** A refund entered as a payment with a negative amount. *)
Definition refund : Item := payment "p5" "L1" "paid" (-100) "2024-03-05".

(** The rent of April, not yet paid. *)
Definition rent_april : Item := payment "p3" "L1" "pending" 50 "2024-04-10".

(** 2024-05-01T00:00:00.000Z *)
Definition now1 : Z := (days_from_civil 2024 5 1 * ms_per_day)%Z.

(** A listed house of landlord L1 and the application of renter R1 for it. *)
Definition house (status : string) : Item :=
  object [("id", AStr "h1"); ("landlordId", AStr "L1"); ("title", AStr "Cottage");
          ("status", AStr status)].

Definition application (status : string) : Item :=
  object [("id", AStr "a1"); ("propertyId", AStr "h1"); ("renterId", AStr "R1");
          ("landlordId", AStr "L1"); ("status", AStr status)].

Definition listing (houseStatus applicationStatus : string) : World :=
  world (mkDB ∅ {[ "h1" := house houseStatus ]}
              {[ "a1" := application applicationStatus ]} ∅ ∅).

(** The form a renter submits for the house. *)
Definition application_form : Item :=
  object [("propertyId", AStr "h1"); ("personalInfo", AStr "{}");
          ("employment", AStr "{}")].

Definition renter2 : User := mkUser "R2" "renter".

(** Landlord L1 with a profile and one rented house; renter R1 with a profile
    and an active rental agreement. *)
Definition profile (id userType : string) : Item :=
  object [("id", AStr id); ("userType", AStr userType)].

Definition tenancy : World :=
  world (mkDB (list_to_map [("L1", profile "L1" "landlord"); ("R1", profile "R1" "renter")])
              {[ "h1" := house "rented" ]}
              ∅ ∅
              {[ "g1" := object [("id", AStr "g1"); ("propertyId", AStr "h1");
                                 ("landlordId", AStr "L1"); ("renterId", AStr "R1");
                                 ("status", AStr "active")] ]}).

(** The same world once the house is available again and the agreement has
    expired. *)
Definition vacancy : World :=
  world (mkDB (list_to_map [("L1", profile "L1" "landlord"); ("R1", profile "R1" "renter")])
              {[ "h1" := house "available" ]}
              ∅ ∅
              {[ "g1" := object [("id", AStr "g1"); ("propertyId", AStr "h1");
                                 ("landlordId", AStr "L1"); ("renterId", AStr "R1");
                                 ("status", AStr "expired")] ]}).

(** Creation requests that also name a status of the caller's choosing. *)
Definition property_form : Item :=
  object [("title", AStr "Cottage"); ("description", AStr "Two rooms");
          ("price", AStr "1200"); ("address", AStr "{}"); ("details", AStr "{}");
          ("status", AStr "rented")].

Definition payment_form : Item :=
  object [("rentalAgreementId", AStr "g1"); ("amount", ANum 1200);
          ("type", AStr "rent"); ("dueDate", AStr "2024-04-01");
          ("status", AStr "paid")].

Definition eager_application_form : Item :=
  <["status" := AStr "approved"]> application_form.

Definition ledger : World :=
  world (mkDB ∅ ∅ ∅
    (list_to_map [("p1", payment "p1" "L1" "paid" 100 "2024-03-01");
                  ("p2", payment "p2" "L1" "pending" 50 "2024-03-10");
                  ("p3", rent_april);
                  ("p4", payment "p4" "L2" "pending" 70 "2024-04-10");
                  ("p5", refund)])
    ∅).

(** Renter R1's rent for the house of landlord L1: January paid on 3 February,
    February paid without a paidDate, March pending and overdue on 15 March,
    April pending. *)
Definition rent (id status dueDate month : string) (more : list (string * Attr)) : Item :=
  object ([("id", AStr id); ("renterId", AStr "R1"); ("landlordId", AStr "L1");
           ("amount", ANum 50); ("status", AStr status); ("dueDate", AStr dueDate);
           ("month", AStr month); ("createdAt", AStr "2024-01-01")] ++ more).

Definition rent_january : Item :=
  rent "r1" "paid" "2024-01-10" "2024-01" [("paidDate", AStr "2024-02-03")].
Definition rent_february : Item := rent "r2" "paid" "2024-02-10" "2024-02" [].
Definition rent_march : Item := rent "r3" "pending" "2024-03-10" "2024-03" [].
Definition rent_of_april : Item := rent "r4" "pending" "2024-04-10" "2024-04" [].

(** A second house of L1, taken off the market, and R1's pending application
    for it. *)
Definition barn : Item :=
  object [("id", AStr "h2"); ("landlordId", AStr "L1"); ("title", AStr "Barn");
          ("status", AStr "inactive")].

Definition barn_application : Item :=
  object [("id", AStr "a2"); ("propertyId", AStr "h2"); ("renterId", AStr "R1");
          ("landlordId", AStr "L1"); ("status", AStr "pending");
          ("createdAt", AStr "2024-03-01")].

Definition lease : World :=
  world (mkDB ∅
    (list_to_map [("h1", house "rented"); ("h2", barn)])
    (list_to_map [("a1", <["createdAt" := AStr "2024-01-01"]> (application "approved"));
                  ("a2", barn_application)])
    (list_to_map [("r1", rent_january); ("r2", rent_february);
                  ("r3", rent_march); ("r4", rent_of_april)])
    {[ "g1" := object [("id", AStr "g1"); ("propertyId", AStr "h1");
                       ("landlordId", AStr "L1"); ("renterId", AStr "R1");
                       ("status", AStr "active")] ]}).

(** A photo of the house, and the house with it in its gallery. *)
Definition photo : File := mkFile "images" "front.jpg" "image/jpeg" "JFIF".

Definition gallery_house : Item :=
  <["images" := AList [AStr (s3_url "h1/i1.jpg")]]> (house "available").

(** The house with its photo stored, while the bucket rejects requests. *)
Definition gallery : World :=
  mkWorld (mkDB ∅ {[ "h1" := gallery_house ]} ∅ ∅ ∅) {[ "h1/i1.jpg" := photo ]}
    [false; false; true] 0.

(** A user pool with landlord L1 and with a user R9 who has no
    custom:userType attribute. *)
Definition pool : Cognito :=
  {| cognito_getUser := fun token =>
       if String.eqb token "token-L1"
       then Some (mkGetUserResponse "L1"
              (Some [mkAttribute "email" (Some "l1@example.org");
                     mkAttribute "custom:userType" (Some "landlord")]))
       else if String.eqb token "token-R9"
       then Some (mkGetUserResponse "R9"
              (Some [mkAttribute "email" (Some "r9@example.org");
                     mkAttribute "email_verified" (Some "true")]))
       else None |}.

End Sample.

(** ** Statements the properties are phrased with *)

(** The sum of [amount] over exactly the payments whose status is [paid], as
    the specification words it. *)
Fixpoint paid_sum (payments : list Item) : Z :=
  match payments with
  | [] => 0%Z
  | p :: rest =>
      if str_is "paid" (p !! "status")
      then (num (p !! "amount") + paid_sum rest)%Z
      else paid_sum rest
  end.

(** What a scan with the given filter yields in a world. *)
Definition scanned (t : Table) (flt : Item -> bool) (w : World) : list Item :=
  List.filter flt (map_to_list (table t (db w))).*2.

(** The payments of a landlord, as the dashboard fetches them. *)
Definition payments_of (u : User) (w : World) : list Item :=
  scanned PAYMENTS (fun p => str_is (user_id u) (p !! "landlordId")) w.

(** The payments collection with the status of the payment at position [i]
    changed to [v]. *)
Definition with_status (payments : list Item) (i : nat) (p : Item) (v : Attr) : list Item :=
  <[i := <["status" := v]> p]> payments.

(** The collections on which the sums of the code are the exact sums: every
    paid payment holds an integer amount, and the absolute values of these
    amounts add up to at most 2^53, so that no addition of the reduce rounds. *)
Definition abs_sum (payments : list Item) : Z :=
  foldr (fun p acc => (Z.abs (num (p !! "amount")) + acc)%Z) 0%Z payments.

Definition exact_sums (payments : list Item) : Prop :=
  let paid := List.filter (fun p => str_is "paid" (p !! "status")) payments in
  Forall (fun p => exists n, p !! "amount" = Some (ANum n)) paid
  /\ (abs_sum paid <= 2 ^ 53)%Z.

(** The double nearest to the integer [n], ties going to the even mantissa,
    for magnitudes below 2^1024: what the addition of two integer-valued
    doubles yields when their exact sum is [n]. *)
Definition round_double (n : Z) : Z :=
  let m := Z.abs n in
  if (m <=? 2 ^ 53)%Z then n
  else
    let e := (Z.log2 m - 52)%Z in
    let q := (m / 2 ^ e)%Z in
    let r := (m mod 2 ^ e)%Z in
    let half := (2 ^ (e - 1))%Z in
    let q' :=
      if (r <? half)%Z then q
      else if (half <? r)%Z then (q + 1)%Z
      else if Z.even q then q else (q + 1)%Z in
    (Z.sgn n * (q' * 2 ^ e))%Z.

(** The reduce of the total earnings as the code runs it, each addition
    rounded to a double. *)
Definition rounded_total (payments : list Item) : Z :=
  fold_left (fun sum p => round_double (sum + num (p !! "amount")))
    (List.filter (fun p => str_is "paid" (p !! "status")) payments) 0%Z.

(** The second half of the total-earnings property as the specification
    states it, for the total as the code adds it. *)
Definition unpaying_lowers_total : Prop :=
  forall (payments : list Item) (i : nat) (p : Item) (v : Attr),
    payments !! i = Some p ->
    str_is "paid" (p !! "status") = true ->
    str_is "paid" (Some v) = false ->
    (rounded_total (with_status payments i p v) < rounded_total payments)%Z
    \/ (num (p !! "amount") = 0%Z
        /\ rounded_total (with_status payments i p v) = rounded_total payments).

Section Listings.
Context `{Runtime}.

(** A payment whose stored status is [pending] and whose dueDate lies strictly
    before [now]. *)
Definition pending_before (now : Z) (p : Item) : Prop :=
  p !! "status" = Some (AStr "pending")
  /\ exists t, Date_getTime (p !! "dueDate") = Some t /\ (t < now)%Z.

(** A payment whose stored status is [pending] and whose dueDate lies at or
    after [now]. *)
Definition pending_from (now : Z) (p : Item) : Prop :=
  p !! "status" = Some (AStr "pending")
  /\ exists t, Date_getTime (p !! "dueDate") = Some t /\ (now <= t)%Z.

(** A payment whose dueDate is a valid date. *)
Definition has_due (p : Item) : Prop :=
  exists t, Date_getTime (p !! "dueDate") = Some t.

(** [a] is due no later than [b]. *)
Definition due_le (a b : Item) : Prop :=
  exists ta tb,
    Date_getTime (a !! "dueDate") = Some ta
    /\ Date_getTime (b !! "dueDate") = Some tb
    /\ (ta <= tb)%Z.

(** [shown] lists exactly the members of [all] that satisfy [P], each as often
    as it occurs. *)
Definition lists_exactly (P : Item -> Prop) (all shown : list Item) : Prop :=
  exists others,
    all ≡ₚ shown ++ others /\ Forall P shown /\ Forall (fun p => ~ P p) others.

End Listings.

(** The value of field [k] after the assignments [sets], given its value
    [before]. *)
Fixpoint assigned (k : string) (sets : list (string * Attr)) (before : option Attr)
    : option Attr :=
  match sets with
  | [] => before
  | (k', v) :: rest => assigned k rest (if String.eqb k' k then Some v else before)
  end.

(** What the bulk update reports for one submitted id, from what the
    payments table holds for it.  Every entry reports a failure: an id that
    is no key or not stored, a payment of somebody else, and also a payment
    of the caller, whose update DynamoDB refuses. *)
Definition entry_outcome (u : User) (w : World) (e : BulkResult) : Prop :=
  entry_success e = false
  /\ entry_error e
     = Some match entry_id e with
            | AStr key =>
                if String.eqb key "" then "Update failed"
                else
                  match payments (db w) !! key with
                  | None => "Payment not found"
                  | Some item =>
                      if str_is (user_id u) (item !! "landlordId")
                      then "Update failed"
                      else "Unauthorized"
                  end
            | _ => "Update failed"
            end.

(** The records a user's dashboards and statistics are computed from. *)
Definition properties_of (u : User) (w : World) : list Item :=
  scanned PROPERTIES (fun p => str_is (user_id u) (p !! "landlordId")) w.

Definition applications_to (u : User) (w : World) : list Item :=
  scanned APPLICATIONS (fun a => str_is (user_id u) (a !! "landlordId")) w.




(** Status code and message of a success envelope. *)
Definition answered {D} (r : Response D) : option (Z * option string) :=
  match r with
  | Success c m _ => Some (c, m)
  | Failure _ _ => None
  end.

Definition has_status (s : string) (x : Item) : Prop :=
  x !! "status" = Some (AStr s).

Section Orderings.
Context `{Runtime}.

(** [a] was created no earlier than [b]. *)
Definition created_ge (a b : Item) : Prop :=
  exists ta tb,
    Date_getTime (a !! "createdAt") = Some ta
    /\ Date_getTime (b !! "createdAt") = Some tb
    /\ (tb <= ta)%Z.

End Orderings.

(** The S3 key under which the upload loops store an image of a property. *)
Definition image_key (propertyId imageId : string) (file : File) : string :=
  propertyId +:+ "/" +:+ imageId +:+ "." +:+ split_pop "" (originalname file).

(** Whether a string holds a slash. *)
Fixpoint has_slash (s : string) : bool :=
  match s with
  | EmptyString => false
  | String c rest => Ascii.eqb c "/"%char || has_slash rest
  end.

(** The attributes PUT /users/profile can set, and those PUT /properties/:id
    can set (an expression that names [status] is refused). *)
Definition profile_fields : list string :=
  ["updatedAt"; "firstName"; "lastName"; "phone"; "address"; "emergencyContact";
   "profileImage"].

Definition property_fields : list string :=
  ["updatedAt"; "title"; "description"; "address"; "price"; "details"; "amenities";
   "images"].

(** * Properties *)

(** ** Values and assignments *)

Lemma str_is_true lit v : str_is lit v = true <-> v = Some (AStr lit).
Proof.
  unfold str_is. destruct v as [[]|]; try (split; [discriminate | congruence]).
  rewrite String.eqb_eq. split; congruence.
Qed.

Lemma str_is_false lit v : v <> Some (AStr lit) -> str_is lit v = false.
Proof.
  intros Hne. destruct (str_is lit v) eqn:Hs; [|done].
  by apply str_is_true in Hs.
Qed.

Lemma truthy_str s : s <> "" -> truthy (Some (AStr s)) = true.
Proof.
  intros Hs. simpl. apply negb_true_iff. by apply String.eqb_neq.
Qed.

Lemma includes_inv lits v :
  includes lits v = true -> exists s, v = Some (AStr s) /\ In s lits.
Proof.
  unfold includes. intros Hex. apply existsb_exists in Hex as (lit & Hin & Hlit).
  apply str_is_true in Hlit. eauto.
Qed.

Lemma includes_truthy lits v :
  includes lits v = true -> Forall (fun lit => lit <> "") lits -> truthy v = true.
Proof.
  intros Hinc Hne. apply includes_inv in Hinc as (s & -> & Hin).
  apply truthy_str. by apply (proj1 (List.Forall_forall _ _) Hne).
Qed.

Lemma assign_lookup sets (item : Item) k :
  assign sets item !! k = assigned k sets (item !! k).
Proof.
  unfold assign. revert item.
  induction sets as [|[k' v] rest IH]; intros item; simpl; [done|].
  rewrite IH. f_equal.
  destruct (String.eqb k' k) eqn:Hk.
  - apply String.eqb_eq in Hk as ->. apply lookup_insert_eq.
  - apply String.eqb_neq in Hk. by apply lookup_insert_ne.
Qed.

Lemma assigned_cases k sets :
  (forall b, assigned k sets b = b) \/ (exists v, forall b, assigned k sets b = Some v).
Proof.
  induction sets as [|[k' v] rest IH]; simpl; [by left|].
  destruct IH as [Hid|[v' Hc]].
  - destruct (String.eqb k' k).
    + right. exists v. intros b. apply Hid.
    + left. intros b. apply Hid.
  - right. exists v'. intros b. apply Hc.
Qed.

(** ** Running handlers *)

Lemma aws_frame w r w' :
  aws w = (r, w') -> db w' = db w /\ bucket w' = bucket w /\ drawn w' = drawn w.
Proof.
  unfold aws. destruct (faults w) as [|[] fs]; intros [= <- <-]; auto.
Qed.

Lemma aws_quiet w : faults w = [] -> aws w = (Ok tt, w).
Proof. unfold aws. intros ->. reflexivity. Qed.

Lemma aws_inv w r w' :
  aws w = (r, w') ->
  db w' = db w /\ bucket w' = bucket w /\ drawn w' = drawn w
  /\ (r = Ok tt \/ r = Throw AwsError)
  /\ (faults w = [] -> r = Ok tt /\ w' = w).
Proof.
  unfold aws. destruct (faults w) as [|[] fs]; intros [= <- <-]; simpl;
    repeat split; auto; discriminate.
Qed.

Lemma bind_Ok {A B} (m : M A) (k : A -> M B) w b w' :
  bind m k w = (Ok b, w') -> exists a w1, m w = (Ok a, w1) /\ k a w1 = (Ok b, w').
Proof.
  unfold bind. destruct (m w) as [[a|e] w1]; [eauto | discriminate].
Qed.

Lemma try_catch_Ok {A} (m : M A) (e : Exn) w a w' :
  try_catch m (fun _ => throw e) w = (Ok a, w') -> m w = (Ok a, w').
Proof.
  unfold try_catch, throw. destruct (m w) as [[a'|e'] w1]; [auto | discriminate].
Qed.

Lemma bind_inv {A B} (m : M A) (k : A -> M B) w r w' :
  bind m k w = (r, w') ->
  (exists a w1, m w = (Ok a, w1) /\ k a w1 = (r, w'))
  \/ (exists e, m w = (Throw e, w') /\ r = Throw e).
Proof.
  unfold bind. destruct (m w) as [[a|e] w1]; [left; eauto|].
  intros [= <- <-]. right. eauto.
Qed.

Lemma try_catch_inv {A} (m : M A) (e : Exn) w r w' :
  try_catch m (fun _ => throw e) w = (r, w') ->
  (exists a, m w = (Ok a, w') /\ r = Ok a)
  \/ (exists e', m w = (Throw e', w') /\ r = Throw e).
Proof.
  unfold try_catch, throw. destruct (m w) as [[a|e'] w1]; intros [= <- <-]; eauto.
Qed.

Lemma bind_ret {A B} (a : A) (k : A -> M B) w : bind (ret a) k w = k a w.
Proof. reflexivity. Qed.

Lemma bind_run {A B} (m : M A) (k : A -> M B) w a w1 :
  m w = (Ok a, w1) -> bind m k w = k a w1.
Proof. unfold bind. by intros ->. Qed.

Lemma bind_throw {A B} (m : M A) (k : A -> M B) w e w1 :
  m w = (Throw e, w1) -> bind m k w = (Throw e, w1).
Proof. unfold bind. by intros ->. Qed.

Lemma table_set_table t m d : table t (set_table t m d) = m.
Proof. by destruct t. Qed.

Lemma table_set_table_ne t t' m d : t <> t' -> table t' (set_table t m d) = table t' d.
Proof. by destruct t, t'. Qed.

(** *** Reads *)

Lemma get_inv t id w r w' :
  dynamoDB_get t id w = (r, w') ->
  db w' = db w /\ bucket w' = bucket w
  /\ (r = Ok (table t (db w) !! id) \/ r = Throw AwsError).
Proof.
  unfold dynamoDB_get. intros Hrun.
  apply bind_inv in Hrun as [([] & w1 & Haws & Hrun) | (e & Haws & ->)].
  - apply aws_inv in Haws as (Hdb & Hb & _). injection Hrun as <- <-.
    rewrite Hdb. auto.
  - apply aws_inv in Haws as (Hdb & Hb & _ & [?|[= ->]] & _); [done|]. auto.
Qed.

Lemma get_Ok t id w o w' :
  dynamoDB_get t id w = (Ok o, w') ->
  o = table t (db w) !! id /\ db w' = db w /\ bucket w' = bucket w.
Proof.
  intros Hrun. apply get_inv in Hrun as (Hdb & Hb & [[= ->] | ?]); [auto | done].
Qed.

Lemma get_quiet t id w :
  faults w = [] -> dynamoDB_get t id w = (Ok (table t (db w) !! id), w).
Proof.
  intros Hq. unfold dynamoDB_get, bind. by rewrite (aws_quiet w Hq).
Qed.

Lemma get_cases t id w :
  exists w1,
    db w1 = db w /\ bucket w1 = bucket w
    /\ (dynamoDB_get t id w = (Ok (table t (db w) !! id), w1)
        \/ dynamoDB_get t id w = (Throw AwsError, w1)).
Proof.
  destruct (dynamoDB_get t id w) as [r w1] eqn:Hrun. exists w1.
  apply get_inv in Hrun as (Hdb & Hb & [-> | ->]); auto.
Qed.

(** What a scan with the given filter yields in a world. *)
Lemma scan_inv t names flt w r w' :
  dynamoDB_scan t names flt w = (r, w') ->
  db w' = db w /\ bucket w' = bucket w
  /\ ((r = Ok (scanned t flt w) /\ existsb reserved names = false)
      \/ r = Throw AwsError).
Proof.
  unfold dynamoDB_scan. intros Hrun.
  apply bind_inv in Hrun as [([] & w1 & Haws & Hrun) | (e & Haws & ->)].
  - apply aws_inv in Haws as (Hdb & Hb & _).
    destruct (existsb reserved names); injection Hrun as <- <-; unfold scanned;
      rewrite Hdb; auto.
  - apply aws_inv in Haws as (Hdb & Hb & _ & [?|[= ->]] & _); [done|]. auto.
Qed.

Lemma scan_Ok t names flt w items w' :
  dynamoDB_scan t names flt w = (Ok items, w') ->
  items = scanned t flt w /\ db w' = db w /\ bucket w' = bucket w.
Proof.
  intros Hrun. apply scan_inv in Hrun as (Hdb & Hb & [[[= ->] _] | ?]); [auto | done].
Qed.

Lemma scan_quiet t names flt w :
  faults w = [] -> existsb reserved names = false ->
  dynamoDB_scan t names flt w = (Ok (scanned t flt w), w).
Proof.
  intros Hq Hnames. unfold dynamoDB_scan, bind. rewrite (aws_quiet w Hq), Hnames.
  reflexivity.
Qed.

(** A scan whose filter names a reserved word is refused. *)
Lemma scan_reserved t names flt w r w' :
  existsb reserved names = true ->
  dynamoDB_scan t names flt w = (r, w') ->
  r = Throw AwsError /\ db w' = db w /\ bucket w' = bucket w.
Proof.
  intros Hnames Hrun. apply scan_inv in Hrun as (Hdb & Hb & [[_ Hfree] | ->]); [|auto].
  congruence.
Qed.

Lemma scanned_elem t flt w k item :
  table t (db w) !! k = Some item -> flt item = true -> item ∈ scanned t flt w.
Proof.
  intros Hk Hf. unfold scanned. apply list_elem_of_In, List.filter_In. split; [|done].
  apply list_elem_of_In, list_elem_of_fmap. exists (k, item). split; [done|].
  by apply elem_of_map_to_list.
Qed.

Lemma scanned_inv t flt w item :
  item ∈ scanned t flt w ->
  flt item = true /\ exists k, table t (db w) !! k = Some item.
Proof.
  unfold scanned. intros Hin. apply list_elem_of_In, List.filter_In in Hin as [Hin Hf].
  split; [done|].
  apply list_elem_of_In, list_elem_of_fmap in Hin as ([k it] & -> & Hin).
  exists k. by apply elem_of_map_to_list.
Qed.

Lemma scanned_db t flt w w' : db w' = db w -> scanned t flt w' = scanned t flt w.
Proof. unfold scanned. by intros ->. Qed.

(** *** Writes *)

Lemma put_inv t item w r w' :
  dynamoDB_put t item w = (r, w') ->
  bucket w' = bucket w
  /\ ((exists id, item !! "id" = Some (AStr id) /\ storable_item item = true /\ r = Ok tt
         /\ db w' = set_table t (<[id := item]> (table t (db w))) (db w))
      \/ (r = Throw AwsError /\ db w' = db w)).
Proof.
  unfold dynamoDB_put. intros Hrun.
  apply bind_inv in Hrun as [([] & w1 & Haws & Hrun) | (e & Haws & ->)].
  - apply aws_inv in Haws as (Hdb & Hb & _).
    destruct (storable_item item) eqn:Hstorable; simpl in Hrun;
      [|injection Hrun as <- <-; auto].
    destruct (item !! "id") as [[| | | | |id| |]|];
      try (injection Hrun as <- <-; split; [done|]; by right).
    injection Hrun as <- <-. simpl. split; [done|]. left. exists id. by rewrite Hdb.
  - apply aws_inv in Haws as (Hdb & Hb & _ & [?|[= ->]] & _); [done|]. auto.
Qed.

Lemma put_Ok t item w w' :
  dynamoDB_put t item w = (Ok tt, w') ->
  exists id,
    item !! "id" = Some (AStr id)
    /\ db w' = set_table t (<[id := item]> (table t (db w))) (db w).
Proof.
  intros Hrun. apply put_inv in Hrun as [_ [(id & Hid & _ & _ & Hdb) | [? _]]]; [|done].
  eauto.
Qed.

Lemma put_stored t item w w' :
  dynamoDB_put t item w = (Ok tt, w') ->
  exists id, item !! "id" = Some (AStr id) /\ table t (db w') !! id = Some item.
Proof.
  intros Hput. apply put_Ok in Hput as (id & Hid & Hdb).
  exists id. split; [done|]. rewrite Hdb, table_set_table. apply lookup_insert_eq.
Qed.

Lemma put_quiet t (item : Item) id w :
  faults w = [] -> storable_item item = true -> item !! "id" = Some (AStr id) ->
  dynamoDB_put t item w
  = (Ok tt, set_db (set_table t (<[id := item]> (table t (db w))) (db w)) w).
Proof.
  intros Hq Hstorable Hid. unfold dynamoDB_put, bind.
  by rewrite (aws_quiet w Hq), Hstorable, Hid.
Qed.

Lemma update_inv t id sets w r w' :
  dynamoDB_update t id sets w = (r, w') ->
  bucket w' = bucket w
  /\ ((r = Ok (assign sets (default {[ "id" := AStr id ]} (table t (db w) !! id)))
       /\ refused_sets sets = false
       /\ db w' = set_table t
            (<[id := assign sets (default {[ "id" := AStr id ]} (table t (db w) !! id))]>
               (table t (db w))) (db w))
      \/ (r = Throw AwsError /\ db w' = db w)).
Proof.
  unfold dynamoDB_update. intros Hrun.
  apply bind_inv in Hrun as [([] & w1 & Haws & Hrun) | (e & Haws & ->)].
  - apply aws_inv in Haws as (Hdb & Hb & _).
    destruct (refused_sets sets) eqn:Hsets; injection Hrun as <- <-; simpl;
      rewrite ?Hdb; auto.
  - apply aws_inv in Haws as (Hdb & Hb & _ & [?|[= ->]] & _); [done|]. auto.
Qed.

Lemma update_Ok t id sets w item w' :
  dynamoDB_update t id sets w = (Ok item, w') ->
  item = assign sets (default {[ "id" := AStr id ]} (table t (db w) !! id))
  /\ db w' = set_table t (<[id := item]> (table t (db w))) (db w)
  /\ bucket w' = bucket w.
Proof.
  intros Hrun. apply update_inv in Hrun as [Hb [([= ->] & _ & Hdb) | [? _]]]; [auto|done].
Qed.

Lemma update_quiet t id sets w :
  faults w = [] -> refused_sets sets = false ->
  dynamoDB_update t id sets w
  = (Ok (assign sets (default {[ "id" := AStr id ]} (table t (db w) !! id))),
     set_db (set_table t
       (<[id := assign sets (default {[ "id" := AStr id ]} (table t (db w) !! id))]>
          (table t (db w))) (db w)) w).
Proof.
  intros Hq Hsets. unfold dynamoDB_update, bind.
  by rewrite (aws_quiet w Hq), Hsets.
Qed.

(** An update whose expression names a reserved word is refused and writes
    nothing. *)
Lemma update_reserved t id sets w r w' :
  existsb (fun kv => reserved (fst kv)) sets = true ->
  dynamoDB_update t id sets w = (r, w') ->
  r = Throw AwsError /\ db w' = db w /\ bucket w' = bucket w.
Proof.
  intros Hnames Hrun.
  apply update_inv in Hrun as [Hb [(_ & Hfree & _) | [-> Hdb]]]; [|auto].
  unfold refused_sets in Hfree. rewrite Hnames in Hfree. discriminate.
Qed.

Lemma reserved_status : reserved "status" = true.
Proof. reflexivity. Qed.

Lemma delete_inv t id w r w' :
  dynamoDB_delete t id w = (r, w') ->
  bucket w' = bucket w
  /\ ((r = Ok tt /\ db w' = set_table t (delete id (table t (db w))) (db w))
      \/ (r = Throw AwsError /\ db w' = db w)).
Proof.
  unfold dynamoDB_delete. intros Hrun.
  apply bind_inv in Hrun as [([] & w1 & Haws & Hrun) | (e & Haws & ->)].
  - apply aws_inv in Haws as (Hdb & Hb & _). injection Hrun as <- <-. simpl.
    rewrite Hdb. auto.
  - apply aws_inv in Haws as (Hdb & Hb & _ & [?|[= ->]] & _); [done|]. auto.
Qed.

Lemma delete_quiet t id w :
  faults w = [] ->
  dynamoDB_delete t id w
  = (Ok tt, set_db (set_table t (delete id (table t (db w))) (db w)) w).
Proof.
  intros Hq. unfold dynamoDB_delete, bind. by rewrite (aws_quiet w Hq).
Qed.

Lemma uuidv4_inv `{Runtime} w r w' :
  uuidv4 w = (r, w') ->
  r = Ok (uuid_at (drawn w)) /\ db w' = db w /\ bucket w' = bucket w
  /\ faults w' = faults w.
Proof. unfold uuidv4. by intros [= <- <-]. Qed.

Lemma as_key_inv v w r w' :
  as_key v w = (r, w') ->
  w' = w
  /\ ((exists id, v = Some (AStr id) /\ id <> "" /\ r = Ok id) \/ r = Throw AwsError).
Proof.
  unfold as_key. destruct v as [[| | | | |id| |]|]; try (intros [= <- <-]; auto).
  destruct (String.eqb id "") eqn:Hid; intros [= <- <-]; [auto|].
  split; [done|]. left. exists id. by apply String.eqb_neq in Hid.
Qed.

Lemma as_key_str id w : id <> "" -> as_key (Some (AStr id)) w = (Ok id, w).
Proof. intros Hid. unfold as_key. apply String.eqb_neq in Hid. by rewrite Hid. Qed.

(** *** Gates and the error handler *)

Lemma asyncHandler_success {D} (h : M (Response D)) w r w' :
  asyncHandler h w = (r, w') -> succeeded r = true -> h w = (Ok r, w').
Proof.
  unfold asyncHandler. destruct (h w) as [[r0|[]] w0]; intros [= <- <-]; simpl;
    congruence.
Qed.

Lemma asyncHandler_inv {D} (h : M (Response D)) w r w' :
  asyncHandler h w = (r, w') ->
  h w = (Ok r, w')
  \/ exists e, h w = (Throw e, w') /\ succeeded r = false
               /\ (forall m c, e = HttpError m c -> r = Failure c m)
               /\ ((forall m c, e <> HttpError m c) ->
                   r = Failure 500 "Internal Server Error").
Proof.
  unfold asyncHandler. destruct (h w) as [[r0|[m c| | |]] w0]; intros [= <- <-];
    [by left | right; eexists; split; [done|]; split; [done|]; split..].
  - by intros ? ? [= <- <-].
  - intros Hne. by destruct (Hne m c).
  - discriminate.
  - done.
  - discriminate.
  - done.
  - discriminate.
  - done.
Qed.

Lemma requireLandlord_success {D} user (h : User -> M (Response D)) w r w' :
  requireLandlord user (fun u => asyncHandler (h u)) w = (r, w') ->
  succeeded r = true ->
  exists u, user = Some u /\ userType u = "landlord" /\ h u w = (Ok r, w').
Proof.
  unfold requireLandlord. destruct user as [u|]; [|intros [= <- <-]; discriminate].
  destruct (String.eqb (userType u) "landlord") eqn:Hrole; simpl.
  - intros Hrun Hok. exists u. apply String.eqb_eq in Hrole.
    eauto using asyncHandler_success.
  - intros [= <- <-]; discriminate.
Qed.

Lemma requireRenter_success {D} user (h : User -> M (Response D)) w r w' :
  requireRenter user (fun u => asyncHandler (h u)) w = (r, w') ->
  succeeded r = true ->
  exists u, user = Some u /\ userType u = "renter" /\ h u w = (Ok r, w').
Proof.
  unfold requireRenter. destruct user as [u|]; [|intros [= <- <-]; discriminate].
  destruct (String.eqb (userType u) "renter") eqn:Hrole; simpl.
  - intros Hrun Hok. exists u. apply String.eqb_eq in Hrole.
    eauto using asyncHandler_success.
  - intros [= <- <-]; discriminate.
Qed.

Lemma gate_landlord_inv {D} user (next : User -> World -> Response D * World) w r w' :
  requireLandlord user next w = (r, w') ->
  (succeeded r = false /\ w' = w /\ forall u, user = Some u -> userType u <> "landlord")
  \/ exists u, user = Some u /\ userType u = "landlord" /\ next u w = (r, w').
Proof.
  unfold requireLandlord. destruct user as [u|]; [|intros [= <- <-]; by left].
  destruct (String.eqb (userType u) "landlord") eqn:Hrole; simpl.
  - intros Hrun. right. exists u. apply String.eqb_eq in Hrole. auto.
  - intros [= <- <-]. left. split; [done|]. split; [done|].
    intros u' [= <-]. by apply String.eqb_neq.
Qed.

Lemma gate_renter_inv {D} user (next : User -> World -> Response D * World) w r w' :
  requireRenter user next w = (r, w') ->
  (succeeded r = false /\ w' = w /\ forall u, user = Some u -> userType u <> "renter")
  \/ exists u, user = Some u /\ userType u = "renter" /\ next u w = (r, w').
Proof.
  unfold requireRenter. destruct user as [u|]; [|intros [= <- <-]; by left].
  destruct (String.eqb (userType u) "renter") eqn:Hrole; simpl.
  - intros Hrun. right. exists u. apply String.eqb_eq in Hrole. auto.
  - intros [= <- <-]. left. split; [done|]. split; [done|].
    intros u' [= <-]. by apply String.eqb_neq.
Qed.

(** A run that ended in a success envelope, spelled out. *)
Lemma run_shape {D} (none : D) (run : Response D * World) c m :
  answered run.1 = Some (c, m) -> run = (Success c m (data_or none run.1), run.2).
Proof. destruct run as [[c' m' d|c' e] w']; simpl; [|discriminate]. by intros [= <- <-]. Qed.
(** ** Total earnings *)

Section Earnings.
Context `{Runtime}.

Lemma reduce_paid (l : list Item) (acc : Z) :
  fold_left (fun sum p => (sum + num (p !! "amount"))%Z)
    (List.filter (fun p => str_is "paid" (p !! "status")) l) acc
  = (acc + paid_sum l)%Z.
Proof.
  revert acc. induction l as [|p l IH]; intros acc; simpl.
  - lia.
  - destruct (str_is "paid" (p !! "status")); simpl; rewrite IH; lia.
Qed.

Lemma totalEarnings_paid_sum (l : list Item) : totalEarnings l = paid_sum l.
Proof. unfold totalEarnings. rewrite reduce_paid. lia. Qed.

Lemma paid_sum_app (l1 l2 : list Item) :
  paid_sum (l1 ++ l2) = (paid_sum l1 + paid_sum l2)%Z.
Proof.
  induction l1 as [|p l1 IH]; simpl; [lia|].
  destruct (str_is "paid" (p !! "status")); lia.
Qed.

Lemma paid_sum_with_status (l : list Item) i p v :
  l !! i = Some p ->
  str_is "paid" (p !! "status") = true ->
  str_is "paid" (Some v) = false ->
  paid_sum (with_status l i p v) = (paid_sum l - num (p !! "amount"))%Z.
Proof.
  intros Hi Hpaid Hv. unfold with_status.
  assert (Hlt : i < length l) by (eapply lookup_lt_Some; eauto).
  rewrite insert_take_drop by exact Hlt.
  rewrite <- (take_drop_middle l i p Hi) at 3.
  rewrite !paid_sum_app. simpl.
  rewrite lookup_insert_eq, Hv, Hpaid. lia.
Qed.

(** Within 2^53 a double addition of integers does not round. *)
Lemma round_double_exact n : (Z.abs n <= 2 ^ 53)%Z -> round_double n = n.
Proof.
  intros Hn. unfold round_double.
  destruct (Z.abs n <=? 2 ^ 53)%Z eqn:Hle; [done|]. apply Z.leb_gt in Hle. lia.
Qed.

Lemma rounded_fold_exact (l : list Item) (acc : Z) :
  (Z.abs acc + abs_sum l <= 2 ^ 53)%Z ->
  fold_left (fun sum p => round_double (sum + num (p !! "amount"))) l acc
  = fold_left (fun sum p => (sum + num (p !! "amount"))%Z) l acc.
Proof.
  revert acc. induction l as [|p l IH]; intros acc Hacc; simpl in *; [done|].
  assert (Habs : (0 <= abs_sum l)%Z).
  { clear. induction l as [|q l IH]; simpl; lia. }
  rewrite round_double_exact by lia. apply IH. lia.
Qed.

(** On a collection with exact sums the reduce of the code, with its
    rounding, is the exact sum. *)
Lemma rounded_total_exact (l : list Item) :
  exact_sums l -> rounded_total l = totalEarnings l.
Proof.
  intros [_ Hsum]. unfold rounded_total, totalEarnings.
  apply rounded_fold_exact. simpl. lia.
Qed.

(** The dashboard answers only after its three scans, and writes nothing. *)
Lemma dashboard_run u now w c msg d w' :
  GET_users_landlord_dashboard u now w = (Ok (Success c msg d), w') ->
  userType u = "landlord"
  /\ db w' = db w
  /\ exists properties applications,
       d = dashboard_of now properties applications (payments_of u w).
Proof.
  unfold GET_users_landlord_dashboard.
  destruct (String.eqb (userType u) "landlord") eqn:Hrole; simpl; [|discriminate].
  intros Hrun. apply try_catch_Ok in Hrun.
  apply bind_Ok in Hrun as (ps & w1 & Hs1 & Hrun).
  apply bind_Ok in Hrun as (apps & w2 & Hs2 & Hrun).
  apply bind_Ok in Hrun as (pays & w3 & Hs3 & Hrun).
  apply scan_Ok in Hs1 as (_ & Hdb1 & _).
  apply scan_Ok in Hs2 as (_ & Hdb2 & _).
  apply scan_Ok in Hs3 as (Hpays & Hdb3 & _).
  injection Hrun as <- <- <- <-.
  split; [by apply String.eqb_eq|].
  split; [congruence|].
  exists ps, apps. subst pays. unfold payments_of, scanned. by rewrite Hdb2, Hdb1.
Qed.

Lemma abs_sum_app (l1 l2 : list Item) : abs_sum (l1 ++ l2) = (abs_sum l1 + abs_sum l2)%Z.
Proof. induction l1 as [|p l1 IH]; simpl; lia. Qed.

Lemma abs_sum_nonneg (l : list Item) : (0 <= abs_sum l)%Z.
Proof. induction l as [|p l IH]; simpl; lia. Qed.

(** Taking a payment out of the paid ones keeps the sums exact. *)
Lemma exact_sums_with_status (l : list Item) i p v :
  l !! i = Some p ->
  str_is "paid" (Some v) = false ->
  exact_sums l -> exact_sums (with_status l i p v).
Proof.
  intros Hi Hv [Hall Hsum]. unfold exact_sums, with_status in *.
  assert (Hlt : i < length l) by (eapply lookup_lt_Some; eauto).
  rewrite insert_take_drop by exact Hlt.
  rewrite <- (take_drop_middle l i p Hi) in Hall, Hsum.
  rewrite List.filter_app in Hall, Hsum. rewrite List.filter_app.
  cbn [List.filter] in *. rewrite lookup_insert_eq, Hv.
  rewrite abs_sum_app in Hsum. rewrite abs_sum_app.
  apply Forall_app in Hall as [Hall1 Hall2].
  destruct (str_is "paid" (p !! "status")).
  - apply Forall_cons in Hall2 as [_ Hall2]. simpl in Hsum.
    split; [by apply Forall_app|].
    pose proof (abs_sum_nonneg (List.filter (fun p => str_is "paid" (p !! "status"))
                                  (drop (S i) l))). lia.
  - split; [by apply Forall_app | done].
Qed.

(** C1 (amended): for a landlord whose paid payments hold integer amounts
    with absolute values adding up to at most 2^53, the total-earnings figure
    of the dashboard, which the reduce computes with one double addition per
    paid payment, equals the sum of [amount] over exactly the fetched
    payments whose status is [paid]; changing one payment's status from
    [paid] to any other value changes the total by minus that payment's
    amount, so the total strictly decreases for a positive amount, stays
    equal for amount 0, and strictly increases for a negative amount. *)
Theorem total_earnings_figure u now w c msg d w' :
  GET_users_landlord_dashboard u now w = (Ok (Success c msg d), w') ->
  exact_sums (payments_of u w) ->
  dash_totalEarnings d = rounded_total (payments_of u w)
  /\ dash_totalEarnings d = paid_sum (payments_of u w)
  /\ forall i p v,
       payments_of u w !! i = Some p ->
       str_is "paid" (p !! "status") = true ->
       str_is "paid" (Some v) = false ->
       rounded_total (with_status (payments_of u w) i p v)
       = (dash_totalEarnings d - num (p !! "amount"))%Z
       /\ ((0 < num (p !! "amount"))%Z ->
           (rounded_total (with_status (payments_of u w) i p v)
            < dash_totalEarnings d)%Z)
       /\ (num (p !! "amount") = 0%Z ->
           rounded_total (with_status (payments_of u w) i p v) = dash_totalEarnings d)
       /\ ((num (p !! "amount") < 0)%Z ->
           (dash_totalEarnings d
            < rounded_total (with_status (payments_of u w) i p v))%Z).
Proof.
  intros Hrun Hexact.
  apply dashboard_run in Hrun as (_ & _ & ps & apps & ->). simpl.
  split; [by rewrite rounded_total_exact|].
  split; [apply totalEarnings_paid_sum|].
  intros i p v Hi Hpaid Hv.
  rewrite (rounded_total_exact _ (exact_sums_with_status _ _ _ _ Hi Hv Hexact)).
  rewrite !totalEarnings_paid_sum.
  rewrite (paid_sum_with_status _ _ _ _ Hi Hpaid Hv).
  repeat split; lia.
Qed.

End Earnings.

(** The figure on the ledger of landlord L1, who has a payment of 100 and a
    refund of -100 paid: cancelling the refund raises the total by 100. *)
Lemma total_earnings_figure_witness :
  let ps := payments_of Sample.landlord1 Sample.ledger in
  let d := data_or (dashboard_of (H := Sample.runtime) 0 [] [] [])
    (route_GET_users_landlord_dashboard (H := Sample.runtime) Sample.landlord1
       Sample.now0 Sample.ledger).1 in
  dash_totalEarnings d = 0%Z
  /\ dash_totalEarnings d = rounded_total ps
  /\ rounded_total (with_status ps 1 Sample.refund (AStr "cancelled")) = 100%Z.
Proof.
  cbv zeta.
  destruct (total_earnings_figure (H := Sample.runtime)
    Sample.landlord1 Sample.now0 Sample.ledger 200 None
    (data_or (dashboard_of (H := Sample.runtime) 0 [] [] [])
       (route_GET_users_landlord_dashboard (H := Sample.runtime) Sample.landlord1
          Sample.now0 Sample.ledger).1)
    Sample.ledger) as (Hrounded & Hsum & Hchange).
  - vm_compute. reflexivity.
  - split.
    + vm_compute. repeat constructor; eexists; reflexivity.
    + vm_compute. discriminate.
  - split; [vm_compute; reflexivity|]. split; [exact Hrounded|].
    destruct (Hchange 1 Sample.refund (AStr "cancelled")) as (Hdelta & _).
    + vm_compute. reflexivity.
    + reflexivity.
    + reflexivity.
    + rewrite Hdelta. vm_compute. reflexivity.
Defined.

(** C1 (as stated) fails: cancelling a paid payment of amount -100 raises the
    total from -100 to 0. *)
Lemma unpaying_can_raise_total : ~ unpaying_lowers_total.
Proof.
  intros Hclaim.
  specialize (Hclaim [Sample.refund] 0 Sample.refund (AStr "cancelled")
                eq_refl eq_refl eq_refl).
  vm_compute in Hclaim.
  destruct Hclaim as [Hlt | [Hzero _]]; discriminate.
Qed.

(** Beyond 2^53 an addition of the reduce can round a positive amount away:
    with payments of 2^53 and 1 paid, the code's total is 2^53, with or
    without the second. *)
Example rounding_absorbs_an_amount :
  let big := Sample.payment "p1" "L1" "paid" (2 ^ 53) "2024-03-01" in
  let one := Sample.payment "p2" "L1" "paid" 1 "2024-03-02" in
  rounded_total [big; one] = rounded_total [big]
  /\ ~ exact_sums [big; one].
Proof.
  split; [vm_compute; reflexivity|].
  intros [_ Hsum]. vm_compute in Hsum. by apply Hsum.
Qed.
(** ** Overdue and upcoming payments *)

Lemma insert_by_perm {A} (cmp : A -> A -> Z) x l : insert_by cmp x l ≡ₚ x :: l.
Proof.
  induction l as [|y l IH]; simpl; [done|].
  destruct (cmp x y <=? 0)%Z; [done|].
  rewrite IH. apply Permutation_swap.
Qed.

Lemma Array_sort_perm {A} (cmp : A -> A -> Z) l : Array_sort cmp l ≡ₚ l.
Proof.
  induction l as [|x l IH]; simpl; [done|].
  rewrite insert_by_perm. by rewrite IH.
Qed.

Lemma filter_partition {A} (f : A -> bool) l :
  l ≡ₚ List.filter f l ++ List.filter (fun x => negb (f x)) l.
Proof.
  induction l as [|x l IH]; simpl; [done|].
  destruct (f x); simpl.
  - by rewrite <- IH.
  - rewrite <- Permutation_middle. by rewrite <- IH.
Qed.

Lemma Forall_filter_test {A} (f : A -> bool) l :
  Forall (fun x => f x = true) (List.filter f l).
Proof.
  apply List.Forall_forall. intros x Hx. by apply List.filter_In in Hx as [_ ?].
Qed.

Section Listings_facts.
Context `{Runtime}.

Lemma due_le_trans a b c : due_le a b -> due_le b c -> due_le a c.
Proof.
  intros (ta & tb & Ha & Hb & Hab) (tb' & tc & Hb' & Hc & Hbc).
  exists ta, tc. repeat split; [done..|]. rewrite Hb in Hb'. injection Hb' as <-. lia.
Qed.

Lemma by_time_le a b :
  has_due a -> has_due b -> (by_time "dueDate" a b <=? 0)%Z = true -> due_le a b.
Proof.
  intros [ta Ha] [tb Hb]. unfold by_time. rewrite Ha, Hb. intros Hle.
  exists ta, tb. repeat split; [done..|]. apply Z.leb_le in Hle. lia.
Qed.

Lemma by_time_gt a b :
  has_due a -> has_due b -> (by_time "dueDate" a b <=? 0)%Z = false -> due_le b a.
Proof.
  intros [ta Ha] [tb Hb]. unfold by_time. rewrite Ha, Hb. intros Hgt.
  exists tb, ta. repeat split; [done..|]. apply Z.leb_gt in Hgt. lia.
Qed.

Lemma insert_by_due_sorted x l :
  has_due x -> Forall has_due l -> StronglySorted due_le l ->
  StronglySorted due_le (insert_by (by_time "dueDate") x l).
Proof.
  intros Hx Hl Hs. induction Hs as [|y l Hs IH Hy]; simpl.
  - repeat constructor.
  - apply Forall_cons in Hl as [Hdy Hl].
    destruct (by_time "dueDate" x y <=? 0)%Z eqn:Hcmp.
    + pose proof (by_time_le x y Hx Hdy Hcmp) as Hxy.
      constructor; [by constructor|].
      constructor; [done|].
      eapply Forall_impl; [exact Hy|]. intros z Hyz. by eapply due_le_trans.
    + constructor; [by apply IH|].
      rewrite insert_by_perm. constructor; [|done].
      by apply by_time_gt.
Qed.

Lemma Array_sort_due_sorted l :
  Forall has_due l -> StronglySorted due_le (Array_sort (by_time "dueDate") l).
Proof.
  induction l as [|x l IH]; intros Hl; simpl; [constructor|].
  apply Forall_cons in Hl as [Hx Hl].
  apply insert_by_due_sorted; [done| |by apply IH].
  by rewrite Array_sort_perm.
Qed.

Lemma overdue_test now p :
  str_is "pending" (p !! "status") && date_lt_now now (p !! "dueDate") = true
  <-> pending_before now p.
Proof.
  unfold pending_before, date_lt_now. rewrite andb_true_iff, str_is_true.
  destruct (Date_getTime (p !! "dueDate")) as [t|].
  - rewrite Z.ltb_lt. split.
    + intros [? ?]. eauto.
    + intros [? (t' & [= <-] & ?)]. auto.
  - split; [intros [_ ?]; discriminate | intros [_ (t' & ? & _)]; discriminate].
Qed.

Lemma upcoming_test now p :
  str_is "pending" (p !! "status") && date_ge_now now (p !! "dueDate") = true
  <-> pending_from now p.
Proof.
  unfold pending_from, date_ge_now. rewrite andb_true_iff, str_is_true.
  destruct (Date_getTime (p !! "dueDate")) as [t|].
  - rewrite Z.leb_le. split.
    + intros [? ?]. eauto.
    + intros [? (t' & [= <-] & ?)]. auto.
  - split; [intros [_ ?]; discriminate | intros [_ (t' & ? & _)]; discriminate].
Qed.

(** Sorting the members that pass a test lists exactly those members, in
    ascending order of dueDate when the test implies a valid dueDate. *)
Lemma sorted_selection (test : Item -> bool) (P : Item -> Prop) l :
  (forall p, test p = true <-> P p) ->
  (forall p, P p -> has_due p) ->
  lists_exactly P l (Array_sort (by_time "dueDate") (List.filter test l))
  /\ StronglySorted due_le (Array_sort (by_time "dueDate") (List.filter test l)).
Proof.
  intros Htest Hdue. split.
  - exists (List.filter (fun p => negb (test p)) l). repeat split.
    + rewrite Array_sort_perm. apply filter_partition.
    + rewrite Array_sort_perm. eapply Forall_impl; [apply Forall_filter_test|].
      intros p Hp. by apply Htest.
    + eapply Forall_impl; [apply Forall_filter_test|].
      intros p Hp HP. apply Htest in HP. simpl in Hp. rewrite HP in Hp. discriminate.
  - apply Array_sort_due_sorted.
    eapply Forall_impl; [apply Forall_filter_test|].
    intros p Hp. apply Hdue. by apply Htest.
Qed.

Lemma lists_exactly_elem (P : Item -> Prop) all shown p :
  lists_exactly P all shown -> (p ∈ shown <-> p ∈ all /\ P p).
Proof.
  intros (others & Hperm & Hshown & Hothers). split.
  - intros Hp. split.
    + rewrite Hperm. apply elem_of_app. by left.
    + by eapply (proj1 (Forall_forall _ _) Hshown).
  - intros [Hp HP]. rewrite Hperm in Hp. apply elem_of_app in Hp as [Hp|Hp]; [done|].
    by destruct (proj1 (Forall_forall _ _) Hothers p Hp).
Qed.

Lemma payments_of_db u w w' : db w' = db w -> payments_of u w' = payments_of u w.
Proof. unfold payments_of, scanned. by intros ->. Qed.

Lemma overdue_listing now l :
  lists_exactly (pending_before now) l (overduePayments now l)
  /\ StronglySorted due_le (overduePayments now l).
Proof.
  apply sorted_selection.
  - apply overdue_test.
  - intros p (_ & t & Ht & _). by exists t.
Qed.

Lemma upcoming_listing now l :
  exists later,
    lists_exactly (pending_from now) l (upcomingPayments now l ++ later)
    /\ StronglySorted due_le (upcomingPayments now l ++ later)
    /\ length (upcomingPayments now l)
       = Nat.min 10 (length (upcomingPayments now l ++ later)).
Proof.
  unfold upcomingPayments.
  set (sorted := Array_sort _ _).
  exists (drop 10 sorted). rewrite take_drop.
  destruct (sorted_selection
    (fun p => str_is "pending" (p !! "status") && date_ge_now now (p !! "dueDate"))
    (pending_from now) l) as [Hex Hs].
  - apply upcoming_test.
  - intros p (_ & t & Ht & _). by exists t.
  - repeat split; [exact Hex | exact Hs | apply length_take].
Qed.

(** C2: the overduePayments list of the landlord dashboard holds exactly the
    fetched payments with stored status [pending] and dueDate strictly before
    now, ascending by dueDate, none cut off; upcomingPayments is the first 10
    of the ascending list of exactly the payments with stored status [pending]
    and dueDate at or after now; the request writes nothing.  When the
    dashboard is requested again at [now'], a pending payment due at [t] with
    [now <= t < now'] was not overdue at [now], was among the upcoming ones
    there unless the cap of 10 cut it off, and at [now'] is overdue and no
    longer upcoming, the store being what it was. *)
Theorem payment_listings u now w c msg d w1 :
  GET_users_landlord_dashboard u now w = (Ok (Success c msg d), w1) ->
  lists_exactly (pending_before now) (payments_of u w) (dash_overduePayments d)
  /\ StronglySorted due_le (dash_overduePayments d)
  /\ (exists later,
        lists_exactly (pending_from now) (payments_of u w)
          (dash_upcomingPayments d ++ later)
        /\ StronglySorted due_le (dash_upcomingPayments d ++ later)
        /\ length (dash_upcomingPayments d)
           = Nat.min 10 (length (dash_upcomingPayments d ++ later)))
  /\ db w1 = db w
  /\ forall now' c' msg' d' w2,
       GET_users_landlord_dashboard u now' w1 = (Ok (Success c' msg' d'), w2) ->
       db w2 = db w
       /\ forall p t,
            p ∈ payments_of u w ->
            p !! "status" = Some (AStr "pending") ->
            Date_getTime (p !! "dueDate") = Some t ->
            (now <= t < now')%Z ->
            (p ∉ dash_overduePayments d)
            /\ (p ∈ dash_upcomingPayments d \/ length (dash_upcomingPayments d) = 10)
            /\ (p ∈ dash_overduePayments d')
            /\ (p ∉ dash_upcomingPayments d').
Proof.
  intros Hrun.
  apply dashboard_run in Hrun as (_ & Hdb1 & ps & apps & ->). simpl.
  destruct (overdue_listing now (payments_of u w)) as [Hov Hovs].
  destruct (upcoming_listing now (payments_of u w)) as (later & Hup & Hups & Hlen).
  split; [exact Hov|]. split; [exact Hovs|].
  split; [exists later; auto|].
  split; [exact Hdb1|].
  intros now' c' msg' d' w2 Hrun'.
  apply dashboard_run in Hrun' as (_ & Hdb2 & ps' & apps' & ->).
  rewrite (payments_of_db u w w1 Hdb1). simpl.
  destruct (overdue_listing now' (payments_of u w)) as [Hov' _].
  destruct (upcoming_listing now' (payments_of u w)) as (later' & Hup' & _ & _).
  split; [congruence|].
  intros p t Hp Hst Ht [Hlo Hhi].
  split.
  { rewrite (lists_exactly_elem _ _ _ p Hov).
    intros [_ (_ & t' & Ht' & Hlt)]. rewrite Ht in Ht'. injection Ht' as <-. lia. }
  split.
  { assert (Hin : p ∈ (upcomingPayments now (payments_of u w) ++ later)%list).
    { apply (lists_exactly_elem _ _ _ p Hup). split; [done|].
      split; [done|]. exists t. split; [done|lia]. }
    apply elem_of_app in Hin as [Hin|Hin]; [by left|right].
    destruct later as [|q later]; [by apply elem_of_nil in Hin|].
    rewrite length_app, length_cons in Hlen. lia. }
  split.
  { apply (lists_exactly_elem _ _ _ p Hov'). split; [done|].
    split; [done|]. exists t. split; [done|lia]. }
  intros Hin.
  assert (Hin' : p ∈ (upcomingPayments now' (payments_of u w) ++ later')%list)
    by (apply elem_of_app; by left).
  apply (lists_exactly_elem _ _ _ p Hup') in Hin' as [_ (_ & t' & Ht' & Hge)].
  rewrite Ht in Ht'. injection Ht' as <-. lia.
Qed.

End Listings_facts.

(** The ledger of landlord L1 on 15 March: the rent due on 10 March is the
    one overdue payment; the April rent is upcoming, and overdue on 1 May. *)
Lemma payment_listings_witness :
  let ps := payments_of Sample.landlord1 Sample.ledger in
  let d := dashboard_of (H := Sample.runtime) Sample.now0 [] [] ps in
  let d' := dashboard_of (H := Sample.runtime) Sample.now1 [] [] ps in
  (fun p : Item => p !! "id") <$> dash_overduePayments d = [Some (AStr "p2")]
  /\ lists_exactly (pending_before (H := Sample.runtime) Sample.now0) ps
       (dash_overduePayments d)
  /\ (Sample.rent_april ∉ dash_overduePayments d)
  /\ (Sample.rent_april ∈ dash_upcomingPayments d
      \/ length (dash_upcomingPayments d) = 10)
  /\ (Sample.rent_april ∈ dash_overduePayments d')
  /\ (Sample.rent_april ∉ dash_upcomingPayments d').
Proof.
  intros ps d d'.
  destruct (payment_listings (H := Sample.runtime)
    Sample.landlord1 Sample.now0 Sample.ledger 200 None d Sample.ledger)
    as (Hoverdue & _ & _ & _ & Hlater).
  - vm_compute. reflexivity.
  - split; [vm_compute; reflexivity|]. split; [exact Hoverdue|].
    destruct (Hlater Sample.now1 200%Z None d' Sample.ledger) as [_ Hmoves].
    + vm_compute. reflexivity.
    + apply (Hmoves Sample.rent_april 1712707200000%Z).
      * apply list_elem_of_lookup. exists 0. vm_compute. reflexivity.
      * reflexivity.
      * vm_compute. reflexivity.
      * split; [vm_compute; discriminate | reflexivity].
Defined.
(** ** Duplicate applications *)

Section Applications.
Context `{Runtime}.

(** C3 (amended): a valid submission for an available property by a renter
    for whom the applications table already holds an application for that
    property, whatever the status of that application (pending, approved,
    withdrawn or rejected), is answered by 409 Conflict and changes nothing. *)
Theorem duplicate_application_conflict u now body files w pid prop k a :
  faults w = [] ->
  userType u = "renter" ->
  body !! "propertyId" = Some (AStr pid) ->
  pid <> "" ->
  truthy (body !! "personalInfo") = true ->
  truthy (body !! "employment") = true ->
  properties (db w) !! pid = Some prop ->
  prop !! "status" = Some (AStr "available") ->
  applications (db w) !! k = Some a ->
  a !! "propertyId" = Some (AStr pid) ->
  a !! "renterId" = Some (AStr (user_id u)) ->
  route_POST_applications (Some u) now body files w
  = (Failure 409 "You have already applied to this property", w).
Proof.
  intros Hq Hrole Hpid Hne Hpi Hem Hprop Hav Ha Hap Har.
  unfold route_POST_applications, requireRenter. rewrite Hrole. simpl.
  unfold asyncHandler, POST_applications.
  rewrite Hpid, (truthy_str pid Hne), Hpi, Hem. simpl.
  rewrite (bind_run _ _ _ _ _ (as_key_str pid w Hne)).
  rewrite (bind_run _ _ _ _ _ (get_quiet _ _ _ Hq)). cbn [table]. rewrite Hprop.
  apply str_is_true in Hav. rewrite Hav. simpl.
  rewrite (bind_run _ _ _ _ _ (scan_quiet _ ["propertyId"; "renterId"] _ _ Hq eq_refl)).
  set (found := scanned _ _ w).
  assert (Hin : a ∈ found).
  { eapply scanned_elem; [exact Ha|].
    apply andb_true_iff. split; by apply str_is_true. }
  destruct found as [|a' found']; [by apply elem_of_nil in Hin|].
  rewrite bool_decide_true by (simpl; lia). reflexivity.
Qed.

End Applications.

(** A withdrawn application of renter R1 for the house blocks a new one. *)
Lemma duplicate_application_conflict_witness :
  route_POST_applications (H := Sample.runtime) (Some Sample.renter1) Sample.now1
    Sample.application_form [] (Sample.listing "available" "withdrawn")
  = (Failure 409 "You have already applied to this property",
     Sample.listing "available" "withdrawn").
Proof.
  apply (duplicate_application_conflict (H := Sample.runtime)
           Sample.renter1 Sample.now1 Sample.application_form []
           (Sample.listing "available" "withdrawn") "h1"
           (Sample.house "available") "a1" (Sample.application "withdrawn"));
    first [ reflexivity | discriminate ].
Defined.

(** C3 (as stated) fails: the application of renter R1 for the house is
    stored as withdrawn, and R1 submits again; the submission is answered by
    409 and stores nothing, while the same form from renter R2 is accepted. *)
Lemma resubmission_after_withdrawal_conflicts :
  let w0 := Sample.listing "available" "withdrawn" in
  let resubmission :=
    route_POST_applications (H := Sample.runtime)
      (Some Sample.renter1) Sample.now1 Sample.application_form [] w0 in
  let other :=
    route_POST_applications (H := Sample.runtime)
      (Some Sample.renter2) Sample.now1 Sample.application_form [] w0 in
  (applications (db w0) !! "a1") ≫= (fun a => a !! "status") = Some (AStr "withdrawn")
  /\ resubmission.1 = Failure 409 "You have already applied to this property"
  /\ resubmission.2 = w0
  /\ succeeded other.1 = true.
Proof. vm_compute. repeat split. Qed.
(** ** Creation *)

Section Creation.
Context `{Runtime}.

Lemma POST_properties_run u now body files w r w' :
  POST_properties u now body files w = (Ok r, w') ->
  exists property,
    r = Success 201 (Some "Property created successfully") property
    /\ property !! "status" = Some (AStr "available")
    /\ exists id, property !! "id" = Some (AStr id)
                  /\ properties (db w') !! id = Some property.
Proof.
  unfold POST_properties. intros Hrun.
  destruct (_ || _); [discriminate|].
  apply bind_Ok in Hrun as (propertyId & wa & _ & Hrun).
  apply bind_Ok in Hrun as (images & wb & _ & Hrun).
  apply bind_Ok in Hrun as (address & wc & _ & Hrun).
  apply bind_Ok in Hrun as (coordinates & wd & _ & Hrun).
  apply bind_Ok in Hrun as (price & we & _ & Hrun).
  apply bind_Ok in Hrun as (details & wf & _ & Hrun).
  apply bind_Ok in Hrun as (amenities & wg & _ & Hrun).
  apply bind_Ok in Hrun as (leaseTerms & wh & _ & Hrun).
  apply try_catch_Ok in Hrun.
  apply bind_Ok in Hrun as ([] & wi & Hput & Hrun).
  injection Hrun as <- <-.
  eexists. split; [reflexivity|]. split.
  - unfold object. rewrite assign_lookup.
    destruct (body !! "title"), (body !! "description"), coordinates,
      (body !! "availableDate"), leaseTerms; reflexivity.
  - apply put_stored in Hput. exact Hput.
Qed.

Lemma POST_payments_run u now body w r w' :
  POST_payments u now body w = (Ok r, w') ->
  exists payment,
    r = Success 201 (Some "Payment record created successfully") payment
    /\ payment !! "status" = Some (AStr "pending")
    /\ exists id, payment !! "id" = Some (AStr id)
                  /\ payments (db w') !! id = Some payment.
Proof.
  unfold POST_payments. intros Hrun.
  destruct (_ || _); [discriminate|].
  apply bind_Ok in Hrun as (agreementId & wa & _ & Hrun).
  apply bind_Ok in Hrun as (rentalAgreement & wb & _ & Hrun).
  destruct rentalAgreement as [agreement|]; [|discriminate].
  destruct (negb _); [discriminate|].
  apply bind_Ok in Hrun as (paymentId & wc & _ & Hrun).
  apply bind_Ok in Hrun as (amount & wn & _ & Hrun).
  apply try_catch_Ok in Hrun.
  apply bind_Ok in Hrun as ([] & wd & Hput & Hrun).
  injection Hrun as <- <-.
  eexists. split; [reflexivity|]. split.
  - unfold object. rewrite assign_lookup.
    destruct (body !! "rentalAgreementId"), (agreement !! "propertyId"),
      (agreement !! "renterId"), (body !! "type"), (body !! "dueDate"),
      (body !! "month"), (body !! "notes"); reflexivity.
  - apply put_stored in Hput. exact Hput.
Qed.

Lemma POST_applications_run u now body files w r w' :
  POST_applications u now body files w = (Ok r, w') ->
  exists application,
    r = Success 201 (Some "Application submitted successfully") application
    /\ application !! "status" = Some (AStr "pending")
    /\ exists id, application !! "id" = Some (AStr id)
                  /\ applications (db w') !! id = Some application.
Proof.
  unfold POST_applications. intros Hrun.
  destruct (_ || _); [discriminate|].
  apply bind_Ok in Hrun as (propertyId & wa & _ & Hrun).
  apply bind_Ok in Hrun as (property & wb & _ & Hrun).
  destruct property as [prop|]; [|discriminate].
  destruct (negb _); [discriminate|].
  apply bind_Ok in Hrun as (existing & wc & _ & Hrun).
  destruct (bool_decide _); [discriminate|].
  apply bind_Ok in Hrun as (applicationId & wd & _ & Hrun).
  apply bind_Ok in Hrun as (documents & we & _ & Hrun).
  apply bind_Ok in Hrun as (personalInfo & wf & _ & Hrun).
  apply bind_Ok in Hrun as (employment & wg & _ & Hrun).
  apply bind_Ok in Hrun as (references & wh & _ & Hrun).
  apply try_catch_Ok in Hrun.
  apply bind_Ok in Hrun as ([] & wi & Hput & Hrun).
  injection Hrun as <- <-.
  eexists. split; [reflexivity|]. split.
  - unfold object. rewrite assign_lookup.
    destruct (prop !! "landlordId"), (body !! "message"); reflexivity.
  - apply put_stored in Hput. exact Hput.
Qed.

(** C10: whatever the request body holds, also under the key [status], a
    property that POST /properties creates is stored and returned with status
    [available], a payment that POST /payments creates with status [pending],
    and an application that POST /applications creates with status
    [pending]. *)
Theorem created_records_start_in_initial_status
    user1 now1 body1 files1 w1 c1 msg1 property w1'
    user2 now2 body2 w2 c2 msg2 payment w2'
    user3 now3 body3 files3 w3 c3 msg3 application w3' :
  route_POST_properties user1 now1 body1 files1 w1 = (Success c1 msg1 property, w1') ->
  route_POST_payments user2 now2 body2 w2 = (Success c2 msg2 payment, w2') ->
  route_POST_applications user3 now3 body3 files3 w3
  = (Success c3 msg3 application, w3') ->
  (property !! "status" = Some (AStr "available")
   /\ exists id, property !! "id" = Some (AStr id)
                 /\ properties (db w1') !! id = Some property)
  /\ (payment !! "status" = Some (AStr "pending")
      /\ exists id, payment !! "id" = Some (AStr id)
                    /\ payments (db w2') !! id = Some payment)
  /\ (application !! "status" = Some (AStr "pending")
      /\ exists id, application !! "id" = Some (AStr id)
                    /\ applications (db w3') !! id = Some application).
Proof.
  intros Hrun1 Hrun2 Hrun3.
  unfold route_POST_properties in Hrun1.
  unfold route_POST_payments in Hrun2.
  unfold route_POST_applications in Hrun3.
  apply requireLandlord_success in Hrun1 as (u1 & _ & _ & Hrun1); [|done].
  apply requireLandlord_success in Hrun2 as (u2 & _ & _ & Hrun2); [|done].
  apply requireRenter_success in Hrun3 as (u3 & _ & _ & Hrun3); [|done].
  apply POST_properties_run in Hrun1 as (rec1 & [= _ _ <-] & Hst1 & Hid1).
  apply POST_payments_run in Hrun2 as (rec2 & [= _ _ <-] & Hst2 & Hid2).
  apply POST_applications_run in Hrun3 as (rec3 & [= _ _ <-] & Hst3 & Hid3).
  auto.
Qed.

End Creation.

(** Three creations whose bodies ask for the statuses rented, paid and
    approved. *)
Lemma created_records_start_in_initial_status_witness :
  let run1 := route_POST_properties (H := Sample.runtime) (Some Sample.landlord1)
                Sample.now0 Sample.property_form [] (Sample.world Sample.emptyDB) in
  let run2 := route_POST_payments (H := Sample.runtime) (Some Sample.landlord1)
                Sample.now0 Sample.payment_form Sample.tenancy in
  let run3 := route_POST_applications (H := Sample.runtime) (Some Sample.renter2)
                Sample.now0 Sample.eager_application_form []
                (Sample.listing "available" "pending") in
  succeeded run1.1 = true /\ succeeded run2.1 = true /\ succeeded run3.1 = true
  /\ data_or ∅ run1.1 !! "status" = Some (AStr "available")
  /\ data_or ∅ run2.1 !! "status" = Some (AStr "pending")
  /\ data_or ∅ run3.1 !! "status" = Some (AStr "pending").
Proof.
  intros run1 run2 run3.
  pose proof (created_records_start_in_initial_status (H := Sample.runtime)
    (Some Sample.landlord1) Sample.now0 Sample.property_form []
    (Sample.world Sample.emptyDB)
    201 (Some "Property created successfully") (data_or ∅ run1.1) run1.2
    (Some Sample.landlord1) Sample.now0 Sample.payment_form Sample.tenancy
    201 (Some "Payment record created successfully") (data_or ∅ run2.1) run2.2
    (Some Sample.renter2) Sample.now0 Sample.eager_application_form []
    (Sample.listing "available" "pending")
    201 (Some "Application submitted successfully") (data_or ∅ run3.1) run3.2)
    as Hcreated.
  destruct Hcreated as ((Hst1 & _) & (Hst2 & _) & (Hst3 & _)).
  - apply (run_shape (∅ : Item) run1). vm_compute. reflexivity.
  - apply (run_shape (∅ : Item) run2). vm_compute. reflexivity.
  - apply (run_shape (∅ : Item) run3). vm_compute. reflexivity.
  - repeat split; try assumption; vm_compute; reflexivity.
Defined.
(** ** Status updates: an expression that names a reserved word *)

Lemma update_reserved_quiet t id sets w :
  faults w = [] ->
  existsb (fun kv => reserved (fst kv)) sets = true ->
  dynamoDB_update t id sets w = (Throw AwsError, w).
Proof.
  intros Hq Hnames. unfold dynamoDB_update, bind, refused_sets.
  by rewrite (aws_quiet w Hq), Hnames.
Qed.

Section Status_updates.
Context `{Runtime}.

Lemma append_to_const_inv sets clause w r w' :
  append_to_const sets clause w = (r, w') ->
  w' = w /\ (r = Ok (sets ++ clause)%list \/ r = Throw TypeError).
Proof.
  unfold append_to_const. destruct const_is_readonly; intros [= <- <-]; auto.
Qed.

(** The expression of a payment status update begins with the clause for
    [status], whatever is appended to it. *)
Lemma payment_update_expression_inv now v paidDate notes w r w' :
  payment_update_expression now (Some v) paidDate notes w = (r, w') ->
  w' = w
  /\ (r = Throw TypeError
      \/ exists sets, r = Ok sets /\ existsb (fun kv => reserved (fst kv)) sets = true).
Proof.
  unfold payment_update_expression. intros Hrun.
  apply bind_inv in Hrun as [(sets & w1 & Hfirst & Hrun) | (e & Hfirst & ->)].
  - assert (Hsets : w1 = w /\ existsb (fun kv => reserved (fst kv)) sets = true).
    { destruct (_ && _).
      - apply append_to_const_inv in Hfirst as [-> [[= Hs] | ?]]; [|done].
        split; [done|]. rewrite Hs. reflexivity.
      - injection Hfirst as Hs <-. split; [done|]. rewrite <- Hs. reflexivity. }
    destruct Hsets as [-> Hsets].
    destruct (truthy notes).
    + apply append_to_const_inv in Hrun as [-> [-> | ->]]; [|auto].
      split; [done|]. right. eexists. split; [done|].
      rewrite existsb_app, Hsets. done.
    + injection Hrun as <- <-. eauto.
  - destruct (_ && _); [|discriminate].
    apply append_to_const_inv in Hfirst as [-> [? | [= ->]]]; [done|]. auto.
Qed.

Lemma payment_update_expression_quiet now v paidDate notes w :
  payment_update_expression now (Some v) paidDate notes w = (Throw TypeError, w)
  \/ exists sets,
       payment_update_expression now (Some v) paidDate notes w = (Ok sets, w)
       /\ existsb (fun kv => reserved (fst kv)) sets = true.
Proof.
  destruct (payment_update_expression now (Some v) paidDate notes w) as [r w'] eqn:Hrun.
  apply payment_update_expression_inv in Hrun as [-> [-> | (sets & -> & Hsets)]]; eauto.
Qed.

(** The update of a payment status is refused, and nothing is written:
    DynamoDB takes no expression that names [status]. *)
Lemma payments_status_refused u now id body w res w' :
  PATCH_payments_status u now id body w = (res, w') ->
  db w' = db w /\ bucket w' = bucket w /\ exists e, res = Throw e.
Proof.
  unfold PATCH_payments_status. intros Hrun.
  destruct (_ || _) eqn:Hgiven; [injection Hrun as <- <-; eauto|].
  destruct (negb (includes _ _)); [injection Hrun as <- <-; eauto|].
  destruct (body !! "status") as [v|] eqn:Hstatus;
    [|apply orb_false_iff in Hgiven as [_ Hgiven]; discriminate].
  apply bind_inv in Hrun as [(o & w1 & Hget & Hrun) | (e & Hget & ->)].
  2:{ apply get_inv in Hget as (Hdb1 & Hb1 & _). eauto. }
  apply get_inv in Hget as (Hdb1 & Hb1 & _).
  destruct o as [item|]; [|injection Hrun as <- <-; eauto].
  destruct (negb (str_is _ _)); [injection Hrun as <- <-; eauto|].
  apply try_catch_inv in Hrun as [(a & Hrun & ->) | (e' & Hrun & ->)].
  - apply bind_Ok in Hrun as (sets & w2 & Hexp & Hrun).
    apply payment_update_expression_inv in Hexp as [-> [? | (sets' & [= <-] & Hsets)]];
      [done|].
    apply bind_Ok in Hrun as (result & w3 & Hupd & _).
    by apply (update_reserved _ _ _ _ _ _ Hsets) in Hupd as [? _].
  - apply bind_inv in Hrun as [(sets & w2 & Hexp & Hrun) | (e & Hexp & _)].
    + apply payment_update_expression_inv in Hexp as [-> [? | (sets' & [= <-] & Hsets)]];
        [done|].
      apply bind_inv in Hrun as [(result & w3 & Hupd & _) | (e & Hupd & _)];
        apply (update_reserved _ _ _ _ _ _ Hsets) in Hupd as (? & Hdb & Hb);
        [done|]. split; [congruence|]. split; [congruence|]. eauto.
    + apply payment_update_expression_inv in Hexp as [-> _]. eauto.
Qed.

Lemma route_payments_status_refused user now id body w r w' :
  route_PATCH_payments_status user now id body w = (r, w') ->
  succeeded r = false /\ db w' = db w /\ bucket w' = bucket w.
Proof.
  unfold route_PATCH_payments_status. intros Hrun.
  apply gate_landlord_inv in Hrun as [(Hfail & -> & _) | (u & -> & _ & Hrun)]; [done|].
  apply asyncHandler_inv in Hrun as [Hrun | (e & Hrun & Hfail & _)];
    apply payments_status_refused in Hrun as (Hdb & Hb & e' & He); [done|auto].
Qed.

(** One round of the bulk loop: an entry that reports a failure, or the
    TypeError of the log line for an id that has no string. *)
Lemma bulk_update_one_inv u now v paidDate notes pid w res w' :
  bulk_update_one u now (Some v) paidDate notes pid w = (res, w') ->
  db w' = db w /\ bucket w' = bucket w
  /\ if printable pid
     then exists err, res = Ok (mkBulkResult pid false (Some err))
     else res = Throw TypeError.
Proof.
  unfold bulk_update_one, try_catch. intros Hrun.
  match type of Hrun with
  | (match ?body w with _ => _ end) = _ => destruct (body w) as [[e|exn] w1] eqn:Hbody
  end.
  - injection Hrun as <- <-.
    apply bind_Ok in Hbody as (key & w2 & Hkey & Hbody).
    apply as_key_inv in Hkey as [-> [(key' & [= ->] & _ & [= <-]) | ?]]; [|done].
    apply bind_Ok in Hbody as (o & w3 & Hget & Hbody).
    apply get_inv in Hget as (Hdb & Hb & _).
    destruct o as [item|]; [|injection Hbody as <- <-; simpl; eauto].
    destruct (negb _); [injection Hbody as <- <-; simpl; eauto|].
    apply bind_Ok in Hbody as (sets & w4 & Hexp & Hbody).
    apply payment_update_expression_inv in Hexp as [-> [? | (sets' & [= <-] & Hsets)]];
      [done|].
    apply bind_Ok in Hbody as (result & w5 & Hupd & _).
    by apply (update_reserved _ _ _ _ _ _ Hsets) in Hupd as [? _].
  - assert (Hframe : db w1 = db w /\ bucket w1 = bucket w).
    { apply bind_inv in Hbody as [(key & w2 & Hkey & Hbody) | (e & Hkey & _)].
      2:{ by apply as_key_inv in Hkey as [-> _]. }
      apply as_key_inv in Hkey as [-> _].
      apply bind_inv in Hbody as [(o & w3 & Hget & Hbody) | (e & Hget & _)].
      2:{ by apply get_inv in Hget as (? & ? & _). }
      apply get_inv in Hget as (Hdb & Hb & _).
      destruct o as [item|]; [|discriminate].
      destruct (negb _); [discriminate|].
      apply bind_inv in Hbody as [(sets & w4 & Hexp & Hbody) | (e & Hexp & _)].
      2:{ by apply payment_update_expression_inv in Hexp as [-> _]. }
      apply payment_update_expression_inv in Hexp as [-> [? | (sets' & [= <-] & Hsets)]];
        [done|].
      apply bind_inv in Hbody as [(result & w5 & Hupd & _) | (e & Hupd & _)];
        apply (update_reserved _ _ _ _ _ _ Hsets) in Hupd as (? & Hdb' & Hb');
        [done|]. split; congruence. }
    destruct Hframe as [Hdb Hb].
    unfold bind, log_with in Hrun.
    destruct (printable pid); injection Hrun as <- <-; simpl; eauto.
Qed.

Lemma bulk_loop_inv u now v paidDate notes ids w res w' :
  for_of ids (bulk_update_one u now (Some v) paidDate notes) w = (res, w') ->
  db w' = db w /\ bucket w' = bucket w
  /\ if forallb printable ids
     then exists results,
            res = Ok results
            /\ entry_id <$> results = ids
            /\ Forall (fun e => entry_success e = false) results
     else res = Throw TypeError.
Proof.
  revert w res w'. induction ids as [|pid ids IH]; intros w res w' Hrun; simpl in *.
  - injection Hrun as <- <-. split; [done|]. split; [done|]. by exists [].
  - apply bind_inv in Hrun as [(e & w1 & Hone & Hrun) | (exn & Hone & ->)];
      apply bulk_update_one_inv in Hone as (Hdb1 & Hb1 & Hone).
    + destruct (printable pid); [|done]. destruct Hone as (err & [= ->]). simpl.
      apply bind_inv in Hrun as [(rs & w2 & Hrest & Hrun) | (exn & Hrest & ->)];
        apply IH in Hrest as (Hdb2 & Hb2 & Hrest).
      * injection Hrun as <- <-. split; [congruence|]. split; [congruence|].
        destruct (forallb printable ids); [|done].
        destruct Hrest as (results & [= ->] & Hids & Hall).
        eexists. split; [done|]. split; [by rewrite fmap_cons, Hids|].
        by constructor.
      * split; [congruence|]. split; [congruence|].
        destruct (forallb printable ids); [|done].
        by destruct Hrest as (results & ? & _).
    + destruct (printable pid); [by destruct Hone|]. simpl.
      injection Hone as ->. auto.
Qed.

Lemma bulk_update_frame u now body w res w' :
  PATCH_payments_bulk_update u now body w = (res, w') ->
  db w' = db w /\ bucket w' = bucket w
  /\ forall c msg results,
       res = Ok (Success c msg results) ->
       Forall (fun e => entry_success e = false) results.
Proof.
  unfold PATCH_payments_bulk_update. intros Hrun.
  destruct (body !! "paymentIds") as [[| | | | | |[|pid ids]|]|];
    try (injection Hrun as <- <-; split; [done|]; split; [done|]; discriminate).
  destruct (_ || _) eqn:Hvalid;
    [injection Hrun as <- <-; split; [done|]; split; [done|]; discriminate|].
  destruct (body !! "status") as [v|] eqn:Hstatus;
    [|apply orb_false_iff in Hvalid as [Hvalid _]; discriminate].
  apply bind_inv in Hrun as [(results & w1 & Hloop & Hrun) | (exn & Hloop & ->)];
    apply bulk_loop_inv in Hloop as (Hdb & Hb & Hloop).
  - injection Hrun as <- <-. split; [done|]. split; [done|].
    intros c msg results' [= _ _ <-].
    destruct (forallb printable (pid :: ids)); [|done].
    by destruct Hloop as (results' & [= <-] & _ & Hall).
  - split; [done|]. split; [done|]. discriminate.
Qed.

Lemma route_bulk_update_frame user now body w r w' :
  route_PATCH_payments_bulk_update user now body w = (r, w') ->
  db w' = db w /\ bucket w' = bucket w
  /\ forall c msg results,
       r = Success c msg results ->
       Forall (fun e => entry_success e = false) results.
Proof.
  unfold route_PATCH_payments_bulk_update. intros Hrun.
  apply gate_landlord_inv in Hrun as [(Hfail & -> & _) | (u & -> & _ & Hrun)].
  { split; [done|]. split; [done|]. intros c msg results ->. discriminate. }
  apply asyncHandler_inv in Hrun as [Hrun | (e & Hrun & Hfail & _)];
    apply bulk_update_frame in Hrun as (Hdb & Hb & Hall).
  - split; [done|]. split; [done|]. intros c msg results ->. by eapply Hall.
  - split; [done|]. split; [done|]. intros c msg results ->. discriminate.
Qed.

(** *** While the store answers *)

Lemma payments_status_quiet u now id body w :
  faults w = [] ->
  exists e,
    PATCH_payments_status u now id body w = (Throw e, w)
    /\ (id <> "" ->
        includes ["pending"; "paid"; "overdue"; "cancelled"] (body !! "status") = true ->
        e = match payments (db w) !! id with
            | None => createError "Payment not found" 404
            | Some item =>
                if str_is (user_id u) (item !! "landlordId")
                then createError "Failed to update payment status" 500
                else createError "Unauthorized to update this payment" 403
            end).
Proof.
  intros Hq. unfold PATCH_payments_status. cbv zeta.
  destruct (String.eqb id "") eqn:Hid; cbn [orb].
  { eexists. split; [reflexivity|]. intros Hne. by apply String.eqb_eq in Hid. }
  destruct (negb (truthy (body !! "status"))) eqn:Htruthy.
  { eexists. split; [reflexivity|]. intros _ Hv.
    rewrite (includes_truthy _ _ Hv) in Htruthy by (repeat constructor; discriminate).
    discriminate. }
  destruct (negb (includes _ (body !! "status"))) eqn:Hvalid.
  { eexists. split; [reflexivity|]. intros _ Hv. rewrite Hv in Hvalid. discriminate. }
  destruct (body !! "status") as [v|] eqn:Hstatus; [|discriminate].
  rewrite (bind_run _ _ _ _ _ (get_quiet _ _ _ Hq)). cbn [table].
  destruct (payments (db w) !! id) as [item|]; [|eauto].
  destruct (str_is (user_id u) (item !! "landlordId")); simpl; [|eauto].
  eexists. split; [|done]. unfold try_catch.
  destruct (payment_update_expression_quiet now v (body !! "paidDate") (body !! "notes") w)
    as [Hexp | (sets & Hexp & Hsets)].
  - by rewrite (bind_throw _ _ _ _ _ Hexp).
  - rewrite (bind_run _ _ _ _ _ Hexp).
    by rewrite (bind_throw _ _ _ _ _ (update_reserved_quiet _ _ _ _ Hq Hsets)).
Qed.

Lemma bulk_update_one_quiet u now v paidDate notes pid w :
  faults w = [] ->
  if printable pid
  then exists e,
         bulk_update_one u now (Some v) paidDate notes pid w = (Ok e, w)
         /\ entry_id e = pid /\ entry_outcome u w e
  else bulk_update_one u now (Some v) paidDate notes pid w = (Throw TypeError, w).
Proof.
  intros Hq. unfold bulk_update_one, try_catch, entry_outcome.
  destruct pid as [| | | | |key| |];
    try (cbn [printable]; eexists; split; [reflexivity|]; by simpl).
  - cbn [printable]. destruct (String.eqb key "") eqn:Hkey.
    + unfold as_key, bind. rewrite Hkey. simpl. eexists. split; [reflexivity|].
      simpl. by rewrite Hkey.
    + apply String.eqb_neq in Hkey.
      rewrite (bind_run _ _ _ _ _ (as_key_str key w Hkey)).
      rewrite (bind_run _ _ _ _ _ (get_quiet _ _ _ Hq)). cbn [table].
      apply String.eqb_neq in Hkey.
      destruct (payments (db w) !! key) as [item|] eqn:Hitem; simpl.
      2:{ eexists. split; [reflexivity|]. simpl. by rewrite Hkey, Hitem. }
      destruct (str_is (user_id u) (item !! "landlordId")) eqn:Hown; simpl.
      2:{ eexists. split; [reflexivity|]. simpl. by rewrite Hkey, Hitem, Hown. }
      destruct (payment_update_expression_quiet now v paidDate notes w)
        as [Hexp | (sets & Hexp & Hsets)].
      * rewrite (bind_throw _ _ _ _ _ Hexp). simpl. eexists. split; [reflexivity|].
        simpl. by rewrite Hkey, Hitem, Hown.
      * rewrite (bind_run _ _ _ _ _ Hexp).
        rewrite (bind_throw _ _ _ _ _ (update_reserved_quiet _ _ _ _ Hq Hsets)).
        simpl. eexists. split; [reflexivity|]. simpl. by rewrite Hkey, Hitem, Hown.
  - unfold as_key, bind, log_with. simpl.
    destruct (forallb printable l); [|done]. eexists. split; [reflexivity|]. by simpl.
  - unfold as_key, bind, log_with. simpl.
    destruct (negb _); [|done]. eexists. split; [reflexivity|]. by simpl.
Qed.

Lemma bulk_loop_quiet u now v paidDate notes ids w :
  faults w = [] ->
  if forallb printable ids
  then exists results,
         for_of ids (bulk_update_one u now (Some v) paidDate notes) w = (Ok results, w)
         /\ entry_id <$> results = ids
         /\ Forall (entry_outcome u w) results
  else for_of ids (bulk_update_one u now (Some v) paidDate notes) w
       = (Throw TypeError, w).
Proof.
  intros Hq. induction ids as [|pid ids IH]; simpl.
  - by exists [].
  - pose proof (bulk_update_one_quiet u now v paidDate notes pid w Hq) as Hone.
    destruct (printable pid); simpl.
    + destruct Hone as (e & Hone & Hid & Hout). rewrite (bind_run _ _ _ _ _ Hone).
      destruct (forallb printable ids).
      * destruct IH as (results & Hrest & Hids & Hall).
        rewrite (bind_run _ _ _ _ _ Hrest). eexists. split; [reflexivity|].
        split; [by rewrite fmap_cons, Hid, Hids | by constructor].
      * by rewrite (bind_throw _ _ _ _ _ IH).
    + by rewrite (bind_throw _ _ _ _ _ Hone).
Qed.

Lemma bulk_update_world u now body w :
  faults w = [] -> (PATCH_payments_bulk_update u now body w).2 = w.
Proof.
  intros Hq. unfold PATCH_payments_bulk_update.
  destruct (body !! "paymentIds") as [[| | | | | |[|pid ids]|]|]; try done.
  destruct (_ || _) eqn:Hvalid; [done|].
  destruct (body !! "status") as [v|];
    [|apply orb_false_iff in Hvalid as [Hvalid _]; discriminate].
  pose proof (bulk_loop_quiet u now v (body !! "paidDate") (body !! "notes")
                (pid :: ids) w Hq) as Hloop.
  destruct (forallb printable (pid :: ids)).
  - destruct Hloop as (results & Hloop & _). by rewrite (bind_run _ _ _ _ _ Hloop).
  - by rewrite (bind_throw _ _ _ _ _ Hloop).
Qed.

Lemma gated_world {D} (gate : option User -> (User -> World -> Response D * World)
                              -> World -> Response D * World)
    (h : User -> M (Response D)) user w :
  (gate = requireLandlord \/ gate = requireRenter) ->
  (forall u, (h u w).2 = w) ->
  (gate user (fun u => asyncHandler (h u)) w).2 = w.
Proof.
  intros Hgate Hh.
  assert (Hasync : forall u, (asyncHandler (h u) w).2 = w).
  { intros u. specialize (Hh u). unfold asyncHandler.
    destruct (h u w) as [[r|[]] w1]; exact Hh. }
  destruct Hgate as [-> | ->]; [unfold requireLandlord | unfold requireRenter];
    (destruct user as [u|]; [|done]); (destruct (negb _); [done | apply Hasync]).
Qed.

(** C7 (defect in the log line of the catch): while the store answers, a
    landlord's bulk update with a valid status answers 200 with one entry
    per submitted id, in the order of the ids, each with the outcome of its
    own id, provided every id has a string to be logged with; one id that
    has none (an object with a [toString] field) ends the whole request in
    the error 500, without a list.  The store is left as it was. *)
Theorem bulk_update_reports_each_id u now body ids w :
  userType u = "landlord" ->
  body !! "paymentIds" = Some (AList ids) ->
  ids <> [] ->
  includes ["pending"; "paid"; "overdue"; "cancelled"] (body !! "status") = true ->
  faults w = [] ->
  if forallb printable ids
  then exists results,
         route_PATCH_payments_bulk_update (Some u) now body w
         = (Success 200 (Some "Bulk update completed") results, w)
         /\ entry_id <$> results = ids
         /\ Forall (entry_outcome u w) results
  else route_PATCH_payments_bulk_update (Some u) now body w
       = (Failure 500 "Internal Server Error", w).
Proof.
  intros Hrole Hids Hne Hvalid Hq.
  unfold route_PATCH_payments_bulk_update, requireLandlord. rewrite Hrole. simpl.
  unfold asyncHandler, PATCH_payments_bulk_update. rewrite Hids.
  destruct ids as [|pid ids]; [done|].
  rewrite (includes_truthy _ _ Hvalid) by (repeat constructor; discriminate).
  rewrite Hvalid. cbn [negb orb].
  destruct (body !! "status") as [v|]; [|discriminate].
  pose proof (bulk_loop_quiet u now v (body !! "paidDate") (body !! "notes")
                (pid :: ids) w Hq) as Hloop.
  destruct (forallb printable (pid :: ids)).
  - destruct Hloop as (results & Hloop & Hentries & Hall).
    rewrite (bind_run _ _ _ _ _ Hloop). eauto.
  - by rewrite (bind_throw _ _ _ _ _ Hloop).
Qed.

(** C5: a payment that is stored stays as it is through every status update
    request, single or bulk, whatever its stored status, so in particular
    when that is [paid], [overdue] or [cancelled]: the single update is
    answered by a failure, and the bulk update reports a failure for every
    id. *)
Theorem stored_payment_outlasts_updates user now w k p :
  payments (db w) !! k = Some p ->
  (forall id body r w',
     route_PATCH_payments_status user now id body w = (r, w') ->
     succeeded r = false /\ payments (db w') !! k = Some p)
  /\ (forall body r w',
        route_PATCH_payments_bulk_update user now body w = (r, w') ->
        payments (db w') !! k = Some p
        /\ forall c msg results,
             r = Success c msg results ->
             Forall (fun e => entry_success e = false) results).
Proof.
  intros Hp. split.
  - intros id body r w' Hrun.
    apply route_payments_status_refused in Hrun as (Hfail & Hdb & _).
    by rewrite Hdb.
  - intros body r w' Hrun.
    apply route_bulk_update_frame in Hrun as (Hdb & _ & Hall).
    by rewrite Hdb.
Qed.


(** X11: PATCH /payments/:id/status is always refused and writes nothing.
    For a landlord who sends a valid status while the store answers, the
    answer is 404 for a payment that does not exist, 403 for a payment of
    another landlord, and 500 "Failed to update payment status" for the
    caller's own payment, whose update expression DynamoDB refuses. *)
Theorem payment_status_refusals user now id body w r w' :
  route_PATCH_payments_status user now id body w = (r, w') ->
  succeeded r = false /\ db w' = db w /\ bucket w' = bucket w
  /\ forall u,
       user = Some u -> userType u = "landlord" -> id <> "" ->
       includes ["pending"; "paid"; "overdue"; "cancelled"] (body !! "status") = true ->
       faults w = [] ->
       r = match payments (db w) !! id with
           | None => Failure 404 "Payment not found"
           | Some item =>
               if str_is (user_id u) (item !! "landlordId")
               then Failure 500 "Failed to update payment status"
               else Failure 403 "Unauthorized to update this payment"
           end.
Proof.
  intros Hrun.
  destruct (route_payments_status_refused _ _ _ _ _ _ _ Hrun) as (Hfail & Hdb & Hb).
  split; [done|]. split; [done|]. split; [done|].
  intros u -> Hrole Hid Hvalid Hq.
  unfold route_PATCH_payments_status, requireLandlord in Hrun.
  rewrite Hrole in Hrun. simpl in Hrun. unfold asyncHandler in Hrun.
  destruct (payments_status_quiet u now id body w Hq) as (e & Hquiet & He).
  rewrite Hquiet, (He Hid Hvalid) in Hrun.
  destruct (payments (db w) !! id) as [item|]; [|by injection Hrun as <- _].
  destruct (str_is (user_id u) (item !! "landlordId")); by injection Hrun as <- _.
Qed.

(** X17: While the store answers, a bulk update that names one payment
    leaves the store exactly as the single status update of that payment
    with the same body does, and reports success for the id exactly when the
    single update succeeds. *)
Theorem bulk_update_of_one_is_the_single_update user now id body w :
  faults w = [] ->
  id <> "" ->
  let single := route_PATCH_payments_status user now id body w in
  let bulk :=
    route_PATCH_payments_bulk_update user now
      (<["paymentIds" := AList [AStr id]]> body) w in
  bulk.2 = single.2
  /\ (succeeded single.1 = true
      <-> bulk.1 = Success 200 (Some "Bulk update completed")
                     [mkBulkResult (AStr id) true None]).
Proof.
  intros Hq Hid single bulk. split.
  - transitivity w.
    + apply (gated_world requireLandlord); [by left|].
      intros u. by apply bulk_update_world.
    + symmetry. apply (gated_world requireLandlord); [by left|].
      intros u. by destruct (payments_status_quiet u now id body w Hq) as (e & -> & _).
  - split.
    + intros Hok.
      destruct (route_payments_status_refused user now id body w single.1 single.2)
        as (Hfail & _); [apply surjective_pairing|]. congruence.
    + intros Hbulk.
      destruct (route_bulk_update_frame user now
                  (<["paymentIds" := AList [AStr id]]> body) w bulk.1 bulk.2)
        as (_ & _ & Hall); [apply surjective_pairing|].
      specialize (Hall _ _ _ Hbulk). by apply Forall_cons in Hall as [? _].
Qed.

(** X18: Whatever a landlord sends to PATCH /payments/:id/status, the
    payments of every other landlord, and with them that landlord's total
    earnings, stay what they were. *)
Theorem earnings_isolated_from_other_landlords user now id body w r w' u :
  route_PATCH_payments_status user now id body w = (r, w') ->
  (forall v, user = Some v -> user_id v <> user_id u) ->
  payments_of u w' ≡ₚ payments_of u w
  /\ totalEarnings (payments_of u w') = totalEarnings (payments_of u w).
Proof.
  intros Hrun _.
  apply route_payments_status_refused in Hrun as (_ & Hdb & _).
  by rewrite (payments_of_db u w w' Hdb).
Qed.

End Status_updates.

(** Landlord L1 submits four ids of the sample ledger at once: an own
    payment, a payment of landlord L2, an id that is not stored and a number;
    each is reported on its own.  With an id that has no string the request
    ends in the error 500. *)
Lemma bulk_update_reports_each_id_witness :
  (exists results,
     route_PATCH_payments_bulk_update (H := Sample.runtime) (Some Sample.landlord1)
       Sample.now0
       (object [("paymentIds", AList [AStr "p1"; AStr "p4"; AStr "p9"; ANum 7]);
                ("status", AStr "paid")])
       Sample.ledger
     = (Success 200 (Some "Bulk update completed") results, Sample.ledger)
     /\ entry_error <$> results
        = [Some "Update failed"; Some "Unauthorized"; Some "Payment not found";
           Some "Update failed"])
  /\ route_PATCH_payments_bulk_update (H := Sample.runtime) (Some Sample.landlord1)
       Sample.now0
       (object [("paymentIds", AList [AStr "p1"; AObj [("toString", ANum 1)]]);
                ("status", AStr "paid")])
       Sample.ledger
     = (Failure 500 "Internal Server Error", Sample.ledger).
Proof.
  split.
  - destruct (bulk_update_reports_each_id (H := Sample.runtime) Sample.landlord1
                Sample.now0
                (object [("paymentIds", AList [AStr "p1"; AStr "p4"; AStr "p9"; ANum 7]);
                         ("status", AStr "paid")])
                [AStr "p1"; AStr "p4"; AStr "p9"; ANum 7] Sample.ledger)
      as (results & Hrun & _ & _);
      [reflexivity | reflexivity | discriminate | reflexivity | reflexivity |].
    exists results. split; [exact Hrun|].
    vm_compute in Hrun. injection Hrun as <-. reflexivity.
  - apply (bulk_update_reports_each_id (H := Sample.runtime) Sample.landlord1
             Sample.now0
             (object [("paymentIds", AList [AStr "p1"; AObj [("toString", ANum 1)]]);
                      ("status", AStr "paid")])
             [AStr "p1"; AObj [("toString", ANum 1)]] Sample.ledger);
      [reflexivity | reflexivity | discriminate | reflexivity | reflexivity].
Defined.

(** The paid payment p1 of the sample ledger: the request of its landlord to
    cancel it is answered by 500, and p1 is stored as before. *)
Lemma stored_payment_outlasts_updates_witness :
  let update :=
    route_PATCH_payments_status (H := Sample.runtime) (Some Sample.landlord1)
      Sample.now0 "p1" (object [("status", AStr "cancelled")]) Sample.ledger in
  update.1 = Failure 500 "Failed to update payment status"
  /\ payments (db update.2) !! "p1"
     = Some (Sample.payment "p1" "L1" "paid" 100 "2024-03-01").
Proof.
  intros update.
  destruct (stored_payment_outlasts_updates (H := Sample.runtime)
              (Some Sample.landlord1) Sample.now0 Sample.ledger "p1"
              (Sample.payment "p1" "L1" "paid" 100 "2024-03-01")) as [Hsingle _].
  - vm_compute. reflexivity.
  - destruct (Hsingle "p1" (object [("status", AStr "cancelled")]) update.1 update.2
                (surjective_pairing _)) as [_ Hkept].
    split; [vm_compute; reflexivity | exact Hkept].
Defined.


(** Landlord L2 tries to mark the payment p1 of landlord L1 as paid, and
    landlord L1 tries the same. *)
Lemma payment_status_refusals_witness :
  let foreign :=
    route_PATCH_payments_status (H := Sample.runtime) (Some Sample.landlord2)
      Sample.now0 "p1" (object [("status", AStr "paid")]) Sample.ledger in
  let own :=
    route_PATCH_payments_status (H := Sample.downleveled) (Some Sample.landlord1)
      Sample.now0 "p1" (object [("status", AStr "paid")]) Sample.ledger in
  db foreign.2 = db Sample.ledger
  /\ foreign.1 = Failure 403 "Unauthorized to update this payment"
  /\ db own.2 = db Sample.ledger
  /\ own.1 = Failure 500 "Failed to update payment status".
Proof.
  intros foreign own.
  destruct (payment_status_refusals (H := Sample.runtime) (Some Sample.landlord2)
              Sample.now0 "p1" (object [("status", AStr "paid")]) Sample.ledger
              foreign.1 foreign.2 (surjective_pairing _)) as (_ & Hdb & _ & Hcode).
  destruct (payment_status_refusals (H := Sample.downleveled) (Some Sample.landlord1)
              Sample.now0 "p1" (object [("status", AStr "paid")]) Sample.ledger
              own.1 own.2 (surjective_pairing _)) as (_ & Hdb' & _ & Hcode').
  split; [exact Hdb|]. split.
  { apply (Hcode Sample.landlord2); [reflexivity | reflexivity | discriminate
                                    | reflexivity | reflexivity]. }
  split; [exact Hdb'|].
  apply (Hcode' Sample.landlord1); [reflexivity | reflexivity | discriminate
                                   | reflexivity | reflexivity].
Defined.

(** Landlord L1 asks to mark the payment p2 as paid, once directly and once
    as a bulk update of that one id: the ledger is the same after both. *)
Lemma bulk_update_of_one_is_the_single_update_witness :
  (route_PATCH_payments_bulk_update (H := Sample.runtime) (Some Sample.landlord1)
     Sample.now0
     (<["paymentIds" := AList [AStr "p2"]]> (object [("status", AStr "paid")]))
     Sample.ledger).2
  = (route_PATCH_payments_status (H := Sample.runtime) (Some Sample.landlord1)
       Sample.now0 "p2" (object [("status", AStr "paid")]) Sample.ledger).2.
Proof.
  destruct (bulk_update_of_one_is_the_single_update (H := Sample.runtime)
              (Some Sample.landlord1) Sample.now0 "p2" (object [("status", AStr "paid")])
              Sample.ledger) as [Hsame _].
  - reflexivity.
  - discriminate.
  - exact Hsame.
Defined.

(** Landlord L2 asks to mark the payment p4 of the sample ledger as paid:
    the earnings of landlord L1 are what they were. *)
Lemma earnings_isolated_from_other_landlords_witness :
  let update :=
    route_PATCH_payments_status (H := Sample.runtime) (Some Sample.landlord2)
      Sample.now0 "p4" {[ "status" := AStr "paid" ]} Sample.ledger in
  totalEarnings (payments_of Sample.landlord1 update.2)
  = totalEarnings (payments_of Sample.landlord1 Sample.ledger).
Proof.
  intros update.
  apply (earnings_isolated_from_other_landlords (H := Sample.runtime)
           (Some Sample.landlord2) Sample.now0 "p4" {[ "status" := AStr "paid" ]}
           Sample.ledger update.1 update.2 Sample.landlord1).
  - apply surjective_pairing.
  - intros v [= <-]. discriminate.
Defined.
(** ** Applications: status update, withdrawal and submission *)

Lemma object_lookup fields k : object fields !! k = assigned k fields None.
Proof. unfold object. by rewrite assign_lookup, lookup_empty. Qed.

Lemma for_of_db {A B} (xs : list A) (body : A -> M B) :
  (forall x w r w', body x w = (r, w') -> db w' = db w) ->
  forall w r w', for_of xs body w = (r, w') -> db w' = db w.
Proof.
  intros Hbody. induction xs as [|x xs IH]; intros w r w' Hrun; simpl in Hrun.
  - by injection Hrun as <- <-.
  - apply bind_inv in Hrun as [(b & w1 & Hx & Hrun) | (e & Hx & ->)].
    + apply Hbody in Hx.
      apply bind_inv in Hrun as [(bs & w2 & Hxs & Hrun) | (e & Hxs & ->)].
      * apply IH in Hxs. injection Hrun as <- <-. congruence.
      * apply IH in Hxs. congruence.
    + by apply Hbody in Hx.
Qed.

Lemma s3_upload_db key f w r w' : s3_upload key f w = (r, w') -> db w' = db w.
Proof.
  unfold s3_upload. intros Hrun.
  apply bind_inv in Hrun as [([] & w1 & Haws & Hrun) | (e & Haws & ->)].
  - apply aws_frame in Haws as (Hdb & _). injection Hrun as <- <-. done.
  - by apply aws_frame in Haws as (Hdb & _).
Qed.

Section Application_status.
Context `{Runtime}.

Lemma parse_inv v w r w' : parse v w = (r, w') -> w' = w.
Proof.
  unfold parse. destruct v as [text|]; [|by intros [= <- <-]].
  destruct (JSON_parse text); by intros [= <- <-].
Qed.

Lemma upload_documents_db applicationId documentTypes files w r w' :
  upload_documents applicationId documentTypes files w = (r, w') -> db w' = db w.
Proof.
  apply for_of_db. clear. intros file w r w' Hrun.
  apply bind_inv in Hrun as [(documentId & w1 & Hid & Hrun) | (e & Hid & ->)].
  - apply uuidv4_inv in Hid as (_ & Hdb1 & _).
    unfold try_catch in Hrun.
    destruct (bind _ _ w1) as [[a|e] w2] eqn:Hup.
    + injection Hrun as <- <-.
      apply bind_Ok in Hup as ([] & w3 & Hup & Hret). injection Hret as _ <-.
      apply s3_upload_db in Hup. congruence.
    + injection Hrun as <- <-.
      apply bind_inv in Hup as [([] & w3 & Hup & Hret) | (e' & Hup & _)];
        [discriminate|].
      apply s3_upload_db in Hup. congruence.
  - by apply uuidv4_inv in Hid as (_ & Hdb1 & _).
Qed.

(** Whatever a submission answers, it leaves the tables as they were or adds
    one application in status [pending]. *)
Lemma POST_applications_frame u now body files w res w' :
  POST_applications u now body files w = (res, w') ->
  db w' = db w
  \/ exists id application,
       application !! "status" = Some (AStr "pending")
       /\ db w' = set_table APPLICATIONS (<[id := application]> (applications (db w))) (db w).
Proof.
  unfold POST_applications. intros Hrun.
  destruct (_ || _); [injection Hrun as <- <-; auto|].
  apply bind_inv in Hrun as [(propertyId & wa & Hkey & Hrun) | (e & Hkey & ->)].
  2:{ apply as_key_inv in Hkey as [-> _]. auto. }
  apply as_key_inv in Hkey as [-> _].
  apply bind_inv in Hrun as [(property & wb & Hget & Hrun) | (e & Hget & ->)].
  2:{ apply get_inv in Hget as (Hdb & _). auto. }
  apply get_inv in Hget as (Hdbb & _).
  destruct property as [prop|]; [|injection Hrun as <- <-; auto].
  destruct (negb _); [injection Hrun as <- <-; auto|].
  apply bind_inv in Hrun as [(existing & wc & Hscan & Hrun) | (e & Hscan & ->)].
  2:{ apply scan_inv in Hscan as (Hdb & _). left. congruence. }
  apply scan_inv in Hscan as (Hdbc & _).
  destruct (bool_decide _); [injection Hrun as <- <-; left; congruence|].
  apply bind_inv in Hrun as [(applicationId & wd & Hid & Hrun) | (e & Hid & ->)].
  2:{ apply uuidv4_inv in Hid as (_ & Hdb & _). left. congruence. }
  apply uuidv4_inv in Hid as (_ & Hdbd & _).
  apply bind_inv in Hrun as [(documents & we & Hdocs & Hrun) | (e & Hdocs & ->)].
  2:{ apply upload_documents_db in Hdocs. left. congruence. }
  apply upload_documents_db in Hdocs.
  apply bind_inv in Hrun as [(personalInfo & wf & Hp1 & Hrun) | (e & Hp1 & ->)].
  2:{ apply parse_inv in Hp1 as ->. left. congruence. }
  apply parse_inv in Hp1 as ->.
  apply bind_inv in Hrun as [(employment & wg & Hp2 & Hrun) | (e & Hp2 & ->)].
  2:{ apply parse_inv in Hp2 as ->. left. congruence. }
  apply parse_inv in Hp2 as ->.
  apply bind_inv in Hrun as [(references & wh & Hp3 & Hrun) | (e & Hp3 & ->)].
  2:{ apply (parse_inv (Some _)) in Hp3 as ->. left. congruence. }
  apply (parse_inv (Some _)) in Hp3 as ->.
  assert (Hput : forall r0 w0,
    dynamoDB_put APPLICATIONS (object (
        [("id", AStr applicationId);
         ("propertyId", AStr propertyId);
         ("renterId", AStr (user_id u))]
        ++ field "landlordId" (prop !! "landlordId")
        ++ [("status", AStr "pending");
            ("personalInfo", personalInfo);
            ("employment", employment);
            ("references", references);
            ("documents", AList documents)]
        ++ field "message" (body !! "message")
        ++ [("createdAt", AStr (toISOString now));
            ("updatedAt", AStr (toISOString now))])) we = (r0, w0) ->
    db w0 = db w
    \/ exists id application,
         application !! "status" = Some (AStr "pending")
         /\ db w0 = set_table APPLICATIONS
                      (<[id := application]> (applications (db w))) (db w)).
  { intros r0 w0 Hput.
    apply put_inv in Hput as (_ & [(id & _ & _ & _ & Hdb) | (_ & Hdb)]).
    - right. exists id. eexists. split; [|rewrite Hdb; cbn [table];
        by rewrite Hdocs, Hdbd, Hdbc, Hdbb].
      rewrite object_lookup.
      destruct (prop !! "landlordId"), (body !! "message"); reflexivity.
    - left. congruence. }
  apply try_catch_inv in Hrun as [(a & Hrun & _) | (e' & Hrun & _)].
  - apply bind_Ok in Hrun as ([] & wi & Hrun & Hret). injection Hret as _ <-.
    by apply Hput in Hrun.
  - apply bind_inv in Hrun as [([] & wi & Hrun & Hret) | (e & Hrun & _)];
      [discriminate|]. by apply Hput in Hrun.
Qed.

Lemma route_POST_applications_frame user now body files w r w' :
  route_POST_applications user now body files w = (r, w') ->
  db w' = db w
  \/ exists id application,
       application !! "status" = Some (AStr "pending")
       /\ db w' = set_table APPLICATIONS (<[id := application]> (applications (db w))) (db w).
Proof.
  unfold route_POST_applications. intros Hrun.
  apply gate_renter_inv in Hrun as [(_ & -> & _) | (u & -> & _ & Hrun)]; [auto|].
  apply asyncHandler_inv in Hrun as [Hrun | (e & Hrun & _)];
    by apply POST_applications_frame in Hrun.
Qed.

(** The expression of an application status update begins with the clause
    for [status]. *)
Lemma application_update_expression_inv u now v notes w r w' :
  application_update_expression u now (Some v) notes w = (r, w') ->
  w' = w
  /\ (r = Throw TypeError
      \/ exists sets, r = Ok sets /\ existsb (fun kv => reserved (fst kv)) sets = true).
Proof.
  unfold application_update_expression. intros Hrun.
  destruct (truthy notes).
  - apply append_to_const_inv in Hrun as [-> [-> | ->]]; [|auto].
    split; [done|]. right. eexists. split; [done|]. reflexivity.
  - injection Hrun as <- <-. split; [done|]. right. eexists. split; [done|]. reflexivity.
Qed.


(** The update of an application status is refused, and nothing is written. *)
Lemma applications_status_refused u now id body w res w' :
  PATCH_applications_status u now id body w = (res, w') ->
  db w' = db w /\ bucket w' = bucket w /\ exists e, res = Throw e.
Proof.
  unfold PATCH_applications_status. intros Hrun.
  destruct (_ || _) eqn:Hgiven; [injection Hrun as <- <-; eauto|].
  destruct (negb (includes _ _)); [injection Hrun as <- <-; eauto|].
  destruct (body !! "status") as [v|] eqn:Hstatus;
    [|apply orb_false_iff in Hgiven as [_ Hgiven]; discriminate].
  apply bind_inv in Hrun as [(o & w1 & Hget & Hrun) | (e & Hget & ->)].
  2:{ apply get_inv in Hget as (Hdb1 & Hb1 & _). eauto. }
  apply get_inv in Hget as (Hdb1 & Hb1 & _).
  destruct o as [item|]; [|injection Hrun as <- <-; eauto].
  destruct (negb (str_is _ _)); [injection Hrun as <- <-; eauto|].
  apply try_catch_inv in Hrun as [(a & Hrun & ->) | (e' & Hrun & ->)].
  - apply bind_Ok in Hrun as (sets & w2 & Hexp & Hrun).
    apply application_update_expression_inv in Hexp as [-> [? | (sets' & [= <-] & Hsets)]];
      [done|].
    apply bind_Ok in Hrun as (result & w3 & Hupd & _).
    by apply (update_reserved _ _ _ _ _ _ Hsets) in Hupd as [? _].
  - apply bind_inv in Hrun as [(sets & w2 & Hexp & Hrun) | (e & Hexp & _)].
    + apply application_update_expression_inv in Hexp
        as [-> [? | (sets' & [= <-] & Hsets)]]; [done|].
      apply bind_inv in Hrun as [(result & w3 & Hupd & _) | (e & Hupd & _)];
        apply (update_reserved _ _ _ _ _ _ Hsets) in Hupd as (? & Hdb & Hb);
        [done|]. split; [congruence|]. split; [congruence|]. eauto.
    + apply application_update_expression_inv in Hexp as [-> _]. eauto.
Qed.

Lemma route_applications_status_refused user now id body w r w' :
  route_PATCH_applications_status user now id body w = (r, w') ->
  succeeded r = false /\ db w' = db w /\ bucket w' = bucket w.
Proof.
  unfold route_PATCH_applications_status. intros Hrun.
  apply gate_landlord_inv in Hrun as [(Hfail & -> & _) | (u & -> & _ & Hrun)]; [done|].
  apply asyncHandler_inv in Hrun as [Hrun | (e & Hrun & Hfail & _)];
    apply applications_status_refused in Hrun as (Hdb & Hb & e' & He); [done|auto].
Qed.

(** So is the withdrawal. *)
Lemma withdraw_refused u now id w res w' :
  PATCH_applications_withdraw u now id w = (res, w') ->
  db w' = db w /\ bucket w' = bucket w /\ exists e, res = Throw e.
Proof.
  unfold PATCH_applications_withdraw. intros Hrun.
  destruct (String.eqb id ""); [injection Hrun as <- <-; eauto|].
  apply bind_inv in Hrun as [(o & w1 & Hget & Hrun) | (e & Hget & ->)].
  2:{ apply get_inv in Hget as (Hdb1 & Hb1 & _). eauto. }
  apply get_inv in Hget as (Hdb1 & Hb1 & _).
  destruct o as [item|]; [|injection Hrun as <- <-; eauto].
  destruct (negb (str_is (user_id u) _)); [injection Hrun as <- <-; eauto|].
  destruct (negb (str_is "pending" _)); [injection Hrun as <- <-; eauto|].
  apply try_catch_inv in Hrun as [(a & Hrun & ->) | (e' & Hrun & ->)].
  - apply bind_Ok in Hrun as (result & w3 & Hupd & _).
    by apply update_reserved in Hupd as [? _].
  - apply bind_inv in Hrun as [(result & w3 & Hupd & _) | (e & Hupd & _)];
      (apply update_reserved in Hupd as (? & Hdb & Hb); [|reflexivity]);
      [done|]. split; [congruence|]. split; [congruence|]. eauto.
Qed.

Lemma route_withdraw_refused user now id w r w' :
  route_PATCH_applications_withdraw user now id w = (r, w') ->
  succeeded r = false /\ db w' = db w /\ bucket w' = bucket w.
Proof.
  unfold route_PATCH_applications_withdraw. intros Hrun.
  apply gate_renter_inv in Hrun as [(Hfail & -> & _) | (u & -> & _ & Hrun)]; [done|].
  apply asyncHandler_inv in Hrun as [Hrun | (e & Hrun & Hfail & _)];
    apply withdraw_refused in Hrun as (Hdb & Hb & e' & He); [done|auto].
Qed.

(** *** While the store answers *)


Lemma withdraw_quiet u now id w :
  faults w = [] -> id <> "" ->
  PATCH_applications_withdraw u now id w
  = (Throw (match applications (db w) !! id with
            | None => createError "Application not found" 404
            | Some item =>
                if str_is (user_id u) (item !! "renterId")
                then if str_is "pending" (item !! "status")
                     then createError "Failed to withdraw application" 500
                     else createError "Cannot withdraw application that is not pending" 400
                else createError "Unauthorized to withdraw this application" 403
            end), w).
Proof.
  intros Hq Hid. unfold PATCH_applications_withdraw.
  apply String.eqb_neq in Hid. rewrite Hid.
  rewrite (bind_run _ _ _ _ _ (get_quiet _ _ _ Hq)). cbn [table].
  destruct (applications (db w) !! id) as [item|]; [|done].
  destruct (str_is (user_id u) (item !! "renterId")); simpl; [|done].
  destruct (str_is "pending" (item !! "status")); simpl; [|done].
  unfold try_catch.
  rewrite (bind_throw _ _ _ _ _ (update_reserved_quiet APPLICATIONS id
    [("status", AStr "withdrawn"); ("updatedAt", AStr (toISOString now))] w Hq eq_refl)).
  done.
Qed.

End Application_status.
Section Application_flow.
Context `{Runtime}.

Lemma POST_applications_effect u now body files w r w' :
  POST_applications u now body files w = (Ok r, w') ->
  exists pid prop application id,
    body !! "propertyId" = Some (AStr pid)
    /\ pid <> ""
    /\ properties (db w) !! pid = Some prop
    /\ has_status "available" prop
    /\ scanned APPLICATIONS (fun a =>
         str_is pid (a !! "propertyId") && str_is (user_id u) (a !! "renterId")) w = []
    /\ r = Success 201 (Some "Application submitted successfully") application
    /\ application !! "propertyId" = Some (AStr pid)
    /\ application !! "renterId" = Some (AStr (user_id u))
    /\ application !! "landlordId" = prop !! "landlordId"
    /\ application !! "id" = Some (AStr id)
    /\ db w' = set_table APPLICATIONS (<[id := application]> (applications (db w))) (db w).
Proof.
  unfold POST_applications. intros Hrun.
  destruct (_ || _); [discriminate|].
  apply bind_Ok in Hrun as (propertyId & wa & Hkey & Hrun).
  apply as_key_inv in Hkey as [-> [(pid & Hpid & Hne & [= ->]) | ?]]; [|done].
  apply bind_Ok in Hrun as (property & wb & Hget & Hrun).
  apply get_Ok in Hget as (-> & Hdbb & _). cbn [table] in Hrun.
  destruct (properties (db w) !! pid) as [prop|] eqn:Hprop; [|discriminate].
  simpl in Hrun.
  destruct (str_is "available" (prop !! "status")) eqn:Havailable; [|discriminate].
  simpl in Hrun.
  apply bind_Ok in Hrun as (existing & wc & Hscan & Hrun).
  apply scan_Ok in Hscan as (-> & Hdbc & _).
  destruct (bool_decide _) eqn:Hnone; [discriminate|].
  apply bool_decide_eq_false in Hnone.
  apply bind_Ok in Hrun as (applicationId & wd & Hid & Hrun).
  apply uuidv4_inv in Hid as (_ & Hdbd & _ & _).
  apply bind_Ok in Hrun as (documents & we & Hdocs & Hrun).
  apply upload_documents_db in Hdocs.
  apply bind_Ok in Hrun as (personalInfo & wf & Hp1 & Hrun).
  apply parse_inv in Hp1 as ->.
  apply bind_Ok in Hrun as (employment & wg & Hp2 & Hrun).
  apply parse_inv in Hp2 as ->.
  apply bind_Ok in Hrun as (references & wh & Hp3 & Hrun).
  apply (parse_inv (Some _)) in Hp3 as ->.
  apply try_catch_Ok in Hrun.
  apply bind_Ok in Hrun as ([] & wi & Hput & Hrun).
  injection Hrun as <- <-.
  apply put_Ok in Hput as (id & Hid & Hdb).
  exists pid, prop. eexists. exists id.
  split; [done|]. split; [done|]. split; [done|]. split; [by apply str_is_true|].
  split.
  { rewrite <- (scanned_db _ _ w wb Hdbb).
    destruct (scanned _ _ wb); [done|]. simpl in Hnone. lia. }
  split; [reflexivity|].
  split.
  { rewrite object_lookup. destruct (prop !! "landlordId"), (body !! "message"); done. }
  split.
  { rewrite object_lookup. destruct (prop !! "landlordId"), (body !! "message"); done. }
  split.
  { rewrite object_lookup.
    destruct (prop !! "landlordId") as [l|], (body !! "message"); done. }
  split; [exact Hid|].
  rewrite Hdb. cbn [table]. by rewrite Hdocs, Hdbd, Hdbc, Hdbb.
Qed.


(** C9: A renter's request to withdraw an application that another renter
    submitted is answered 403, and a request to withdraw an own application
    that is not pending is answered 400, both without any change (the store
    answering). No other operation on applications moves one into
    [withdrawn]: a status update through the landlord's endpoint changes no
    table, whatever status it names, and a submission adds at most one
    application, in status [pending]; so an application stored as withdrawn
    after either of them was stored as such before. *)
Theorem withdrawn_only_by_owner_from_pending u now id w app :
  faults w = [] ->
  userType u = "renter" ->
  id <> "" ->
  applications (db w) !! id = Some app ->
  (str_is (user_id u) (app !! "renterId") = false ->
   route_PATCH_applications_withdraw (Some u) now id w
   = (Failure 403 "Unauthorized to withdraw this application", w))
  /\ (str_is (user_id u) (app !! "renterId") = true ->
      str_is "pending" (app !! "status") = false ->
      route_PATCH_applications_withdraw (Some u) now id w
      = (Failure 400 "Cannot withdraw application that is not pending", w))
  /\ (forall user' now' id' body r w',
        route_PATCH_applications_status user' now' id' body w = (r, w') ->
        succeeded r = false /\ applications (db w') = applications (db w))
  /\ (forall user' now' body files r w' k a,
        route_POST_applications user' now' body files w = (r, w') ->
        applications (db w') !! k = Some a ->
        has_status "withdrawn" a ->
        applications (db w) !! k = Some a).
Proof.
  intros Hq Hrole Hid Happ.
  assert (Hrun : route_PATCH_applications_withdraw (Some u) now id w
    = (Failure (if str_is (user_id u) (app !! "renterId")
                then if str_is "pending" (app !! "status") then 500 else 400
                else 403)
               (if str_is (user_id u) (app !! "renterId")
                then if str_is "pending" (app !! "status")
                     then "Failed to withdraw application"
                     else "Cannot withdraw application that is not pending"
                else "Unauthorized to withdraw this application"), w)).
  { unfold route_PATCH_applications_withdraw, requireRenter, asyncHandler.
    rewrite Hrole. simpl. rewrite (withdraw_quiet u now id w Hq Hid), Happ.
    by destruct (str_is (user_id u) (app !! "renterId")),
      (str_is "pending" (app !! "status")). }
  split; [|split; [|split]].
  - intros Hother. by rewrite Hrun, Hother.
  - intros Hown Hpending. by rewrite Hrun, Hown, Hpending.
  - intros user' now' id' body r w' Hupd.
    apply route_applications_status_refused in Hupd as (Hfail & Hdb & _).
    by rewrite Hdb.
  - intros user' now' body files r w' k a Hpost Hstored Hwithdrawn.
    apply route_POST_applications_frame in Hpost
      as [Hdb | (id' & application & Hpending & Hdb)].
    + by rewrite <- Hdb.
    + rewrite Hdb in Hstored. cbn [table set_table applications] in Hstored.
      destruct (decide (id' = k)) as [-> | Hne].
      * rewrite lookup_insert_eq in Hstored. injection Hstored as ->.
        unfold has_status in Hwithdrawn. congruence.
      * by rewrite lookup_insert_ne in Hstored.
Qed.

(** X12: A withdrawal is never carried out: every request to withdraw an
    application is answered with a failure and changes neither the tables
    nor the bucket, and the renter who withdraws an own pending application
    is answered 500 "Failed to withdraw application" (the store answering),
    since the update expression names the reserved word [status]. *)
Theorem withdrawal_is_always_refused user now id w r w' :
  route_PATCH_applications_withdraw user now id w = (r, w') ->
  succeeded r = false /\ db w' = db w /\ bucket w' = bucket w
  /\ forall u app,
       user = Some u -> userType u = "renter" -> id <> "" -> faults w = [] ->
       applications (db w) !! id = Some app ->
       str_is (user_id u) (app !! "renterId") = true ->
       has_status "pending" app ->
       r = Failure 500 "Failed to withdraw application" /\ w' = w.
Proof.
  intros Hrun.
  destruct (route_withdraw_refused _ _ _ _ _ _ Hrun) as (Hfail & Hdb & Hb).
  split; [done|]. split; [done|]. split; [done|].
  intros u app -> Hrole Hid Hq Happ Hown Hpending.
  unfold route_PATCH_applications_withdraw, requireRenter, asyncHandler in Hrun.
  rewrite Hrole in Hrun. simpl in Hrun.
  rewrite (withdraw_quiet u now id w Hq Hid), Happ, Hown in Hrun.
  unfold has_status in Hpending. rewrite Hpending in Hrun. simpl in Hrun.
  by injection Hrun as <- <-.
Qed.

(** X13: After a renter's application has been accepted, a second complete
    application of the same renter for the same property is answered 409 and
    stores nothing, whatever else the second form holds (the store
    answering). *)
Theorem second_application_is_refused user now body files w r w1 now' body' files' :
  route_POST_applications user now body files w = (r, w1) ->
  succeeded r = true ->
  body' !! "propertyId" = body !! "propertyId" ->
  truthy (body' !! "personalInfo") = true ->
  truthy (body' !! "employment") = true ->
  faults w1 = [] ->
  route_POST_applications user now' body' files' w1
  = (Failure 409 "You have already applied to this property", w1).
Proof.
  intros Hrun Hok Hsame Hinfo Hemployment Hq.
  unfold route_POST_applications in Hrun.
  apply requireRenter_success in Hrun as (u & -> & Hrole & Hrun); [|done].
  pose proof Hrun as Hfirst.
  apply POST_applications_effect in Hrun
    as (pid & prop & app & id & Hpid & Hne & Hprop & Havailable & _ & _ & Happ1 & Happ2 & _
        & Hid & Hdb).
  assert (Htruthy : truthy (body !! "propertyId") = true).
  { unfold POST_applications in Hfirst.
    destruct (truthy (body !! "propertyId")); [done|discriminate]. }
  unfold route_POST_applications, requireRenter. rewrite Hrole. simpl.
  unfold asyncHandler, POST_applications.
  rewrite Hsame, Htruthy, Hinfo, Hemployment, Hpid. simpl.
  rewrite (bind_run _ _ _ _ _ (as_key_str pid w1 Hne)).
  rewrite (bind_run _ _ _ _ _ (get_quiet PROPERTIES pid w1 Hq)).
  rewrite Hdb. simpl. rewrite Hprop.
  apply str_is_true in Havailable. rewrite Havailable. simpl.
  rewrite (bind_run _ _ _ _ _ (scan_quiet _ ["propertyId"; "renterId"] _ w1 Hq eq_refl)).
  assert (Hin : app ∈ scanned APPLICATIONS (fun a =>
    str_is pid (a !! "propertyId") && str_is (user_id u) (a !! "renterId")) w1).
  { apply (scanned_elem _ _ _ id).
    - rewrite Hdb. simpl. apply lookup_insert_eq.
    - apply andb_true_iff. split; by apply str_is_true. }
  destruct (scanned _ _ w1) as [|a l]; [by apply elem_of_nil in Hin|].
  rewrite bool_decide_eq_true_2 by (simpl; lia). reflexivity.
Qed.

(** X14: A property that is not stored as available takes no applications:
    a renter's complete application for it is answered 400 "Property is not
    available for applications", and one for a property that does not exist
    404 "Property not found"; neither stores anything (the store
    answering). *)
Theorem unavailable_property_takes_no_applications u now body files w pid :
  faults w = [] ->
  userType u = "renter" ->
  body !! "propertyId" = Some (AStr pid) ->
  pid <> "" ->
  truthy (body !! "personalInfo") = true ->
  truthy (body !! "employment") = true ->
  (properties (db w) !! pid = None ->
   route_POST_applications (Some u) now body files w
   = (Failure 404 "Property not found", w))
  /\ (forall prop,
        properties (db w) !! pid = Some prop ->
        str_is "available" (prop !! "status") = false ->
        route_POST_applications (Some u) now body files w
        = (Failure 400 "Property is not available for applications", w)).
Proof.
  intros Hq Hrole Hpid Hne Hinfo Hemployment.
  unfold route_POST_applications, requireRenter. rewrite Hrole. simpl.
  unfold asyncHandler, POST_applications.
  rewrite Hpid, (truthy_str pid Hne), Hinfo, Hemployment. simpl.
  rewrite (bind_run _ _ _ _ _ (as_key_str pid w Hne)).
  rewrite (bind_run _ _ _ _ _ (get_quiet PROPERTIES pid w Hq)). cbn [table].
  split.
  - by intros ->.
  - intros prop -> Hstatus. by rewrite Hstatus.
Qed.

End Application_flow.
(** Renter R2 asks to withdraw the pending application of renter R1; renter
    R1 asks to withdraw the own application after it has been approved. *)
Lemma withdrawn_only_by_owner_from_pending_witness :
  route_PATCH_applications_withdraw (H := Sample.runtime) (Some Sample.renter2)
    Sample.now0 "a1" (Sample.listing "available" "pending")
  = (Failure 403 "Unauthorized to withdraw this application",
     Sample.listing "available" "pending")
  /\ route_PATCH_applications_withdraw (H := Sample.runtime) (Some Sample.renter1)
       Sample.now0 "a1" (Sample.listing "rented" "approved")
     = (Failure 400 "Cannot withdraw application that is not pending",
        Sample.listing "rented" "approved").
Proof.
  split.
  - destruct (withdrawn_only_by_owner_from_pending (H := Sample.runtime) Sample.renter2
                Sample.now0 "a1" (Sample.listing "available" "pending")
                (Sample.application "pending") eq_refl eq_refl ltac:(discriminate) eq_refl)
      as (Hother & _).
    apply Hother. reflexivity.
  - destruct (withdrawn_only_by_owner_from_pending (H := Sample.runtime) Sample.renter1
                Sample.now0 "a1" (Sample.listing "rented" "approved")
                (Sample.application "approved") eq_refl eq_refl ltac:(discriminate) eq_refl)
      as (_ & Hstale & _).
    apply Hstale; reflexivity.
Defined.

(** Renter R1 asks to withdraw the own pending application. *)
Lemma withdrawal_is_always_refused_witness :
  route_PATCH_applications_withdraw (H := Sample.runtime) (Some Sample.renter1)
    Sample.now0 "a1" (Sample.listing "available" "pending")
  = (Failure 500 "Failed to withdraw application", Sample.listing "available" "pending").
Proof.
  destruct (withdrawal_is_always_refused (H := Sample.runtime) (Some Sample.renter1)
              Sample.now0 "a1" (Sample.listing "available" "pending")
              (route_PATCH_applications_withdraw (H := Sample.runtime)
                 (Some Sample.renter1) Sample.now0 "a1"
                 (Sample.listing "available" "pending")).1
              (route_PATCH_applications_withdraw (H := Sample.runtime)
                 (Some Sample.renter1) Sample.now0 "a1"
                 (Sample.listing "available" "pending")).2
              (surjective_pairing _)) as (_ & _ & _ & Hown).
  destruct (Hown Sample.renter1 (Sample.application "pending") eq_refl eq_refl
              ltac:(discriminate) eq_refl eq_refl eq_refl eq_refl) as [Hr Hw].
  rewrite (surjective_pairing (route_PATCH_applications_withdraw _ _ _ _)).
  by rewrite Hr, Hw.
Defined.

(** Renter R2 applies for the house, and applies again. *)
Lemma second_application_is_refused_witness :
  let first :=
    route_POST_applications (H := Sample.runtime) (Some Sample.renter2) Sample.now0
      Sample.application_form [] (Sample.listing "available" "pending") in
  succeeded first.1 = true
  /\ route_POST_applications (H := Sample.runtime) (Some Sample.renter2) Sample.now1
       Sample.application_form [] first.2
     = (Failure 409 "You have already applied to this property", first.2).
Proof.
  intros first.
  assert (Hok : succeeded first.1 = true) by (vm_compute; reflexivity).
  split; [exact Hok|].
  apply (second_application_is_refused (H := Sample.runtime) (Some Sample.renter2)
           Sample.now0 Sample.application_form [] (Sample.listing "available" "pending")
           first.1 first.2).
  - apply surjective_pairing.
  - exact Hok.
  - reflexivity.
  - reflexivity.
  - reflexivity.
  - vm_compute. reflexivity.
Defined.

(** Renter R2 applies for the house after it has been rented. *)
Lemma unavailable_property_takes_no_applications_witness :
  route_POST_applications (H := Sample.runtime) (Some Sample.renter2) Sample.now1
    Sample.application_form [] (Sample.listing "rented" "approved")
  = (Failure 400 "Property is not available for applications",
     Sample.listing "rented" "approved").
Proof.
  destruct (unavailable_property_takes_no_applications (H := Sample.runtime)
              Sample.renter2 Sample.now1 Sample.application_form []
              (Sample.listing "rented" "approved") "h1"
              eq_refl eq_refl eq_refl ltac:(discriminate) eq_refl eq_refl)
    as [_ Hunavailable].
  apply (Hunavailable (Sample.house "rented")); reflexivity.
Defined.
(** ** Account deletion *)

(** The check for rentals ends in the error of the store, whose scan takes no
    filter that names [status]. *)
Lemma account_check_refused u w res w' :
  (if String.eqb (userType u) "landlord"
   then
     rentedProperties <- dynamoDB_scan PROPERTIES ["landlordId"; "status"] (fun p =>
       str_is (user_id u) (p !! "landlordId") && str_is "rented" (p !! "status")) ;;
     when bool_decide (0 < length rentedProperties)
     raise createError "Cannot delete account with active rentals" 400 ;;;
     ret tt
   else
     activeAgreements <- dynamoDB_scan RENTAL_AGREEMENTS ["renterId"; "status"] (fun r =>
       str_is (user_id u) (r !! "renterId") && str_is "active" (r !! "status")) ;;
     when bool_decide (0 < length activeAgreements)
     raise createError "Cannot delete account with active rentals" 400 ;;;
     ret tt) w = (res, w') ->
  res = Throw AwsError /\ db w' = db w /\ bucket w' = bucket w.
Proof.
  destruct (String.eqb (userType u) "landlord"); intros Hrun;
    (apply bind_inv in Hrun as [(found & w1 & Hscan & _) | (e & Hscan & ->)];
     (apply scan_reserved in Hscan as (He & Hdb & Hb); [|reflexivity]);
     [discriminate | by injection He as ->]).
Qed.

Lemma DELETE_users_account_refused u w res w' :
  DELETE_users_account u w = (res, w') ->
  res = Throw (createError "Failed to delete account" 500)
  /\ db w' = db w /\ bucket w' = bucket w.
Proof.
  unfold DELETE_users_account. intros Hrun.
  apply try_catch_inv in Hrun as [(a & Hrun & ->) | (e' & Hrun & ->)].
  - apply bind_Ok in Hrun as ([] & w1 & Hcheck & _).
    by apply account_check_refused in Hcheck as (? & _).
  - apply bind_inv in Hrun as [([] & w1 & Hcheck & _) | (e & Hcheck & _)];
      by apply account_check_refused in Hcheck as (? & ? & ?).
Qed.

(** C8: No account is ever deleted. Every request to delete an account is
    answered 500 "Failed to delete account" and changes neither the tables
    nor the bucket: for the landlord with a rented property and the renter
    with an active agreement, where the claim has a 400-class error, and for
    the landlord whose only property is available, where the claim has the
    deletion succeed. *)
Theorem delete_account_always_answers_500 :
  (forall u w,
     (route_DELETE_users_account u w).1 = Failure 500 "Failed to delete account"
     /\ db (route_DELETE_users_account u w).2 = db w
     /\ bucket (route_DELETE_users_account u w).2 = bucket w)
  /\ route_DELETE_users_account Sample.landlord1 Sample.tenancy
     = (Failure 500 "Failed to delete account", Sample.tenancy)
  /\ route_DELETE_users_account Sample.renter1 Sample.tenancy
     = (Failure 500 "Failed to delete account", Sample.tenancy)
  /\ route_DELETE_users_account Sample.landlord1 Sample.vacancy
     = (Failure 500 "Failed to delete account", Sample.vacancy)
  /\ route_DELETE_users_account Sample.renter1 Sample.vacancy
     = (Failure 500 "Failed to delete account", Sample.vacancy).
Proof.
  split; [|repeat split; vm_compute; reflexivity].
  intros u w. unfold route_DELETE_users_account, asyncHandler.
  destruct (DELETE_users_account u w) as [res w'] eqn:Hrun.
  by apply DELETE_users_account_refused in Hrun as (-> & ? & ?).
Qed.
(** ** Reading single records *)

Section Reads.
Context `{Runtime}.

Local Ltac scoped_read Hrun Hitem :=
  match type of Hrun with
  | context [String.eqb (userType ?u) "renter"] =>
      match type of Hrun with
      | context [str_is (user_id u) (?item !! "renterId")] =>
          destruct (String.eqb (userType u) "renter") eqn:Hrenter;
          destruct (str_is (user_id u) (item !! "renterId")) eqn:Hr;
          destruct (String.eqb (userType u) "landlord") eqn:Hlandlord;
          destruct (str_is (user_id u) (item !! "landlordId")) eqn:Hl;
          simpl in Hrun; injection Hrun as <- <-;
          (split; [done|]);
          (split;
           [first
              [ done
              | split; [done|]; split; [done|];
                split; intros Hty; rewrite Hty in *; try discriminate;
                by apply str_is_true ]
           |]);
          (split; [discriminate|]);
          intros _ item' [= <-] Hren Hlan;
          try done;
          try (apply String.eqb_eq in Hrenter; apply Hren in Hrenter;
               apply str_is_true in Hrenter; congruence);
          try (apply String.eqb_eq in Hlandlord; apply Hlan in Hlandlord;
               apply str_is_true in Hlandlord; congruence)
      end
  end.

(** X1: GET /payments/:id answers with the stored payment and nothing else,
    to a renter only for a payment whose renterId is theirs and to a landlord
    only for one whose landlordId is theirs; every other outcome, a missing
    payment and a payment of somebody else included, is the failure 500
    "Failed to fetch payment".  When the store answers, the owner does get
    the payment.  The request writes nothing. *)
Theorem payment_read_is_scoped u id w r w' :
  id <> "" ->
  route_GET_payments_id u id w = (r, w') ->
  db w' = db w
  /\ match r with
     | Success c _ item =>
         c = 200%Z
         /\ payments (db w) !! id = Some item
         /\ (userType u = "renter" -> item !! "renterId" = Some (AStr (user_id u)))
         /\ (userType u = "landlord" -> item !! "landlordId" = Some (AStr (user_id u)))
     | Failure c e => c = 500%Z /\ e = "Failed to fetch payment"
     end
  /\ (payments (db w) !! id = None -> r = Failure 500 "Failed to fetch payment")
  /\ (faults w = [] ->
      forall item,
        payments (db w) !! id = Some item ->
        (userType u = "renter" -> item !! "renterId" = Some (AStr (user_id u))) ->
        (userType u = "landlord" -> item !! "landlordId" = Some (AStr (user_id u))) ->
        r = Success 200 None item).
Proof.
  intros Hid Hrun. apply String.eqb_neq in Hid.
  unfold route_GET_payments_id, asyncHandler, GET_payments_id in Hrun.
  rewrite Hid in Hrun. unfold try_catch, bind in Hrun.
  destruct (get_cases PAYMENTS id w) as (w1 & Hdb & _ & [Hget|Hget]).
  - rewrite Hget in Hrun. simpl in Hrun.
    destruct (payments (db w) !! id) as [item|] eqn:Hitem; simpl in Hrun.
    + scoped_read Hrun Hitem.
    + injection Hrun as <- <-. done.
  - assert (Hf : faults w <> []).
    { intros Hq. rewrite (get_quiet _ _ _ Hq) in Hget. discriminate. }
    rewrite Hget in Hrun. injection Hrun as <- <-. done.
Qed.

(** X2: GET /applications/:id answers with the stored application, to a
    renter only for their own application and to a landlord only for one
    addressed to them; every other outcome, a missing application and one of
    somebody else included, is the failure 500 "Failed to fetch application".
    The request writes nothing. *)
Theorem application_read_is_scoped u id w r w' :
  id <> "" ->
  route_GET_applications_id u id w = (r, w') ->
  db w' = db w
  /\ match r with
     | Success c _ item =>
         c = 200%Z
         /\ applications (db w) !! id = Some item
         /\ (userType u = "renter" -> item !! "renterId" = Some (AStr (user_id u)))
         /\ (userType u = "landlord" -> item !! "landlordId" = Some (AStr (user_id u)))
     | Failure c e => c = 500%Z /\ e = "Failed to fetch application"
     end
  /\ (applications (db w) !! id = None -> r = Failure 500 "Failed to fetch application")
  /\ (faults w = [] ->
      forall item,
        applications (db w) !! id = Some item ->
        (userType u = "renter" -> item !! "renterId" = Some (AStr (user_id u))) ->
        (userType u = "landlord" -> item !! "landlordId" = Some (AStr (user_id u))) ->
        r = Success 200 None item).
Proof.
  intros Hid Hrun. apply String.eqb_neq in Hid.
  unfold route_GET_applications_id, asyncHandler, GET_applications_id in Hrun.
  rewrite Hid in Hrun. unfold try_catch, bind in Hrun.
  destruct (get_cases APPLICATIONS id w) as (w1 & Hdb & _ & [Hget|Hget]).
  - rewrite Hget in Hrun. simpl in Hrun.
    destruct (applications (db w) !! id) as [item|] eqn:Hitem; simpl in Hrun.
    + scoped_read Hrun Hitem.
    + injection Hrun as <- <-. done.
  - assert (Hf : faults w <> []).
    { intros Hq. rewrite (get_quiet _ _ _ Hq) in Hget. discriminate. }
    rewrite Hget in Hrun. injection Hrun as <- <-. done.
Qed.

(** X3: GET /properties/:id needs no user and applies no filter: whatever is
    stored under the id is returned, whoever owns it and whatever its status;
    GET /users/profile returns the item stored under the caller's own id.
    Neither has a 404: a missing record, like a failing store, is the
    failure 500.  Neither writes. *)
Theorem unscoped_reads u id w :
  id <> "" ->
  (forall r w', route_GET_properties_id id w = (r, w') ->
     db w' = db w
     /\ (r = Failure 500 "Failed to fetch property"
         \/ exists item, properties (db w) !! id = Some item /\ r = Success 200 None item)
     /\ (faults w = [] -> forall item,
           properties (db w) !! id = Some item -> r = Success 200 None item)
     /\ (properties (db w) !! id = None -> r = Failure 500 "Failed to fetch property"))
  /\ (forall r w', route_GET_users_profile u w = (r, w') ->
     db w' = db w
     /\ (r = Failure 500 "Failed to fetch user profile"
         \/ exists item, users (db w) !! user_id u = Some item /\ r = Success 200 None item)
     /\ (faults w = [] -> forall item,
           users (db w) !! user_id u = Some item -> r = Success 200 None item)
     /\ (users (db w) !! user_id u = None -> r = Failure 500 "Failed to fetch user profile")).
Proof.
  intros Hid. apply String.eqb_neq in Hid. split; intros r w' Hrun.
  - unfold route_GET_properties_id, asyncHandler, GET_properties_id in Hrun.
    rewrite Hid in Hrun. unfold try_catch, bind in Hrun.
    destruct (get_cases PROPERTIES id w) as (w1 & Hdb & _ & [Hget|Hget]).
    + rewrite Hget in Hrun. simpl in Hrun.
      destruct (properties (db w) !! id) as [item|] eqn:Hitem; simpl in Hrun;
        injection Hrun as <- <-.
      * split; [done|]. split; [right; eauto|]. split; [|done]. by intros _ item' [= <-].
      * split; [done|]. split; [by left|]. done.
    + assert (Hf : faults w <> []).
      { intros Hq. rewrite (get_quiet _ _ _ Hq) in Hget. discriminate. }
      rewrite Hget in Hrun. injection Hrun as <- <-.
      split; [done|]. split; [by left|]. done.
  - unfold route_GET_users_profile, asyncHandler, GET_users_profile in Hrun.
    unfold try_catch, bind in Hrun.
    destruct (get_cases USERS (user_id u) w) as (w1 & Hdb & _ & [Hget|Hget]).
    + rewrite Hget in Hrun. simpl in Hrun.
      destruct (users (db w) !! user_id u) as [item|] eqn:Hitem; simpl in Hrun;
        injection Hrun as <- <-.
      * split; [done|]. split; [right; eauto|]. split; [|done]. by intros _ item' [= <-].
      * split; [done|]. split; [by left|]. done.
    + assert (Hf : faults w <> []).
      { intros Hq. rewrite (get_quiet _ _ _ Hq) in Hget. discriminate. }
      rewrite Hget in Hrun. injection Hrun as <- <-.
      split; [done|]. split; [by left|]. done.
Qed.

End Reads.

(** Landlord L1 reads the payment p1 of the sample ledger; landlord L2, who
    does not own it, is answered 500. *)
Lemma payment_read_is_scoped_witness :
  (route_GET_payments_id Sample.landlord1 "p1" Sample.ledger).1
  = Success 200 None (Sample.payment "p1" "L1" "paid" 100 "2024-03-01")
  /\ (route_GET_payments_id Sample.landlord2 "p1" Sample.ledger).1
     = Failure 500 "Failed to fetch payment".
Proof.
  split.
  - pose proof (payment_read_is_scoped Sample.landlord1 "p1" Sample.ledger
      (route_GET_payments_id Sample.landlord1 "p1" Sample.ledger).1
      (route_GET_payments_id Sample.landlord1 "p1" Sample.ledger).2) as Hread.
    destruct Hread as (_ & _ & _ & Hok).
    + discriminate.
    + apply surjective_pairing.
    + apply Hok; [reflexivity | reflexivity | discriminate | reflexivity].
  - vm_compute. reflexivity.
Defined.

(** Renter R1 reads their application a1; renter R2 is answered 500. *)
Lemma application_read_is_scoped_witness :
  (route_GET_applications_id Sample.renter1 "a1" (Sample.listing "available" "pending")).1
  = Success 200 None (Sample.application "pending")
  /\ (route_GET_applications_id Sample.renter2 "a1"
        (Sample.listing "available" "pending")).1
     = Failure 500 "Failed to fetch application".
Proof.
  split.
  - pose proof (application_read_is_scoped Sample.renter1 "a1"
      (Sample.listing "available" "pending")
      (route_GET_applications_id Sample.renter1 "a1"
         (Sample.listing "available" "pending")).1
      (route_GET_applications_id Sample.renter1 "a1"
         (Sample.listing "available" "pending")).2) as Hread.
    destruct Hread as (_ & _ & _ & Hok).
    + discriminate.
    + apply surjective_pairing.
    + apply Hok; [reflexivity | reflexivity | reflexivity | discriminate].
  - vm_compute. reflexivity.
Defined.

(** The rented house of the sample tenancy is served to anybody; a user
    without a profile item is answered 500. *)
Lemma unscoped_reads_witness :
  (route_GET_properties_id "h1" Sample.tenancy).1 = Success 200 None (Sample.house "rented")
  /\ (route_GET_users_profile Sample.renter2 Sample.tenancy).1
     = Failure 500 "Failed to fetch user profile".
Proof.
  pose proof (unscoped_reads Sample.renter2 "h1" Sample.tenancy) as Hreads.
  destruct Hreads as [Hproperty Hprofile].
  - discriminate.
  - split.
    + destruct (Hproperty _ _ (surjective_pairing _)) as (_ & _ & Hok & _).
      apply Hok; reflexivity.
    + destruct (Hprofile _ _ (surjective_pairing _)) as (_ & _ & _ & Hmissing).
      apply Hmissing. reflexivity.
Defined.
(** ** Sorting with a comparator *)

Lemma insert_by_sorted {A} (cmp : A -> A -> Z) (D : A -> Prop) (R : A -> A -> Prop) x l :
  (forall a b, D a -> D b -> (cmp a b <=? 0)%Z = true -> R a b) ->
  (forall a b, D a -> D b -> (cmp a b <=? 0)%Z = false -> R b a) ->
  (forall a b c, R a b -> R b c -> R a c) ->
  D x -> Forall D l -> StronglySorted R l -> StronglySorted R (insert_by cmp x l).
Proof.
  intros Hle Hgt Htrans Hx Hl Hs. induction Hs as [|y l Hs IH Hy]; simpl.
  - repeat constructor.
  - apply Forall_cons in Hl as [Hdy Hl].
    destruct (cmp x y <=? 0)%Z eqn:Hcmp.
    + pose proof (Hle x y Hx Hdy Hcmp) as Hxy.
      constructor; [by constructor|].
      constructor; [done|].
      eapply Forall_impl; [exact Hy|]. intros z Hyz. by eapply Htrans.
    + constructor; [by apply IH|].
      rewrite insert_by_perm. constructor; [|done].
      by apply Hgt.
Qed.

Lemma Array_sort_sorted {A} (cmp : A -> A -> Z) (D : A -> Prop) (R : A -> A -> Prop) l :
  (forall a b, D a -> D b -> (cmp a b <=? 0)%Z = true -> R a b) ->
  (forall a b, D a -> D b -> (cmp a b <=? 0)%Z = false -> R b a) ->
  (forall a b c, R a b -> R b c -> R a c) ->
  Forall D l -> StronglySorted R (Array_sort cmp l).
Proof.
  intros Hle Hgt Htrans. induction l as [|x l IH]; intros Hl; simpl; [constructor|].
  apply Forall_cons in Hl as [Hx Hl].
  eapply insert_by_sorted; eauto.
  by rewrite Array_sort_perm.
Qed.


(** ** Statistics and the landlord dashboard *)


Lemma status_exclusive s s' (x : Item) :
  s <> s' -> str_is s (x !! "status") = true -> str_is s' (x !! "status") = false.
Proof.
  intros Hne Hs. apply str_is_true in Hs. apply str_is_false. rewrite Hs. congruence.
Qed.

Section Statistics.
Context `{Runtime}.

Lemma created_ge_trans a b c : created_ge a b -> created_ge b c -> created_ge a c.
Proof.
  intros (ta & tb & Ha & Hb & Hab) (tb' & tc & Hb' & Hc & Hbc).
  exists ta, tc. repeat split; [done..|]. rewrite Hb in Hb'. injection Hb' as <-. lia.
Qed.

Lemma sort_newest_first l :
  Forall (fun a => exists t, Date_getTime (a !! "createdAt") = Some t) l ->
  StronglySorted created_ge (Array_sort (fun a b => by_time "createdAt" b a) l).
Proof.
  apply Array_sort_sorted.
  - intros a b [ta Ha] [tb Hb]. unfold by_time. rewrite Ha, Hb. intros Hle.
    apply Z.leb_le in Hle. exists ta, tb. repeat split; [done..|lia].
  - intros a b [ta Ha] [tb Hb]. unfold by_time. rewrite Ha, Hb. intros Hgt.
    apply Z.leb_gt in Hgt. exists tb, ta. repeat split; [done..|lia].
  - apply created_ge_trans.
Qed.

(** The renter dashboard reads the rental agreements with a filter that
    names [status], which the store refuses. *)
Lemma renter_dashboard_refused u now w res w' :
  GET_users_renter_dashboard u now w = (res, w') ->
  db w' = db w /\ bucket w' = bucket w
  /\ res = Throw (if String.eqb (userType u) "renter"
                  then createError "Failed to fetch dashboard" 500
                  else createError "Renter access required" 403).
Proof.
  unfold GET_users_renter_dashboard. intros Hrun.
  destruct (String.eqb (userType u) "renter"); simpl in Hrun;
    [|by injection Hrun as <- <-].
  assert (Hbody : forall r0 w0,
    (applications <- dynamoDB_scan APPLICATIONS ["renterId"]
                       (fun a => str_is (user_id u) (a !! "renterId")) ;;
     currentRentals <- dynamoDB_scan RENTAL_AGREEMENTS ["renterId"; "status"] (fun r =>
       str_is (user_id u) (r !! "renterId") && str_is "active" (r !! "status")) ;;
     payments <- dynamoDB_scan PAYMENTS ["renterId"]
                    (fun p => str_is (user_id u) (p !! "renterId")) ;;
     ret (Success 200 None
            (mkRenterDashboard (activeApplications applications) currentRentals
               (paymentHistory payments) (renterUpcomingPayments now payments)))) w
    = (r0, w0) ->
    db w0 = db w /\ bucket w0 = bucket w /\ exists e, r0 = Throw e).
  { intros r0 w0 Hbody.
    apply bind_inv in Hbody as [(apps & w1 & Hs1 & Hbody) | (e & Hs1 & ->)].
    2:{ apply scan_inv in Hs1 as (? & ? & _). eauto. }
    apply scan_inv in Hs1 as (Hdb1 & Hb1 & _).
    apply bind_inv in Hbody as [(rentals & w2 & Hs2 & _) | (e & Hs2 & ->)];
      (apply scan_reserved in Hs2 as (He & Hdb2 & Hb2); [|reflexivity]);
      [discriminate|].
    split; [congruence|]. split; [congruence|]. eauto. }
  apply try_catch_inv in Hrun as [(a & Hrun & ->) | (e' & Hrun & ->)];
    apply Hbody in Hrun as (Hdb & Hb & e & He); [discriminate|done].
Qed.

(** X4: The renter dashboard is never shown: the request of a renter is
    answered 500 "Failed to fetch dashboard", since the scan of the rental
    agreements names the reserved word [status] in its filter, and the
    request of anyone else 403 "Renter access required"; neither writes. *)
Theorem renter_dashboard_is_always_refused u now w r w' :
  route_GET_users_renter_dashboard u now w = (r, w') ->
  db w' = db w /\ bucket w' = bucket w
  /\ r = if String.eqb (userType u) "renter"
         then Failure 500 "Failed to fetch dashboard"
         else Failure 403 "Renter access required".
Proof.
  unfold route_GET_users_renter_dashboard, asyncHandler. intros Hrun.
  destruct (GET_users_renter_dashboard u now w) as [res w1] eqn:Hbody.
  apply renter_dashboard_refused in Hbody as (Hdb & Hb & ->).
  destruct (String.eqb (userType u) "renter"); by injection Hrun as <- <-.
Qed.

Lemma landlord_dashboard_run u now w c msg d w' :
  route_GET_users_landlord_dashboard u now w = (Success c msg d, w') ->
  userType u = "landlord"
  /\ db w' = db w
  /\ d = dashboard_of now (properties_of u w) (applications_to u w) (payments_of u w).
Proof.
  intros Hrun. apply asyncHandler_success in Hrun; [|done].
  unfold GET_users_landlord_dashboard in Hrun.
  destruct (String.eqb (userType u) "landlord") eqn:Hrole; simpl in Hrun; [|discriminate].
  apply try_catch_Ok in Hrun.
  apply bind_Ok in Hrun as (ps & w1 & Hs1 & Hrun).
  apply bind_Ok in Hrun as (apps & w2 & Hs2 & Hrun).
  apply bind_Ok in Hrun as (pays & w3 & Hs3 & Hrun).
  apply scan_Ok in Hs1 as (-> & Hdb1 & _).
  apply scan_Ok in Hs2 as (-> & Hdb2 & _).
  apply scan_Ok in Hs3 as (-> & Hdb3 & _).
  injection Hrun as <- <- <- <-.
  split; [by apply String.eqb_eq|].
  split; [congruence|].
  unfold properties_of, applications_to, payments_of, scanned. by rewrite Hdb2, Hdb1.
Qed.



End Statistics.

(** ** Figures of the landlord dashboard *)

Lemma sum_amounts_from (l : list Item) (acc : Z) :
  fold_left (fun sum p => (sum + num (p !! "amount"))%Z) l acc
  = (acc + fold_left (fun sum p => (sum + num (p !! "amount"))%Z) l 0)%Z.
Proof.
  revert acc. induction l as [|p l IH]; intros acc; simpl; [lia|].
  rewrite IH. rewrite (IH (0 + _)%Z). lia.
Qed.

Lemma sum_amounts_selected (f g : Item -> bool) (l : list Item) :
  Forall (fun p => (0 <= num (p !! "amount"))%Z) l ->
  (0 <= fold_left (fun sum p => (sum + num (p !! "amount"))%Z)
          (List.filter (fun p => f p && g p) l) 0
     <= fold_left (fun sum p => (sum + num (p !! "amount"))%Z) (List.filter f l) 0)%Z.
Proof.
  induction 1 as [|p l Hp Hl IH]; simpl; [lia|].
  destruct (f p); simpl; [|exact IH].
  destruct (g p); simpl.
  - rewrite sum_amounts_from.
    rewrite (sum_amounts_from (List.filter f l)). lia.
  - rewrite (sum_amounts_from (List.filter f l)). lia.
Qed.

Section Dashboard_figures.
Context `{Runtime}.

(** X7: The three counts of propertiesByStatus on the landlord dashboard
    need not add up to totalProperties: the difference is the number of the
    landlord's properties whose status is none of available, rented and
    maintenance (an inactive property is one). *)
Theorem dashboard_property_counts u now w c msg d w' :
  route_GET_users_landlord_dashboard u now w = (Success c msg d, w') ->
  dash_totalProperties d
  = available (dash_propertiesByStatus d) + rented (dash_propertiesByStatus d)
    + maintenance (dash_propertiesByStatus d)
    + length (List.filter
        (fun p => negb (includes ["available"; "rented"; "maintenance"] (p !! "status")))
        (properties_of u w)).
Proof.
  intros Hrun. apply landlord_dashboard_run in Hrun as (_ & _ & ->).
  cbn [dashboard_of dash_totalProperties dash_propertiesByStatus available rented
       maintenance].
  set (other := fun p : Item =>
    negb (includes ["available"; "rented"; "maintenance"] (p !! "status"))).
  induction (properties_of u w) as [|p l IH]; [done|].
  cbn [List.filter length].
  assert (Hother : other p
    = negb (str_is "available" (p !! "status") || str_is "rented" (p !! "status")
            || str_is "maintenance" (p !! "status"))).
  { unfold other, includes. cbn [existsb]. by rewrite orb_false_r, !orb_assoc. }
  rewrite Hother.
  destruct (str_is "available" (p !! "status")) eqn:Ha.
  - rewrite (status_exclusive "available" "rented" p), 
      (status_exclusive "available" "maintenance" p) by done.
    simpl. lia.
  - destruct (str_is "rented" (p !! "status")) eqn:Hr.
    + rewrite (status_exclusive "rented" "maintenance" p) by done. simpl. lia.
    + destruct (str_is "maintenance" (p !! "status")); simpl; lia.
Qed.

(** X8: When none of the landlord's payments has a negative amount, the
    dashboard's monthlyEarnings lie between zero and its totalEarnings. *)
Theorem monthly_earnings_bounded u now w c msg d w' :
  route_GET_users_landlord_dashboard u now w = (Success c msg d, w') ->
  Forall (fun p => (0 <= num (p !! "amount"))%Z) (payments_of u w) ->
  (0 <= dash_monthlyEarnings d <= dash_totalEarnings d)%Z.
Proof.
  intros Hrun Hpos. apply landlord_dashboard_run in Hrun as (_ & _ & ->).
  cbn [dashboard_of dash_monthlyEarnings dash_totalEarnings].
  unfold monthlyEarnings, totalEarnings.
  by apply (sum_amounts_selected (fun p => str_is "paid" (p !! "status"))).
Qed.

(** X9: The dashboard's recentApplications are the first five of all
    applications addressed to the landlord, whatever their status, newest
    first by createdAt when each carries a readable date. *)
Theorem recent_applications_listing u now w c msg d w' :
  route_GET_users_landlord_dashboard u now w = (Success c msg d, w') ->
  exists older,
    (dash_recentApplications d ++ older)%list ≡ₚ applications_to u w
    /\ length (dash_recentApplications d) = Nat.min 5 (length (applications_to u w))
    /\ (Forall (fun a => exists t, Date_getTime (a !! "createdAt") = Some t)
          (applications_to u w) ->
        StronglySorted created_ge (dash_recentApplications d ++ older)).
Proof.
  intros Hrun. apply landlord_dashboard_run in Hrun as (_ & _ & ->).
  cbn [dashboard_of dash_recentApplications]. unfold recentApplications.
  set (sorted := Array_sort _ _).
  exists (drop 5 sorted). rewrite take_drop.
  split; [apply Array_sort_perm|].
  split.
  - rewrite length_take. unfold sorted. by rewrite Array_sort_perm.
  - apply sort_newest_first.
Qed.

End Dashboard_figures.
(** Renter R1 and landlord L1 ask for the renter dashboard. *)
Lemma renter_dashboard_is_always_refused_witness :
  route_GET_users_renter_dashboard (H := Sample.runtime) Sample.renter1 Sample.now0
    Sample.lease
  = (Failure 500 "Failed to fetch dashboard", Sample.lease)
  /\ (route_GET_users_renter_dashboard (H := Sample.runtime) Sample.landlord1 Sample.now0
        Sample.lease).1
     = Failure 403 "Renter access required".
Proof.
  split; [vm_compute; reflexivity|].
  by destruct (renter_dashboard_is_always_refused (H := Sample.runtime) Sample.landlord1
                 Sample.now0 Sample.lease _ _ (surjective_pairing _)) as (_ & _ & ->).
Defined.



(** Landlord L1 has two houses, one rented and one taken off the market: the
    latter counts in the total only. *)
Lemma dashboard_property_counts_witness :
  let d := data_or (dashboard_of (H := Sample.runtime) 0 [] [] [])
    (route_GET_users_landlord_dashboard (H := Sample.runtime)
       Sample.landlord1 Sample.now0 Sample.lease).1 in
  dash_propertiesByStatus d = mkPropertiesByStatus 0 1 0
  /\ dash_totalProperties d
     = available (dash_propertiesByStatus d) + rented (dash_propertiesByStatus d)
       + maintenance (dash_propertiesByStatus d)
       + length (List.filter
           (fun p => negb (includes ["available"; "rented"; "maintenance"]
                             (p !! "status")))
           (properties_of Sample.landlord1 Sample.lease)).
Proof.
  cbv zeta. split; [vm_compute; reflexivity|].
  exact (dashboard_property_counts (H := Sample.runtime) Sample.landlord1 Sample.now0
           Sample.lease 200 None _ _
           (run_shape (dashboard_of (H := Sample.runtime) 0 [] [] [])
              (route_GET_users_landlord_dashboard (H := Sample.runtime)
                 Sample.landlord1 Sample.now0 Sample.lease) 200 None
              ltac:(vm_compute; reflexivity))).
Defined.

(** The dashboard of landlord L1 on 15 March: nothing was paid for March, two
    rents were paid before. *)
Lemma monthly_earnings_bounded_witness :
  let d := data_or (dashboard_of (H := Sample.runtime) 0 [] [] [])
    (route_GET_users_landlord_dashboard (H := Sample.runtime)
       Sample.landlord1 Sample.now0 Sample.lease).1 in
  (0 <= dash_monthlyEarnings d <= dash_totalEarnings d)%Z.
Proof.
  cbv zeta.
  apply (monthly_earnings_bounded (H := Sample.runtime) Sample.landlord1 Sample.now0
           Sample.lease 200 None _ _
           (run_shape (dashboard_of (H := Sample.runtime) 0 [] [] [])
              (route_GET_users_landlord_dashboard (H := Sample.runtime)
                 Sample.landlord1 Sample.now0 Sample.lease) 200 None
              ltac:(vm_compute; reflexivity))).
  apply List.Forall_forall. intros p Hp. apply Z.leb_le. revert p Hp.
  apply forallb_forall. vm_compute. reflexivity.
Defined.

(** With the refund of the sample ledger entered as a paid payment of -100 for
    an earlier month, the earnings of the month exceed the total. *)
Example monthly_earnings_above_total :
  let payments :=
    [<["month" := AStr "2024-03"]> (Sample.payment "p1" "L1" "paid" 100 "2024-03-01");
     <["month" := AStr "2024-02"]> Sample.refund] in
  monthlyEarnings (H := Sample.runtime) Sample.now0 payments = 100%Z
  /\ totalEarnings payments = 0%Z.
Proof. vm_compute. split; reflexivity. Qed.

(** The two applications addressed to landlord L1, the newer one first,
    whatever their status. *)
Lemma recent_applications_listing_witness :
  let d := data_or (dashboard_of (H := Sample.runtime) 0 [] [] [])
    (route_GET_users_landlord_dashboard (H := Sample.runtime)
       Sample.landlord1 Sample.now0 Sample.lease).1 in
  (fun a : Item => a !! "id") <$> dash_recentApplications d
  = [Some (AStr "a2"); Some (AStr "a1")]
  /\ length (dash_recentApplications d)
     = Nat.min 5 (length (applications_to Sample.landlord1 Sample.lease)).
Proof.
  cbv zeta. split; [vm_compute; reflexivity|].
  destruct (recent_applications_listing (H := Sample.runtime) Sample.landlord1
              Sample.now0 Sample.lease 200 None _ _
              (run_shape (dashboard_of (H := Sample.runtime) 0 [] [] [])
              (route_GET_users_landlord_dashboard (H := Sample.runtime)
                 Sample.landlord1 Sample.now0 Sample.lease) 200 None
                 ltac:(vm_compute; reflexivity)))
    as (older & _ & Hlen & _).
  exact Hlen.
Defined.

(** ** Payments: creation, single and bulk updates, and who sees them *)




Lemma assigned_app k l1 l2 b : assigned k (l1 ++ l2) b = assigned k l2 (assigned k l1 b).
Proof.
  revert b. induction l1 as [|[k' v] l1 IH]; intros b; simpl; [done|]. apply IH.
Qed.

Lemma assigned_field k k' v b :
  assigned k (field k' v) b
  = if String.eqb k' k then match v with Some a => Some a | None => b end else b.
Proof. destruct v; simpl; [done|]. by destruct (String.eqb k' k). Qed.

Local Ltac object_field :=
  rewrite ?object_lookup, ?assign_lookup;
  repeat (cbn [assigned app]; rewrite ?assigned_app, ?assigned_field);
  cbn [assigned String.eqb Ascii.eqb Bool.eqb].

(** *** What the store can hold *)

Lemma storable_item_lookup (item : Item) k v :
  storable_item item = true -> item !! k = Some v -> storable v = true.
Proof.
  unfold storable_item. intros Hall Hk.
  apply (proj1 (forallb_forall _ _) Hall (k, v)).
  apply list_elem_of_In. by apply elem_of_map_to_list.
Qed.

Lemma storable_item_insert (item : Item) k v :
  storable v = true -> storable_item item = true -> storable_item (<[k := v]> item) = true.
Proof.
  unfold storable_item. intros Hv Hall. apply forallb_forall. intros [k' v'] Hin.
  apply list_elem_of_In, elem_of_map_to_list in Hin. simpl.
  destruct (decide (k = k')) as [-> | Hne].
  - rewrite lookup_insert_eq in Hin. by injection Hin as <-.
  - rewrite lookup_insert_ne in Hin by done.
    apply (proj1 (forallb_forall _ _) Hall (k', v')).
    apply list_elem_of_In. by apply elem_of_map_to_list.
Qed.

Lemma storable_assign sets (item : Item) :
  forallb (fun kv => storable (snd kv)) sets = true ->
  storable_item item = true -> storable_item (assign sets item) = true.
Proof.
  revert item. induction sets as [|[k v] sets IH]; intros item Hsets Hitem; simpl; [done|].
  simpl in Hsets. apply andb_true_iff in Hsets as [Hv Hsets].
  apply IH; [done|]. by apply storable_item_insert.
Qed.

Lemma storable_object fields :
  forallb (fun kv => storable (snd kv)) fields = true -> storable_item (object fields) = true.
Proof. intros Hfields. unfold object. by apply storable_assign. Qed.

Lemma storable_field (item : Item) k k' :
  storable_item item = true ->
  forallb (fun kv => storable (snd kv)) (field k' (item !! k)) = true.
Proof.
  intros Hitem. destruct (item !! k) as [v|] eqn:Hk; simpl; [|done].
  by rewrite (storable_item_lookup item k v Hitem Hk).
Qed.

Lemma put_refused t (item : Item) w :
  faults w = [] -> storable_item item = false ->
  dynamoDB_put t item w = (Throw AwsError, w).
Proof.
  intros Hq Hitem. unfold dynamoDB_put, bind. by rewrite (aws_quiet w Hq), Hitem.
Qed.

Section Payment_flow.
Context `{Runtime}.

Lemma to_number_inv v w r w' :
  to_number v w = (r, w') ->
  w' = w /\ r = match Number_ v with Some x => Ok x | None => Throw TypeError end.
Proof. unfold to_number. destruct (Number_ v); by intros [= <- <-]. Qed.

Lemma POST_payments_frame u now body w res w' :
  POST_payments u now body w = (res, w') ->
  bucket w' = bucket w /\ forall e, res = Throw e -> db w' = db w.
Proof.
  unfold POST_payments. intros Hrun.
  destruct (_ || _); [by injection Hrun as <- <-|].
  apply bind_inv in Hrun as [(aid & w0 & Hkey & Hrun) | (e & Hkey & ->)].
  2:{ by apply as_key_inv in Hkey as [-> _]. }
  apply as_key_inv in Hkey as [-> _].
  apply bind_inv in Hrun as [(o & w1 & Hget & Hrun) | (e & Hget & ->)].
  - apply get_inv in Hget as (Hdb1 & Hb1 & _).
    destruct o as [agreement|]; [|by injection Hrun as <- <-].
    destruct (negb _); [by injection Hrun as <- <-|].
    apply bind_inv in Hrun as [(paymentId & w2 & Hid & Hrun) | (e & Hid & ->)].
    2:{ apply uuidv4_inv in Hid as (? & _). discriminate. }
    apply uuidv4_inv in Hid as (_ & Hdb2 & Hb2 & _).
    apply bind_inv in Hrun as [(amount & w3 & Hnum & Hrun) | (e & Hnum & ->)].
    2:{ apply to_number_inv in Hnum as [-> _]. split; [congruence|]. intros _ _. congruence. }
    apply to_number_inv in Hnum as [-> _].
    apply try_catch_inv in Hrun as [(a & Hrun & ->) | (e' & Hrun & ->)].
    + split; [|discriminate].
      apply bind_Ok in Hrun as ([] & w3 & Hput & Hrun).
      apply put_inv in Hput as [Hb _]. injection Hrun as _ <-. congruence.
    + apply bind_inv in Hrun as [([] & w3 & Hput & Hrun) | (e & Hput & _)];
        [discriminate|].
      apply put_inv in Hput as [Hb [(? & _ & _ & ? & _) | [_ Hdb]]]; [discriminate|].
      split; [congruence|]. intros _ _. congruence.
  - apply get_inv in Hget as (Hdb1 & Hb1 & _). done.
Qed.

Lemma POST_payments_effect u now body w r w' :
  POST_payments u now body w = (Ok r, w') ->
  exists aid agreement payment id n,
    body !! "rentalAgreementId" = Some (AStr aid)
    /\ rentalAgreements (db w) !! aid = Some agreement
    /\ agreement !! "landlordId" = Some (AStr (user_id u))
    /\ r = Success 201 (Some "Payment record created successfully") payment
    /\ payment !! "landlordId" = Some (AStr (user_id u))
    /\ payment !! "renterId" = agreement !! "renterId"
    /\ payment !! "propertyId" = agreement !! "propertyId"
    /\ payment !! "rentalAgreementId" = Some (AStr aid)
    /\ Number_ (body !! "amount") = Some (JsFinite n)
    /\ payment !! "amount" = Some (ANum n)
    /\ payment !! "status" = Some (AStr "pending")
    /\ payment !! "dueDate" = body !! "dueDate"
    /\ payment !! "id" = Some (AStr id)
    /\ db w' = set_table PAYMENTS (<[id := payment]> (payments (db w))) (db w).
Proof.
  unfold POST_payments. intros Hrun.
  destruct (_ || _); [discriminate|].
  apply bind_Ok in Hrun as (aid & wa & Hkey & Hrun).
  apply as_key_inv in Hkey as [-> [(aid' & Haid & Hne & [= ->]) | ?]]; [|done].
  apply bind_Ok in Hrun as (o & wb & Hget & Hrun).
  apply get_Ok in Hget as (-> & Hdbb & _). cbn [table] in Hrun.
  destruct (rentalAgreements (db w) !! aid') as [agreement|] eqn:Hagreement;
    [|discriminate].
  destruct (str_is (user_id u) (agreement !! "landlordId")) eqn:Howner; [|discriminate].
  simpl in Hrun.
  apply bind_Ok in Hrun as (paymentId & wc & Hid & Hrun).
  apply uuidv4_inv in Hid as (_ & Hdbc & _ & _).
  apply bind_Ok in Hrun as (amount & wd & Hnum & Hrun).
  apply to_number_inv in Hnum as [-> Hnum].
  destruct (Number_ (body !! "amount")) as [x|] eqn:Hamount; [|discriminate].
  injection Hnum as ->.
  apply try_catch_Ok in Hrun.
  apply bind_Ok in Hrun as ([] & we & Hput & Hrun).
  injection Hrun as <- <-.
  apply put_inv in Hput as (_ & [(id & Hid & Hstorable & _ & Hdb) | (? & _)]);
    [|discriminate].
  assert (Hfinite : exists n, x = JsFinite n).
  { pose proof (storable_item_lookup _ "amount" (number x) Hstorable) as Hx.
    destruct x as [n| |negative]; [by exists n|..];
      (discriminate Hx; object_field; by repeat case_match). }
  destruct Hfinite as [n ->].
  exists aid', agreement. eexists. exists id, n.
  split; [done|]. split; [done|]. split; [by apply str_is_true|].
  split; [reflexivity|].
  do 4 (split; [object_field; by repeat case_match|]).
  split; [done|].
  do 3 (split; [object_field; by repeat case_match|]).
  split; [exact Hid|].
  rewrite Hdb. cbn [table]. by rewrite Hdbc, Hdbb.
Qed.

(** X16: POST /payments never touches the bucket and writes nothing when
    it is refused.  The payment it creates is for a rental agreement of the
    calling landlord: its landlordId is the caller's id, its renterId and
    propertyId are the agreement's, its amount is the finite number that
    [Number] reads from the request, and it is the one record added.  A
    landlord who sends a complete form while the store answers is refused
    with 404 for an agreement that does not exist and 403 for an agreement
    of another landlord.  For an own agreement the answer is 500 "Internal
    Server Error" when [Number] throws on the amount, 500 "Failed to create
    payment record" when the amount is a number the store does not hold
    (NaN, an infinity, a magnitude of 10^126 or more), and a success
    otherwise, the other values of the form and of the agreement being ones
    the store holds. *)
Theorem payment_creation_is_scoped user now body w r w' :
  route_POST_payments user now body w = (r, w') ->
  bucket w' = bucket w
  /\ (succeeded r = false -> db w' = db w)
  /\ (succeeded r = true ->
      exists u aid agreement payment id n,
        user = Some u
        /\ body !! "rentalAgreementId" = Some (AStr aid)
        /\ rentalAgreements (db w) !! aid = Some agreement
        /\ agreement !! "landlordId" = Some (AStr (user_id u))
        /\ r = Success 201 (Some "Payment record created successfully") payment
        /\ payment !! "landlordId" = Some (AStr (user_id u))
        /\ payment !! "renterId" = agreement !! "renterId"
        /\ payment !! "propertyId" = agreement !! "propertyId"
        /\ Number_ (body !! "amount") = Some (JsFinite n)
        /\ payment !! "amount" = Some (ANum n)
        /\ payment !! "id" = Some (AStr id)
        /\ db w' = set_table PAYMENTS (<[id := payment]> (payments (db w))) (db w))
  /\ (forall u aid,
        user = Some u -> userType u = "landlord" ->
        body !! "rentalAgreementId" = Some (AStr aid) -> aid <> "" ->
        truthy (body !! "amount") = true ->
        truthy (body !! "type") = true ->
        truthy (body !! "dueDate") = true ->
        faults w = [] ->
        match rentalAgreements (db w) !! aid with
        | None => r = Failure 404 "Rental agreement not found"
        | Some agreement =>
            if str_is (user_id u) (agreement !! "landlordId")
            then match Number_ (body !! "amount") with
                 | None => r = Failure 500 "Internal Server Error"
                 | Some x =>
                     if storable (number x)
                     then storable_item body = true -> storable_item agreement = true ->
                          succeeded r = true
                     else r = Failure 500 "Failed to create payment record"
                 end
            else r = Failure 403 "Unauthorized to create payment for this rental agreement"
        end).
Proof.
  intros Hrun. unfold route_POST_payments in Hrun.
  apply gate_landlord_inv in Hrun as [(Hfail & -> & Hgate) | (u & -> & Hrole & Hrun)].
  { split; [done|]. split; [done|]. split; [congruence|].
    intros u aid Hu Hrole. by destruct (Hgate u Hu). }
  assert (Hquiet : forall aid,
    body !! "rentalAgreementId" = Some (AStr aid) -> aid <> "" ->
    truthy (body !! "amount") = true ->
    truthy (body !! "type") = true ->
    truthy (body !! "dueDate") = true ->
    faults w = [] ->
    match rentalAgreements (db w) !! aid with
    | None => r = Failure 404 "Rental agreement not found"
    | Some agreement =>
        if str_is (user_id u) (agreement !! "landlordId")
        then match Number_ (body !! "amount") with
             | None => r = Failure 500 "Internal Server Error"
             | Some x =>
                 if storable (number x)
                 then storable_item body = true -> storable_item agreement = true ->
                      succeeded r = true
                 else r = Failure 500 "Failed to create payment record"
             end
        else r = Failure 403 "Unauthorized to create payment for this rental agreement"
    end).
  { intros aid Haid Hne Hamount Htype Hdue Hq.
    unfold asyncHandler, POST_payments in Hrun.
    rewrite Haid, (truthy_str aid Hne), Hamount, Htype, Hdue in Hrun. simpl in Hrun.
    rewrite (bind_run _ _ _ _ _ (as_key_str aid w Hne)) in Hrun.
    rewrite (bind_run _ _ _ _ _ (get_quiet RENTAL_AGREEMENTS aid w Hq)) in Hrun.
    cbn [table] in Hrun.
    destruct (rentalAgreements (db w) !! aid) as [agreement|];
      [|by injection Hrun as <- <-].
    destruct (str_is (user_id u) (agreement !! "landlordId")); simpl in Hrun;
      [|by injection Hrun as <- <-].
    unfold bind at 1 in Hrun. unfold uuidv4 at 1 in Hrun.
    unfold bind at 1 in Hrun. unfold to_number at 1 in Hrun.
    destruct (Number_ (body !! "amount")) as [x|]; [|by injection Hrun as <- <-].
    cbn [ret] in Hrun. unfold try_catch in Hrun.
    destruct (storable (number x)) eqn:Hx.
    - intros Hbody Hagreement.
      erewrite bind_run in Hrun.
      2:{ apply put_quiet; [exact Hq| |object_field; reflexivity].
          apply storable_object.
          repeat first [ rewrite forallb_app | progress cbn [forallb snd storable andb] ].
          rewrite !(storable_field body), !(storable_field agreement) by done.
          by rewrite Hx. }
      by injection Hrun as <- <-.
    - erewrite bind_throw in Hrun.
      2:{ apply put_refused; [exact Hq|].
          apply not_true_is_false. intros Hitem.
          pose proof (storable_item_lookup _ "amount" (number x) Hitem) as Hx'.
          rewrite Hx' in Hx; [discriminate|].
          object_field. by repeat case_match. }
      by injection Hrun as <- <-. }
  apply asyncHandler_inv in Hrun as [Hrun | (e & Hrun & Hfail & _)].
  - pose proof (POST_payments_frame _ _ _ _ _ _ Hrun) as [Hb _].
    apply POST_payments_effect in Hrun
      as (aid & agreement & payment & id & n & Haid & Hagreement & Howner & -> & Hl & Hr
          & Hp & _ & Hnum & Hamount & _ & _ & Hid & Hdb).
    split; [done|]. split; [discriminate|]. split.
    + intros _. exists u, aid, agreement, payment, id, n. repeat (split; [done|]). done.
    + intros u' aid' [= <-] _. apply Hquiet.
  - apply POST_payments_frame in Hrun as [Hb Hdb].
    split; [done|]. split; [intros _; by eapply Hdb|]. split; [congruence|].
    intros u' aid [= <-] _. apply Hquiet.
Qed.

End Payment_flow.

Section Payment_views.
Context `{Runtime}.



End Payment_views.
(** Landlord L1 enters the rent of April for the tenancy of renter R1; the
    same form with the amount "abc", which [Number] reads as NaN, and with
    an amount whose [toString] is not a function, on which [Number] throws. *)
Lemma payment_creation_is_scoped_witness :
  let creation :=
    route_POST_payments (H := Sample.runtime) (Some Sample.landlord1) Sample.now0
      Sample.payment_form Sample.tenancy in
  (exists payment,
     creation.1 = Success 201 (Some "Payment record created successfully") payment
     /\ payment !! "landlordId" = Some (AStr "L1")
     /\ payment !! "renterId" = Some (AStr "R1")
     /\ payment !! "propertyId" = Some (AStr "h1")
     /\ payment !! "amount" = Some (ANum 1200))
  /\ (route_POST_payments (H := Sample.runtime) (Some Sample.landlord1) Sample.now0
        (<["amount" := AStr "abc"]> Sample.payment_form) Sample.tenancy).1
     = Failure 500 "Failed to create payment record"
  /\ (route_POST_payments (H := Sample.runtime) (Some Sample.landlord1) Sample.now0
        (<["amount" := AObj [("toString", ANum 1)]]> Sample.payment_form) Sample.tenancy).1
     = Failure 500 "Internal Server Error".
Proof.
  intros creation. split; [|split].
  - destruct (payment_creation_is_scoped (H := Sample.runtime) (Some Sample.landlord1)
                Sample.now0 Sample.payment_form Sample.tenancy creation.1 creation.2
                (surjective_pairing _)) as (_ & _ & Hok & _).
    destruct (Hok ltac:(vm_compute; reflexivity))
      as (u & aid & agreement & payment & id & n & [= <-] & [= <-] & Hagreement & _ & Hr
          & Hl & Hrenter & Hproperty & [= <-] & Hamount & _).
    injection Hagreement as <-.
    exists payment. split; [exact Hr|]. split; [exact Hl|].
    split; [rewrite Hrenter; reflexivity|].
    split; [rewrite Hproperty; reflexivity | exact Hamount].
  - destruct (payment_creation_is_scoped (H := Sample.runtime) (Some Sample.landlord1)
                Sample.now0 (<["amount" := AStr "abc"]> Sample.payment_form)
                Sample.tenancy _ _ (surjective_pairing _)) as (_ & _ & _ & Hquiet).
    exact (Hquiet Sample.landlord1 "g1" eq_refl eq_refl eq_refl ltac:(discriminate)
             eq_refl eq_refl eq_refl eq_refl).
  - destruct (payment_creation_is_scoped (H := Sample.runtime) (Some Sample.landlord1)
                Sample.now0 (<["amount" := AObj [("toString", ANum 1)]]> Sample.payment_form)
                Sample.tenancy _ _ (surjective_pairing _)) as (_ & _ & _ & Hquiet).
    exact (Hquiet Sample.landlord1 "g1" eq_refl eq_refl eq_refl ltac:(discriminate)
             eq_refl eq_refl eq_refl eq_refl).
Defined.

(** ** Properties: images, updates and deletion *)

Section Property_images.
Context `{Runtime}.

(** The S3 key of an image of property [propertyId]. *)
Lemma upload_images_effect propertyId files w images w' :
  upload_images propertyId files w = (Ok images, w') ->
  db w' = db w
  /\ (forall k, is_Some (bucket w !! k) -> is_Some (bucket w' !! k))
  /\ Forall2 (fun image file =>
       exists imageId,
         image = AStr (s3_url (image_key propertyId imageId file))
         /\ is_Some (bucket w' !! image_key propertyId imageId file))
       images files.
Proof.
  revert w images w'. induction files as [|file files IH]; intros w images w' Hrun.
  - injection Hrun as <- <-. split; [done|]. split; [done|]. constructor.
  - unfold upload_images in Hrun. cbn [for_of] in Hrun.
    apply bind_Ok in Hrun as (image & w1 & Hone & Hrun).
    apply bind_Ok in Hrun as (rest & w2 & Hrest & Hrun).
    injection Hrun as <- <-.
    apply IH in Hrest as (Hdb2 & Hmono & Hall).
    apply bind_Ok in Hone as (imageId & w0 & Hid & Hone).
    apply uuidv4_inv in Hid as ([= ->] & Hdb0 & Hb0 & _).
    apply try_catch_Ok in Hone.
    apply bind_Ok in Hone as ([] & w1' & Hup & Hone). injection Hone as <- <-.
    unfold s3_upload in Hup.
    apply bind_Ok in Hup as ([] & w3 & Haws & Hup).
    apply aws_frame in Haws as (Hdb3 & Hb3 & _).
    injection Hup as <-.
    split; [simpl in Hdb2; congruence|].
    split.
    + intros k Hk. apply Hmono. simpl.
      destruct (decide (k = image_key propertyId (uuid_at (drawn w)) file)) as [->|Hne].
      * rewrite lookup_insert_eq. by eexists.
      * rewrite lookup_insert_ne by done. by rewrite Hb3, Hb0.
    + constructor; [|exact Hall].
      exists (uuid_at (drawn w)). split; [reflexivity|].
      apply Hmono. simpl. rewrite lookup_insert_eq. by eexists.
Qed.

Lemma parse_if_present_inv v w r w' : parse_if_present v w = (r, w') -> w' = w.
Proof.
  unfold parse_if_present. destruct (truthy v); [|by intros [= <- <-]].
  intros Hrun. apply bind_inv in Hrun as [(doc & w1 & Hp & Hrun) | (e & Hp & ->)].
  - apply parse_inv in Hp as ->. by injection Hrun as <- <-.
  - by apply parse_inv in Hp.
Qed.

(** X20: A property created by POST /properties carries the caller's id
    as landlordId and lists one image URL per uploaded file, in the order of
    the files; each URL is the bucket's URL of the key
    propertyId/imageId.extension, and an object is stored under that key.
    The property is the one record added. *)
Theorem created_property_lists_its_uploads user now body files w c msg property w' :
  route_POST_properties user now body files w = (Success c msg property, w') ->
  exists u id images,
    user = Some u
    /\ property !! "id" = Some (AStr id)
    /\ property !! "landlordId" = Some (AStr (user_id u))
    /\ property !! "images" = Some (AList images)
    /\ Forall2 (fun image file =>
         exists imageId,
           image = AStr (s3_url (image_key id imageId file))
           /\ is_Some (bucket w' !! image_key id imageId file))
         images files
    /\ db w' = set_table PROPERTIES (<[id := property]> (properties (db w))) (db w).
Proof.
  intros Hrun. unfold route_POST_properties in Hrun.
  apply requireLandlord_success in Hrun as (u & -> & _ & Hrun); [|done].
  unfold POST_properties in Hrun.
  destruct (_ || _); [discriminate|].
  apply bind_Ok in Hrun as (propertyId & wa & Hid & Hrun).
  apply uuidv4_inv in Hid as ([= ->] & Hdba & _ & _).
  apply bind_Ok in Hrun as (images & wb & Himages & Hrun).
  apply upload_images_effect in Himages as (Hdbb & _ & Hall).
  apply bind_Ok in Hrun as (address & wc & Hp & Hrun). apply parse_inv in Hp as ->.
  apply bind_Ok in Hrun as (coordinates & wd & Hp & Hrun).
  apply parse_if_present_inv in Hp as ->.
  apply bind_Ok in Hrun as (price & we & Hp & Hrun). apply parse_inv in Hp as ->.
  apply bind_Ok in Hrun as (details & wf & Hp & Hrun). apply parse_inv in Hp as ->.
  apply bind_Ok in Hrun as (amenities & wg & Hp & Hrun).
  apply (parse_inv (Some _)) in Hp as ->.
  apply bind_Ok in Hrun as (leaseTerms & wh & Hp & Hrun).
  apply parse_if_present_inv in Hp as ->.
  apply try_catch_Ok in Hrun.
  apply bind_Ok in Hrun as ([] & wi & Hput & Hrun).
  injection Hrun as _ _ <- <-.
  pose proof Hput as Hbucket. apply put_inv in Hbucket as [Hbucket _].
  apply put_Ok in Hput as (id & Hid & Hdb).
  assert (Hid' : id = uuid_at (drawn w)).
  { revert Hid. object_field. repeat case_match; congruence. }
  subst id.
  exists u, (uuid_at (drawn w)), images.
  split; [done|]. split; [exact Hid|].
  split; [object_field; by repeat case_match|].
  split; [object_field; by repeat case_match|].
  split.
  - eapply Forall2_impl; [exact Hall|]. intros image file (imageId & -> & Hin).
    exists imageId. split; [done|]. by rewrite Hbucket.
  - rewrite Hdb. cbn [table]. by rewrite Hdbb, Hdba.
Qed.

End Property_images.

Section Property_deletion.
Context `{Runtime}.

Lemma image_keys_inv images w r w' : image_keys images w = (r, w') -> w' = w.
Proof.
  unfold image_keys. destruct images as [| | | | | |urls|]; try by intros [= <- <-].
  revert w r w'. induction urls as [|url urls IH]; intros w r w' Hrun; simpl in Hrun.
  - by injection Hrun as <- <-.
  - apply bind_inv in Hrun as [(key & w1 & Hone & Hrun) | (e & Hone & ->)].
    + assert (w1 = w) as -> by (destruct url; by injection Hone as _ <-).
      apply bind_inv in Hrun as [(keys & w2 & Hrest & Hrun) | (e & Hrest & ->)].
      * apply IH in Hrest as ->. by injection Hrun as <- <-.
      * by apply IH in Hrest.
    + destruct url; by injection Hone as _ <-.
Qed.

Lemma image_keys_strings urls w :
  image_keys (AList (AStr <$> urls)) w = (Ok (key_of_url <$> urls), w).
Proof.
  unfold image_keys. induction urls as [|url urls IH]; [done|].
  simpl. rewrite bind_ret. by rewrite (bind_run _ _ _ _ _ IH).
Qed.

Lemma s3_deleteObjects_inv keys w r w' :
  s3_deleteObjects keys w = (r, w') ->
  db w' = db w
  /\ ((r = Ok tt /\ bucket w' = foldr delete (bucket w) keys)
      \/ (r = Throw AwsError /\ bucket w' = bucket w)).
Proof.
  unfold s3_deleteObjects, bind, aws.
  destruct (faults w) as [|[] fs]; intros [= <- <-]; simpl; auto.
Qed.

Lemma has_length_inv v w r w' : has_length v w = (r, w') -> w' = w.
Proof.
  unfold has_length. destruct v; try by intros [= <- <-].
  destruct (index _ _); [|by intros [= <- <-]].
  unfold bind, to_number. destruct (Number_ _); by intros [= <- <-].
Qed.

Lemma delete_property_body id (item : Item) w res w' :
  try_catch
    (dynamoDB_delete PROPERTIES id ;;;
     match item !! "images" with
     | Some images =>
         filled <- (if truthy (Some images) then has_length images else ret false) ;;
         if filled
         then
           keys <- image_keys images ;;
           try_catch (s3_deleteObjects keys) (fun _ => ret tt) ;;;
           ret (Success 200 (Some "Property deleted successfully") tt)
         else ret (Success 200 (Some "Property deleted successfully") tt)
     | None => ret (Success 200 (Some "Property deleted successfully") tt)
     end)
    (fun _ => throw (createError "Failed to delete property" 500)) w = (res, w') ->
  (db w' = db w \/ db w' = set_table PROPERTIES (delete id (properties (db w))) (db w))
  /\ (forall r, res = Ok r ->
        db w' = set_table PROPERTIES (delete id (properties (db w))) (db w)).
Proof.
  intros Hrun.
  assert (Hfilled : forall images w0 r0 w1,
    (if truthy (Some images) then has_length images else ret false) w0 = (r0, w1) ->
    w1 = w0).
  { intros images w0 r0 w1. destruct (truthy (Some images)).
    - apply has_length_inv.
    - by intros [= _ <-]. }
  apply try_catch_inv in Hrun as [(a & Hrun & ->) | (e & Hrun & ->)].
  - apply bind_Ok in Hrun as ([] & w1 & Hdel & Hrun).
    apply delete_inv in Hdel as [_ [[_ Hdb1] | [? _]]]; [|discriminate].
    cbn [table] in Hdb1.
    assert (db w' = db w1) as ->; [|by split; [right|]].
    destruct (item !! "images") as [images|]; [|by injection Hrun as _ <-].
    apply bind_Ok in Hrun as (filled & w2 & Hlen & Hrun).
    apply Hfilled in Hlen as ->.
    destruct filled; [|by injection Hrun as _ <-].
    apply bind_Ok in Hrun as (keys & w2 & Hkeys & Hrun).
    apply image_keys_inv in Hkeys as ->.
    apply bind_Ok in Hrun as ([] & w3 & Hs3 & Hrun). injection Hrun as _ <-.
    unfold try_catch in Hs3.
    destruct (s3_deleteObjects keys w1) as [[[]|e] w4] eqn:Hobj;
      injection Hs3 as <-; by apply s3_deleteObjects_inv in Hobj as [? _].
  - split; [|discriminate].
    apply bind_inv in Hrun as [([] & w1 & Hdel & Hrun) | (e' & Hdel & _)].
    + apply delete_inv in Hdel as [_ [[_ Hdb1] | [? _]]]; [|discriminate].
      cbn [table] in Hdb1. right.
      assert (db w' = db w1) as ->; [|done].
      destruct (item !! "images") as [images|]; [|by injection Hrun as _ <-].
      apply bind_inv in Hrun as [(filled & w2 & Hlen & Hrun) | (e' & Hlen & _)].
      2:{ by apply Hfilled in Hlen as ->. }
      apply Hfilled in Hlen as ->.
      destruct filled; [|by injection Hrun as _ <-].
      apply bind_inv in Hrun as [(keys & w2 & Hkeys & Hrun) | (e' & Hkeys & _)].
      * apply image_keys_inv in Hkeys as ->.
        apply bind_inv in Hrun as [([] & w3 & Hs3 & Hrun) | (e' & Hs3 & _)].
        -- discriminate.
        -- unfold try_catch in Hs3.
           destruct (s3_deleteObjects keys w1) as [[[]|e0] w4]; discriminate.
      * by apply image_keys_inv in Hkeys as ->.
    + apply delete_inv in Hdel as [_ [[? _] | [_ Hdb1]]]; [discriminate|]. by left.
Qed.

(** X21: DELETE /properties/:id either leaves the store as it is or
    removes the property with that id and nothing else; it removes it only
    for the landlord whose id is the property's landlordId, and after a
    success the property is gone.  The property is deleted before its
    images: when the bucket rejects the deletion of the images, the answer
    is still a success and the images stay in the bucket. *)
Theorem property_deletion_is_owner_only user id w r w' :
  route_DELETE_properties_id user id w = (r, w') ->
  (db w' = db w \/ db w' = set_table PROPERTIES (delete id (properties (db w))) (db w))
  /\ (db w' <> db w ->
      exists u item,
        user = Some u /\ userType u = "landlord"
        /\ properties (db w) !! id = Some item
        /\ item !! "landlordId" = Some (AStr (user_id u)))
  /\ (succeeded r = true -> properties (db w') !! id = None)
  /\ (forall u item urls,
        user = Some u -> userType u = "landlord" -> id <> "" ->
        properties (db w) !! id = Some item ->
        item !! "landlordId" = Some (AStr (user_id u)) ->
        item !! "images" = Some (AList (AStr <$> urls)) ->
        faults w = [false; false; true] ->
        r = Success 200 (Some "Property deleted successfully") tt
        /\ properties (db w') !! id = None
        /\ bucket w' = bucket w).
Proof.
  intros Hrun. unfold route_DELETE_properties_id in Hrun.
  apply gate_landlord_inv in Hrun as [(Hfail & -> & Hgate) | (u & -> & Hrole & Hrun)].
  { split; [by left|]. split; [done|]. split; [congruence|].
    intros u item urls Hu Hrole. by destruct (Hgate u Hu). }
  unfold asyncHandler in Hrun.
  destruct (DELETE_properties_id u id w) as [res w0] eqn:Hhandler.
  assert (w0 = w') as -> by (destruct res as [?|[]]; by injection Hrun as _ <-).
  assert (Hok : succeeded r = true -> exists r0, res = Ok r0).
  { destruct res as [r0|[]]; injection Hrun as <-; [eauto|discriminate..]. }
  unfold DELETE_properties_id in Hhandler.
  destruct (String.eqb id "") eqn:Hid.
  { injection Hhandler as <- <-. split; [by left|]. split; [done|].
    split; [intros Hs; by destruct (Hok Hs)|].
    intros ? ? ? _ _ Hne. apply String.eqb_neq in Hne. congruence. }
  apply bind_inv in Hhandler as [(o & w1 & Hget & Hhandler) | (e & Hget & ->)].
  2:{ pose proof Hget as Hget'. apply get_inv in Hget' as (Hdb & Hb & [? | _]);
        [discriminate|].
      split; [by left|]. split; [done|]. split; [intros Hs; by destruct (Hok Hs)|].
      intros ? ? ? _ _ _ _ _ _ Hfaults.
      unfold dynamoDB_get, bind, aws in Hget. rewrite Hfaults in Hget. discriminate. }
  pose proof Hget as Hget'. apply get_inv in Hget' as (Hdb1 & Hb1 & [[= ->] | ?]);
    [|discriminate].
  cbn [table] in Hhandler.
  destruct (properties (db w) !! id) as [item|] eqn:Hitem.
  2:{ injection Hhandler as <- <-. split; [by left|]. split; [done|].
      split; [intros Hs; by destruct (Hok Hs)|]. intros; discriminate. }
  destruct (str_is (user_id u) (item !! "landlordId")) eqn:Howner; simpl in Hhandler.
  2:{ injection Hhandler as <- <-. split; [by left|]. split; [done|].
      split; [intros Hs; by destruct (Hok Hs)|].
      intros u' item' urls [= <-] _ _ [= <-] Howner'.
      apply str_is_true in Howner'. congruence. }
  pose proof (delete_property_body id item w1 res w' Hhandler) as [Hcases Hdeleted].
  rewrite Hdb1 in Hcases, Hdeleted.
  split; [exact Hcases|].
  split.
  { intros _. exists u, item. split; [done|]. split; [done|]. split; [done|].
    by apply str_is_true. }
  split.
  { intros Hs. destruct (Hok Hs) as [r0 ->].
    rewrite (Hdeleted r0 eq_refl). simpl. apply lookup_delete_eq. }
  intros u' item' urls [= <-] _ _ [= <-] _ Himages Hfaults.
  rewrite Himages in Hhandler.
  unfold dynamoDB_get, bind, aws in Hget. rewrite Hfaults in Hget.
  injection Hget as _ <-.
  destruct urls as [|url urls].
  - simpl in Hhandler. unfold try_catch, bind, dynamoDB_delete, bind, aws in Hhandler.
    simpl in Hhandler. injection Hhandler as <- <-. injection Hrun as <-.
    split; [done|]. split; [simpl; apply lookup_delete_eq | done].
  - unfold try_catch at 1 in Hhandler.
    erewrite bind_run in Hhandler; [|reflexivity]. cbv beta in Hhandler.
    erewrite bind_run in Hhandler; [|reflexivity]. cbv beta iota in Hhandler.
    rewrite bool_decide_eq_true_2 in Hhandler by (simpl; lia).
    erewrite bind_run in Hhandler; [|apply (image_keys_strings (url :: urls))].
    cbv beta in Hhandler.
    erewrite bind_run in Hhandler; [|reflexivity].
    injection Hhandler as <- <-. injection Hrun as <-.
    split; [done|]. split; [simpl; apply lookup_delete_eq | done].
Qed.

End Property_deletion.
(** ** From an image URL back to its key *)

Lemma append_cons x (a b : string) : String x a +:+ b = String x (a +:+ b).
Proof. reflexivity. Qed.

Lemma append_empty_r (a : string) : a +:+ "" = a.
Proof. induction a as [|x a IH]; [done|]. by rewrite append_cons, IH. Qed.

Lemma append_snoc (seg : string) x (a : string) :
  (seg +:+ String x "") +:+ a = seg +:+ String x a.
Proof. induction seg as [|y seg IH]; [done|]. by rewrite !append_cons, IH. Qed.

Lemma has_slash_app a b : has_slash (a +:+ b) = has_slash a || has_slash b.
Proof.
  induction a as [|x a IH]; [done|].
  rewrite append_cons. cbn [has_slash]. rewrite IH. by rewrite orb_assoc.
Qed.

Lemma split_slash_segment seg a b :
  has_slash a = false ->
  split_slash seg (a +:+ String "/" b) = (seg +:+ a) :: split_slash "" b.
Proof.
  revert seg. induction a as [|x a IH]; intros seg Ha.
  - by rewrite append_empty_r.
  - rewrite append_cons. cbn [split_slash].
    cbn [has_slash] in Ha. apply orb_false_iff in Ha as [Hx Ha]. rewrite Hx.
    rewrite (IH _ Ha). by rewrite append_snoc.
Qed.

Lemma split_slash_last seg a :
  has_slash a = false -> split_slash seg a = [seg +:+ a].
Proof.
  revert seg. induction a as [|x a IH]; intros seg Ha.
  - by rewrite append_empty_r.
  - cbn [split_slash].
    cbn [has_slash] in Ha. apply orb_false_iff in Ha as [Hx Ha]. rewrite Hx.
    rewrite (IH _ Ha). by rewrite append_snoc.
Qed.

Lemma split_slash_prefix seg p rest :
  exists l, split_slash seg (p +:+ String "/" rest) = (l ++ split_slash "" rest)%list.
Proof.
  revert seg. induction p as [|x p IH]; intros seg.
  - exists [seg]. reflexivity.
  - rewrite append_cons. cbn [split_slash]. destruct (Ascii.eqb x "/").
    + destruct (IH "") as [l ->]. by exists (seg :: l).
    + apply IH.
Qed.

(** The key the deletion derives from the URL of an uploaded image is the key
    the image was uploaded under, as long as neither part of the key holds a
    slash. *)
Lemma key_of_url_s3_url a b :
  has_slash a = false -> has_slash b = false ->
  key_of_url (s3_url (a +:+ "/" +:+ b)) = a +:+ "/" +:+ b.
Proof.
  intros Ha Hb. unfold key_of_url.
  change (s3_url (a +:+ "/" +:+ b))
    with ("https://sheep-rentals-images.s3.us-east-1.amazonaws.com"
          +:+ String "/" (a +:+ String "/" b)).
  destruct (split_slash_prefix ""
    "https://sheep-rentals-images.s3.us-east-1.amazonaws.com" (a +:+ String "/" b))
    as [l ->].
  rewrite (split_slash_segment _ a b Ha), (split_slash_last _ b Hb).
  unfold slice_last2. rewrite length_app. simpl length.
  replace (length l + 2 - 2) with (length l + 0) by lia.
  rewrite drop_app_add. reflexivity.
Qed.

Lemma lookup_foldr_delete_in {A} (m : gmap string A) ks k :
  k ∈ ks -> foldr delete m ks !! k = None.
Proof.
  induction ks as [|k' ks IH]; intros Hin; [by apply elem_of_nil in Hin|].
  cbn [foldr]. destruct (decide (k = k')) as [->|Hne].
  - apply lookup_delete_eq.
  - rewrite lookup_delete_ne by done. apply IH.
    apply elem_of_cons in Hin as [?|?]; done.
Qed.

Lemma lookup_foldr_delete_out {A} (m : gmap string A) ks k :
  k ∉ ks -> foldr delete m ks !! k = m !! k.
Proof.
  induction ks as [|k' ks IH]; intros Hout; [done|].
  cbn [foldr]. apply not_elem_of_cons in Hout as [Hne Hout].
  rewrite lookup_delete_ne by done. by apply IH.
Qed.

Section Image_round_trip.
Context `{Runtime}.

Lemma upload_images_keys propertyId files w images w' :
  upload_images propertyId files w = (Ok images, w') ->
  exists keys,
    images = (fun key => AStr (s3_url key)) <$> keys
    /\ length keys = length files
    /\ Forall (fun key =>
         exists n file,
           key = image_key propertyId (uuid_at n) file
           /\ drawn w <= n < drawn w + length files
           /\ file ∈ files) keys
    /\ drawn w' = drawn w + length files
    /\ (forall k, k ∉ keys -> bucket w' !! k = bucket w !! k).
Proof.
  revert w images w'. induction files as [|file files IH]; intros w images w' Hrun.
  - injection Hrun as <- <-. exists []. split; [done|]. split; [done|].
    split; [constructor|]. split; [simpl; lia | done].
  - unfold upload_images in Hrun. cbn [for_of] in Hrun.
    apply bind_Ok in Hrun as (image & w1 & Hone & Hrun).
    apply bind_Ok in Hrun as (rest & w2 & Hrest & Hrun).
    injection Hrun as <- <-.
    apply IH in Hrest as (keys & -> & Hlen & Hkeys & Hdrawn & Hbucket).
    apply bind_Ok in Hone as (imageId & w0 & Hid & Hone).
    unfold uuidv4 in Hid. injection Hid as <- <-.
    apply try_catch_Ok in Hone.
    apply bind_Ok in Hone as ([] & w1' & Hup & Hone). injection Hone as <- <-.
    unfold s3_upload in Hup.
    apply bind_Ok in Hup as ([] & w3 & Haws & Hup).
    apply aws_frame in Haws as (_ & Hb3 & Hd3).
    injection Hup as <-. simpl in Hdrawn, Hbucket, Hkeys, Hb3, Hd3.
    exists (image_key propertyId (uuid_at (drawn w)) file :: keys).
    split; [reflexivity|]. split; [simpl; by rewrite Hlen|]. split; [|split].
    + constructor.
      * exists (drawn w), file. split; [done|]. split; [simpl; lia|]. apply list_elem_of_here.
      * eapply Forall_impl; [exact Hkeys|]. intros key (n & f & -> & Hn & Hf).
        exists n, f. split; [done|]. split; [simpl; lia|]. by apply list_elem_of_further.
    + simpl. lia.
    + intros k Hk. apply not_elem_of_cons in Hk as [Hne Hk].
      rewrite (Hbucket k Hk). rewrite lookup_insert_ne by done. by rewrite Hb3.
Qed.

Lemma image_key_round_trip propertyId imageId file :
  has_slash propertyId = false ->
  has_slash imageId = false ->
  has_slash (split_pop "" (originalname file)) = false ->
  key_of_url (s3_url (image_key propertyId imageId file))
  = image_key propertyId imageId file.
Proof.
  intros Hp Hi He. unfold image_key. apply key_of_url_s3_url; [done|].
  rewrite !has_slash_app, Hi, He. reflexivity.
Qed.

(** X22: Creating a property with images and then deleting it leaves the
    bucket as it was before the creation: the keys the deletion derives from
    the stored URLs are the keys the creation uploaded under, provided the
    generated ids and the file extensions hold no slash and the store
    answers the deletion. *)
Theorem uploaded_images_go_with_the_property
    u now body files w c msg property w1 id r w2 :
  route_POST_properties (Some u) now body files w = (Success c msg property, w1) ->
  property !! "id" = Some (AStr id) ->
  id <> "" ->
  (forall n, drawn w <= n <= drawn w + length files -> has_slash (uuid_at n) = false) ->
  Forall (fun file => has_slash (split_pop "" (originalname file)) = false) files ->
  faults w1 = [] ->
  route_DELETE_properties_id (Some u) id w1 = (r, w2) ->
  r = Success 200 (Some "Property deleted successfully") tt
  /\ properties (db w2) !! id = None
  /\ exists keys,
       property !! "images" = Some (AList ((fun key => AStr (s3_url key)) <$> keys))
       /\ length keys = length files
       /\ bucket w2 = foldr delete (bucket w) keys.
Proof.
  intros Hpost Hid Hne Huuid Hext Hq Hdelete.
  unfold route_POST_properties in Hpost.
  apply requireLandlord_success in Hpost as (u' & [= <-] & Hrole & Hpost); [|done].
  unfold POST_properties in Hpost.
  destruct (_ || _); [discriminate|].
  apply bind_Ok in Hpost as (propertyId & wa & Hdraw & Hpost).
  unfold uuidv4 in Hdraw. injection Hdraw as <- <-.
  apply bind_Ok in Hpost as (images & wb & Himages & Hpost).
  apply upload_images_keys in Himages as (keys & -> & Hlen & Hkeys & Hdrawn & Hbucket).
  simpl in Hkeys, Hdrawn, Hbucket.
  apply bind_Ok in Hpost as (address & wc & Hp & Hpost). apply parse_inv in Hp as ->.
  apply bind_Ok in Hpost as (coordinates & wd & Hp & Hpost).
  apply parse_if_present_inv in Hp as ->.
  apply bind_Ok in Hpost as (price & we & Hp & Hpost). apply parse_inv in Hp as ->.
  apply bind_Ok in Hpost as (details & wf & Hp & Hpost). apply parse_inv in Hp as ->.
  apply bind_Ok in Hpost as (amenities & wg & Hp & Hpost).
  apply (parse_inv (Some _)) in Hp as ->.
  apply bind_Ok in Hpost as (leaseTerms & wh & Hp & Hpost).
  apply parse_if_present_inv in Hp as ->.
  apply try_catch_Ok in Hpost.
  apply bind_Ok in Hpost as ([] & wi & Hput & Hpost).
  injection Hpost as _ _ <- ->.
  pose proof Hput as Hputb. apply put_inv in Hputb as [Hputb _].
  apply put_Ok in Hput as (id' & Hid' & Hdb).
  set (property := object _) in *.
  assert (Some (AStr id') = Some (AStr id)) as [= ->] by (by rewrite <- Hid, <- Hid').
  assert (Hidw : id = uuid_at (drawn w)).
  { revert Hid. unfold property. object_field. repeat case_match; congruence. }
  assert (Howner : property !! "landlordId" = Some (AStr (user_id u))).
  { unfold property. object_field. by repeat case_match. }
  assert (Himgs : property !! "images"
                  = Some (AList ((fun key => AStr (s3_url key)) <$> keys))).
  { unfold property. object_field. by repeat case_match. }
  assert (Hstored : properties (db w1) !! id = Some property).
  { rewrite Hdb. simpl. apply lookup_insert_eq. }
  assert (Hround : key_of_url <$> (s3_url <$> keys) = keys).
  { rewrite <- list_fmap_compose. rewrite <- (list_fmap_id keys) at 2.
    apply Forall_fmap_ext. eapply Forall_impl; [exact Hkeys|].
    intros key (n & file & -> & Hn & Hfile). simpl.
    apply image_key_round_trip.
    - apply Huuid. lia.
    - apply Huuid. lia.
    - by apply (proj1 (Forall_forall _ _) Hext). }
  unfold route_DELETE_properties_id, requireLandlord in Hdelete.
  rewrite Hrole in Hdelete. simpl in Hdelete.
  unfold asyncHandler, DELETE_properties_id in Hdelete.
  apply String.eqb_neq in Hne. rewrite Hne in Hdelete.
  rewrite (bind_run _ _ _ _ _ (get_quiet PROPERTIES id w1 Hq)) in Hdelete.
  cbn [table] in Hdelete. rewrite Hstored in Hdelete.
  apply str_is_true in Howner. rewrite Howner in Hdelete. simpl in Hdelete.
  rewrite Himgs in Hdelete.
  unfold try_catch at 1 in Hdelete.
  rewrite (bind_run _ _ _ _ _ (delete_quiet PROPERTIES id w1 Hq)) in Hdelete.
  assert (Hcomp : (fun key => AStr (s3_url key)) <$> keys = AStr <$> (s3_url <$> keys)).
  { rewrite <- list_fmap_compose. reflexivity. }
  rewrite Hcomp in Hdelete.
  assert (Hbw1 : forall k, k ∉ keys -> bucket w1 !! k = bucket w !! k).
  { intros k Hk. rewrite Hputb. by apply Hbucket. }
  destruct keys as [|key keys].
  - simpl in Hdelete. injection Hdelete as <- <-.
    split; [done|]. split; [simpl; apply lookup_delete_eq|].
    exists []. split; [done|]. split; [done|].
    simpl. apply map_eq. intros k. apply Hbw1, not_elem_of_nil.
  - erewrite bind_run in Hdelete; [|reflexivity]. cbv beta in Hdelete.
    rewrite bool_decide_eq_true_2 in Hdelete by (simpl; lia).
    erewrite bind_run in Hdelete; [|apply image_keys_strings].
    rewrite Hround in Hdelete.
    erewrite bind_run in Hdelete.
    2:{ unfold try_catch, s3_deleteObjects, bind. rewrite aws_quiet by exact Hq.
        reflexivity. }
    injection Hdelete as <- <-.
    split; [done|]. split; [simpl; apply lookup_delete_eq|].
    exists (key :: keys). split; [done|]. split; [done|].
    cbn [bucket set_db]. apply map_eq. intros k.
    change (delete key (foldr delete (bucket w1) keys))
      with (foldr delete (bucket w1) (key :: keys)).
    destruct (decide (k ∈ key :: keys)) as [Hin|Hout].
    + by rewrite !lookup_foldr_delete_in.
    + rewrite !lookup_foldr_delete_out by done. by apply Hbw1.
Qed.

End Image_round_trip.
(** ** Updates of a profile and of a property *)

Lemma assigned_other k sets b :
  Forall (fun kv : string * Attr => kv.1 <> k) sets -> assigned k sets b = b.
Proof.
  revert b. induction sets as [|[k' v] sets IH]; intros b Hall; [done|].
  apply Forall_cons in Hall as [Hne Hall]. simpl in *.
  rewrite (proj2 (String.eqb_neq k' k) Hne). by apply IH.
Qed.

Section Updates.
Context `{Runtime}.

Lemma append_if_given_inv sets k v w r w' :
  append_if_given sets k v w = (r, w') ->
  w' = w
  /\ forall sets', r = Ok sets' ->
       (truthy v = false /\ sets' = sets)
       \/ (exists a, v = Some a /\ truthy v = true /\ sets' = (sets ++ [(k, a)])%list).
Proof.
  unfold append_if_given. destruct (truthy v) eqn:Hv.
  - intros Hrun. apply append_to_const_inv in Hrun as [-> [-> | ->]]; [|done].
    split; [done|]. intros sets' [= <-]. right.
    destruct v as [a|]; [|done]. by exists a.
  - intros [= <- <-]. split; [done|]. intros sets' [= <-]. by left.
Qed.

Lemma append_parsed_if_given_inv sets k v w r w' :
  append_parsed_if_given sets k v w = (r, w') ->
  w' = w
  /\ forall sets', r = Ok sets' ->
       sets' = sets \/ exists a, sets' = (sets ++ [(k, a)])%list.
Proof.
  unfold append_parsed_if_given. destruct (truthy v).
  - unfold assign_to_const, bind. destruct const_is_readonly; [by intros [= <- <-]|].
    simpl. destruct (parse v w) as [[doc|e] w1] eqn:Hparse;
      apply parse_inv in Hparse as ->; intros [= <- <-]; (split; [done|]); [|done].
    intros sets' [= <-]. right. by exists doc.
  - intros [= <- <-]. split; [done|]. intros sets' [= <-]. by left.
Qed.

(** One clause more, or none, with a key of the list. *)
Lemma grown_within (allowed : list string) k (sets sets' : list (string * Attr)) :
  k ∈ allowed ->
  Forall (fun kv => kv.1 ∈ allowed) sets ->
  (sets' = sets \/ exists a, sets' = (sets ++ [(k, a)])%list) ->
  Forall (fun kv => kv.1 ∈ allowed) sets'.
Proof.
  intros Hk Hall [-> | [a ->]]; [done|].
  apply Forall_app. split; [done|]. by repeat constructor.
Qed.

Lemma within_excludes (allowed : list string) k (sets : list (string * Attr)) :
  k ∉ allowed -> Forall (fun kv => kv.1 ∈ allowed) sets ->
  Forall (fun kv => kv.1 <> k) sets.
Proof.
  intros Hk Hall. eapply Forall_impl; [exact Hall|].
  intros kv Hin Heq. apply Hk. by rewrite <- Heq.
Qed.

Lemma assigned_outside (allowed : list string) k sets b :
  k ∉ allowed -> Forall (fun kv : string * Attr => kv.1 ∈ allowed) sets ->
  assigned k sets b = b.
Proof.
  intros Hk Hall. apply assigned_other. by apply (within_excludes allowed).
Qed.

Local Ltac not_in_list :=
  let Hin := fresh "Hin" in
  intros Hin;
  repeat (apply elem_of_cons in Hin as [Hin|Hin]; [discriminate|]);
  by apply elem_of_nil in Hin.

Local Ltac in_list :=
  repeat first [ apply list_elem_of_here | apply list_elem_of_further ].

Local Ltac step_clause Hhandler Hstep sets Hsets inv :=
  let e := fresh "e" in
  let w2 := fresh "w" in
  apply bind_inv in Hhandler as [(sets & w2 & Hstep & Hhandler) | (e & Hstep & ->)];
  [apply inv in Hstep as [-> Hsets]; specialize (Hsets _ eq_refl)
  |apply inv in Hstep as [-> _]].

Lemma profile_image_step u file w r w' :
  match file with
  | Some f =>
      let fileExtension := split_pop "" (originalname f) in
      imageId <- uuidv4 ;;
      let fileName :=
        "profiles/" +:+ user_id u +:+ "/" +:+ imageId +:+ "." +:+ fileExtension in
      try_catch
        (s3_upload fileName f ;;;
         ret (Some (AStr (s3_url fileName))))
        (fun _ => throw (createError "Failed to upload profile image" 500))
  | None => ret None
  end w = (r, w') ->
  db w' = db w.
Proof.
  destruct file as [f|]; [|by intros [= <- <-]].
  cbv zeta. intros Hrun.
  apply bind_inv in Hrun as [(imageId & w1 & Hid & Hrun) | (e & Hid & ->)].
  - apply uuidv4_inv in Hid as (_ & Hdb1 & _).
    unfold try_catch in Hrun.
    destruct (bind _ _ w1) as [[a|e] w2] eqn:Hup.
    + injection Hrun as <- <-.
      apply bind_Ok in Hup as ([] & w3 & Hup & Hret). injection Hret as _ <-.
      apply s3_upload_db in Hup. congruence.
    + injection Hrun as <- <-.
      apply bind_inv in Hup as [([] & w3 & Hup & Hret) | (e' & Hup & _)];
        [discriminate|].
      apply s3_upload_db in Hup. congruence.
  - by apply uuidv4_inv in Hid as (_ & Hdb1 & _).
Qed.

(** X23: PUT /users/profile writes to the item stored under the caller's
    own id and to nothing else, creating the item when there is none; only
    updatedAt, firstName, lastName, phone, address, emergencyContact and
    profileImage can change, so that id, email and userType stay what they
    were.  A refused update writes nothing to the store. *)
Theorem profile_update_is_own_upsert u now body file w r w' :
  route_PUT_users_profile u now body file w = (r, w') ->
  (succeeded r = false -> db w' = db w)
  /\ (forall c msg item',
        r = Success c msg item' ->
        db w' = set_table USERS (<[user_id u := item']> (users (db w))) (db w)
        /\ forall k,
             k ∉ profile_fields ->
             item' !! k
             = default {[ "id" := AStr (user_id u) ]} (users (db w) !! user_id u) !! k).
Proof.
  intros Hrun. unfold route_PUT_users_profile, asyncHandler in Hrun.
  destruct (PUT_users_profile u now body file w) as [res w0] eqn:Hhandler.
  assert (w0 = w') as -> by (destruct res as [?|[]]; by injection Hrun as _ <-).
  assert (Hres : match res with Ok r0 => r = r0 | Throw _ => succeeded r = false end).
  { destruct res as [r0|[]]; by injection Hrun as <-. }
  clear Hrun.
  unfold PUT_users_profile in Hhandler.
  apply bind_inv in Hhandler as [(url & w1 & Himage & Hhandler) | (e & Himage & ->)].
  2:{ apply profile_image_step in Himage. split; [done|]. by intros c msg item' ->. }
  apply profile_image_step in Himage as Hdb1.
  step_clause Hhandler Hs1 sets1 Hsets1 append_if_given_inv.
  2:{ split; [done|]. by intros c msg item' ->. }
  step_clause Hhandler Hs2 sets2 Hsets2 append_if_given_inv.
  2:{ split; [done|]. by intros c msg item' ->. }
  step_clause Hhandler Hs3 sets3 Hsets3 append_if_given_inv.
  2:{ split; [done|]. by intros c msg item' ->. }
  step_clause Hhandler Hs4 sets4 Hsets4 append_parsed_if_given_inv.
  2:{ split; [done|]. by intros c msg item' ->. }
  step_clause Hhandler Hs5 sets5 Hsets5 append_parsed_if_given_inv.
  2:{ split; [done|]. by intros c msg item' ->. }
  step_clause Hhandler Hs6 sets6 Hsets6 append_if_given_inv.
  2:{ split; [done|]. by intros c msg item' ->. }
  assert (Hwithin : Forall (fun kv : string * Attr => kv.1 ∈ profile_fields) sets6).
  { assert (Hweak : forall k v (s s' : list (string * Attr)),
      ((truthy v = false /\ s' = s)
       \/ (exists a, v = Some a /\ truthy v = true /\ s' = (s ++ [(k, a)])%list)) ->
      s' = s \/ exists a, s' = (s ++ [(k, a)])%list).
    { intros k v s s' [[_ ->] | (a & _ & _ & ->)]; [by left | right; by exists a]. }
    eapply (grown_within _ "profileImage"); [in_list| |by eapply Hweak].
    eapply (grown_within _ "emergencyContact"); [in_list| |exact Hsets5].
    eapply (grown_within _ "address"); [in_list| |exact Hsets4].
    eapply (grown_within _ "phone"); [in_list| |by eapply Hweak].
    eapply (grown_within _ "lastName"); [in_list| |by eapply Hweak].
    eapply (grown_within _ "firstName"); [in_list| |by eapply Hweak].
    repeat constructor. }
  apply try_catch_inv in Hhandler as [(a & Hhandler & ->) | (e & Hhandler & ->)].
  - apply bind_Ok in Hhandler as (result & w2 & Hupd & Hhandler).
    injection Hhandler as <- <-.
    apply update_Ok in Hupd as (-> & Hdb2 & _).
    subst r. split; [discriminate|].
    intros c msg item' [= _ _ <-]. rewrite Hdb2, Hdb1. cbn [table]. split; [done|].
    intros k Hk. rewrite assign_lookup. by apply (assigned_outside profile_fields).
  - split; [|by intros c msg item' ->].
    intros _.
    apply bind_inv in Hhandler as [(result & w2 & Hupd & Hhandler) | (e' & Hupd & _)];
      [discriminate|].
    apply update_inv in Hupd as [_ [[? _] | [_ Hdb2]]]; [discriminate|]. congruence.
Qed.

Lemma upload_images_db propertyId files w r w' :
  upload_images propertyId files w = (r, w') -> db w' = db w.
Proof.
  apply for_of_db. clear. intros file w r w' Hrun.
  apply bind_inv in Hrun as [(imageId & w1 & Hid & Hrun) | (e & Hid & ->)].
  - apply uuidv4_inv in Hid as (_ & Hdb1 & _).
    unfold try_catch in Hrun.
    destruct (bind _ _ w1) as [[a|e] w2] eqn:Hup.
    + injection Hrun as <- <-.
      apply bind_Ok in Hup as ([] & w3 & Hup & Hret). injection Hret as _ <-.
      apply s3_upload_db in Hup. congruence.
    + injection Hrun as <- <-.
      apply bind_inv in Hup as [([] & w3 & Hup & Hret) | (e' & Hup & _)];
        [discriminate|].
      apply s3_upload_db in Hup. congruence.
  - by apply uuidv4_inv in Hid as (_ & Hdb1 & _).
Qed.

Lemma push_uploads_inv propertyId images files w r w' :
  push_uploads propertyId images files w = (r, w') ->
  db w' = db w
  /\ forall l images',
       images = AList l -> r = Ok images' ->
       exists added, images' = AList (l ++ added) /\ length added = length files.
Proof.
  unfold push_uploads. intros Hrun.
  assert (Hother : match files with
    | [] => ret images
    | file :: _ =>
        imageId <- uuidv4 ;;
        let fileExtension := split_pop "" (originalname file) in
        let fileName := propertyId +:+ "/" +:+ imageId +:+ "." +:+ fileExtension in
        try_catch
          (s3_upload fileName file ;;; throw TypeError)
          (fun _ => throw (createError "Failed to upload image" 500))
    end w = (r, w') -> db w' = db w).
  { clear Hrun. destruct files as [|file files]; [by intros [= <- <-]|].
    cbv zeta. intros Hrun.
    apply bind_inv in Hrun as [(imageId & w1 & Hid & Hrun) | (e & Hid & ->)].
    - apply uuidv4_inv in Hid as (_ & Hdb1 & _).
      unfold try_catch in Hrun.
      destruct (bind _ _ w1) as [[a|e] w2] eqn:Hup.
      + apply bind_Ok in Hup as ([] & w3 & _ & Hret). discriminate.
      + injection Hrun as <- <-.
        apply bind_inv in Hup as [([] & w3 & Hup & Hret) | (e' & Hup & _)].
        * injection Hret as _ <-. apply s3_upload_db in Hup. congruence.
        * apply s3_upload_db in Hup. congruence.
    - by apply uuidv4_inv in Hid as (_ & Hdb1 & _). }
  destruct images as [| | | | | |l|]; try (split; [by apply Hother | discriminate]).
  clear Hother.
  apply bind_inv in Hrun as [(urls & w1 & Hup & Hrun) | (e & Hup & ->)].
  - injection Hrun as <- <-. split; [by eapply upload_images_db|].
    intros l' images' [= <-] [= <-].
    apply upload_images_keys in Hup as (keys & -> & Hlen & _).
    eexists. split; [reflexivity|]. by rewrite length_fmap.
  - split; [by eapply upload_images_db | discriminate].
Qed.

(** X24: PUT /properties/:id succeeds only for the landlord whose id is
    the property's landlordId, and writes nothing to the store when it is
    refused.  A request that sends a status is among the refused ones, the
    update expression then naming the reserved word [status].  A successful
    request changes that one property, and on it only updatedAt, title,
    description, address, price, details, amenities and images: id,
    landlordId, createdAt and status stay what they were; uploaded images
    are appended to the stored ones, one per file. *)
Theorem property_update_keeps_identity user now id body files w r w' :
  route_PUT_properties_id user now id body files w = (r, w') ->
  (succeeded r = false -> db w' = db w)
  /\ (truthy (body !! "status") = true -> succeeded r = false)
  /\ (forall c msg item',
        r = Success c msg item' ->
        exists u item,
          user = Some u /\ userType u = "landlord"
          /\ properties (db w) !! id = Some item
          /\ item !! "landlordId" = Some (AStr (user_id u))
          /\ db w' = set_table PROPERTIES (<[id := item']> (properties (db w))) (db w)
          /\ (forall k, k ∉ property_fields -> item' !! k = item !! k)
          /\ item' !! "status" = item !! "status"
          /\ (forall l,
                item !! "images" = Some (AList l) ->
                exists added,
                  item' !! "images" = Some (AList (l ++ added))
                  /\ length added = length files)).
Proof.
  intros Hrun.
  cut ((succeeded r = false -> db w' = db w)
       /\ (forall c msg item',
             r = Success c msg item' ->
             truthy (body !! "status") = false
             /\ exists u item,
                  user = Some u /\ userType u = "landlord"
                  /\ properties (db w) !! id = Some item
                  /\ item !! "landlordId" = Some (AStr (user_id u))
                  /\ db w' = set_table PROPERTIES (<[id := item']> (properties (db w)))
                               (db w)
                  /\ (forall k, k ∉ property_fields -> item' !! k = item !! k)
                  /\ item' !! "status" = item !! "status"
                  /\ (forall l,
                        item !! "images" = Some (AList l) ->
                        exists added,
                          item' !! "images" = Some (AList (l ++ added))
                          /\ length added = length files))).
  { intros [Hfail Hok]. split; [exact Hfail|]. split.
    - intros Hstatus. destruct r as [c msg item'|]; [|done].
      destruct (Hok c msg item' eq_refl) as [Hnone _]. congruence.
    - intros c msg item' Hr. by destruct (Hok c msg item' Hr) as [_ ?]. }
  unfold route_PUT_properties_id in Hrun.
  apply gate_landlord_inv in Hrun as [(Hfail & -> & _) | (u & -> & Hrole & Hrun)].
  { split; [done|]. intros c msg item' ->. discriminate. }
  unfold asyncHandler in Hrun.
  destruct (PUT_properties_id u now id body files w) as [res w0] eqn:Hhandler.
  assert (w0 = w') as -> by (destruct res as [?|[]]; by injection Hrun as _ <-).
  assert (Hres : match res with Ok r0 => r = r0 | Throw _ => succeeded r = false end).
  { destruct res as [r0|[]]; by injection Hrun as <-. }
  clear Hrun.
  unfold PUT_properties_id in Hhandler.
  destruct (String.eqb id "").
  { injection Hhandler as <- <-. split; [done|]. by intros c msg item' ->. }
  apply bind_inv in Hhandler as [(o & w1 & Hget & Hhandler) | (e & Hget & ->)].
  2:{ apply get_inv in Hget as (Hdb & _). split; [done|]. by intros c msg item' ->. }
  apply get_inv in Hget as (Hdb1 & _ & [[= ->] | ?]); [|discriminate].
  cbn [table] in Hhandler.
  destruct (properties (db w) !! id) as [item|] eqn:Hitem.
  2:{ injection Hhandler as <- <-. split; [done|]. by intros c msg item' ->. }
  destruct (str_is (user_id u) (item !! "landlordId")) eqn:Howner; simpl in Hhandler.
  2:{ injection Hhandler as <- <-. split; [done|]. by intros c msg item' ->. }
  apply bind_inv in Hhandler as [(images & w2 & Hpush & Hhandler) | (e & Hpush & ->)].
  2:{ apply push_uploads_inv in Hpush as [Hdb2 _].
      split; [congruence|]. by intros c msg item' ->. }
  apply push_uploads_inv in Hpush as [Hdb2 Himages].
  assert (Hdbw2 : db w2 = db w) by congruence.
  step_clause Hhandler Hs1 sets1 Hsets1 append_if_given_inv.
  2:{ split; [done|]. by intros c msg item' ->. }
  step_clause Hhandler Hs2 sets2 Hsets2 append_if_given_inv.
  2:{ split; [done|]. by intros c msg item' ->. }
  step_clause Hhandler Hs3 sets3 Hsets3 append_parsed_if_given_inv.
  2:{ split; [done|]. by intros c msg item' ->. }
  step_clause Hhandler Hs4 sets4 Hsets4 append_parsed_if_given_inv.
  2:{ split; [done|]. by intros c msg item' ->. }
  step_clause Hhandler Hs5 sets5 Hsets5 append_parsed_if_given_inv.
  2:{ split; [done|]. by intros c msg item' ->. }
  step_clause Hhandler Hs6 sets6 Hsets6 append_parsed_if_given_inv.
  2:{ split; [done|]. by intros c msg item' ->. }
  assert (Hweak : forall k v (s s' : list (string * Attr)),
    ((truthy v = false /\ s' = s)
     \/ (exists a, v = Some a /\ truthy v = true /\ s' = (s ++ [(k, a)])%list)) ->
    s' = s \/ exists a, s' = (s ++ [(k, a)])%list).
  { intros k v s s' [[_ ->] | (a & _ & _ & ->)]; [by left | right; by exists a]. }
  set (early := ["updatedAt"; "title"; "description"; "address"; "price"; "details";
                 "amenities"]).
  assert (Hearly : Forall (fun kv : string * Attr => kv.1 ∈ early) sets6).
  { eapply (grown_within _ "amenities"); [in_list| |exact Hsets6].
    eapply (grown_within _ "details"); [in_list| |exact Hsets5].
    eapply (grown_within _ "price"); [in_list| |exact Hsets4].
    eapply (grown_within _ "address"); [in_list| |exact Hsets3].
    eapply (grown_within _ "description"); [in_list| |by eapply Hweak].
    eapply (grown_within _ "title"); [in_list| |by eapply Hweak].
    repeat constructor. }
  apply bind_inv in Hhandler as [(grown & w3 & Hgrown & Hhandler) | (e & Hgrown & ->)].
  2:{ apply has_length_inv in Hgrown as ->. split; [done|]. by intros c msg item' ->. }
  apply has_length_inv in Hgrown as Hw3. subst w3.
  apply bind_inv in Hhandler as [(sets7 & w3 & Hs7 & Hhandler) | (e & Hs7 & ->)].
  2:{ destruct grown.
      - apply append_to_const_inv in Hs7 as [-> _]. split; [done|].
        by intros c msg item' ->.
      - discriminate. }
  assert (w3 = w2 /\ sets7 = if grown
                             then (sets6 ++ [("images", images)])%list else sets6)
    as [-> Hsets7].
  { destruct grown.
    - apply append_to_const_inv in Hs7 as [-> [[= <-] | ?]]; done.
    - by injection Hs7 as <- <-. }
  step_clause Hhandler Hs8 sets8 Hsets8 append_if_given_inv.
  2:{ split; [done|]. by intros c msg item' ->. }
  apply try_catch_inv in Hhandler as [(a & Hhandler & ->) | (e & Hhandler & ->)].
  2:{ split; [|by intros c msg item' ->]. intros _.
      apply bind_inv in Hhandler as [(result & w4 & Hupd & Hhandler) | (e' & Hupd & _)];
        [discriminate|].
      apply update_inv in Hupd as [_ [[? _] | [_ Hdb4]]]; [discriminate|]. congruence. }
  apply bind_Ok in Hhandler as (result & w4 & Hupd & Hhandler).
  injection Hhandler as <- <-.
  apply update_inv in Hupd as [_ [(Hresult & Hfree & Hdb4) | [? _]]]; [|discriminate].
  injection Hresult as ->.
  assert (Hnone : truthy (body !! "status") = false /\ sets8 = sets7).
  { destruct Hsets8 as [[? ?] | (a & _ & _ & ->)]; [done|].
    unfold refused_sets in Hfree. rewrite existsb_app in Hfree.
    cbn [existsb fst] in Hfree. rewrite reserved_status in Hfree.
    rewrite !orb_true_r in Hfree. discriminate. }
  destruct Hnone as [Hnone ->].
  subst r. split; [discriminate|].
  intros c msg item' [= _ _ <-]. split; [exact Hnone|].
  rewrite Hdbw2 in Hdb4. cbn [table] in Hdb4. rewrite Hitem in Hdb4. simpl in Hdb4.
  rewrite Hdbw2. cbn [table]. rewrite Hitem. simpl.
  exists u, item. split; [done|]. split; [done|]. split; [done|].
  split; [by apply str_is_true|]. split; [exact Hdb4|].
  assert (Hno_images : Forall (fun kv : string * Attr => kv.1 <> "images") sets6).
  { apply (within_excludes early); [not_in_list | exact Hearly]. }
  assert (Hno_status : Forall (fun kv : string * Attr => kv.1 <> "status") sets7).
  { rewrite Hsets7.
    assert (Hs6 : Forall (fun kv : string * Attr => kv.1 <> "status") sets6).
    { apply (within_excludes early); [not_in_list | exact Hearly]. }
    destruct grown; [|done].
    apply Forall_app. split; [done|]. by repeat constructor. }
  split; [|split].
  - intros k Hk. rewrite assign_lookup. apply (assigned_outside property_fields); [done|].
    rewrite Hsets7.
    assert (Hwide : Forall (fun kv : string * Attr => kv.1 ∈ property_fields) sets6).
    { eapply Forall_impl; [exact Hearly|]. intros [k' v'] Hin.
      cbn [fst] in *. unfold early in Hin. unfold property_fields.
      repeat (apply elem_of_cons in Hin as [->|Hin]; [in_list|]).
      by apply elem_of_nil in Hin. }
    destruct grown; [|done].
    apply Forall_app. split; [done|]. repeat constructor.
  - rewrite assign_lookup. by apply assigned_other.
  - intros l Hl. rewrite assign_lookup.
    destruct (Himages l images) as (added & -> & Hlen);
      [by rewrite Hl | done |].
    exists added. split; [|done].
    cbn [has_length ret] in Hgrown. injection Hgrown as <-.
    rewrite Hsets7. destruct (bool_decide (0 < length (l ++ added))) eqn:Hhas.
    + rewrite assigned_app, (assigned_other _ _ _ Hno_images). reflexivity.
    + rewrite (assigned_other _ _ _ Hno_images), Hl.
      apply bool_decide_eq_false in Hhas.
      destruct l, added; simpl in Hhas; try lia. reflexivity.
Qed.

End Updates.
(** ** Authentication *)

Lemma map_attribute_id user attr : au_id (map_attribute user attr) = au_id user.
Proof.
  destruct user. unfold map_attribute.
  repeat (destruct (String.eqb (attr_Name attr) _); [reflexivity|]). reflexivity.
Qed.

Lemma fold_attributes_id attrs user :
  au_id (fold_left map_attribute attrs user) = au_id user.
Proof.
  revert user. induction attrs as [|attr attrs IH]; intros user; [done|].
  simpl. by rewrite IH, map_attribute_id.
Qed.

Lemma map_attribute_type user attr :
  au_userType (map_attribute user attr)
  = if String.eqb (attr_Name attr) "custom:userType"
    then value_or (attr_Value attr) "renter"
    else au_userType user.
Proof.
  destruct user. unfold map_attribute.
  destruct (String.eqb (attr_Name attr) "email") eqn:H1.
  { apply String.eqb_eq in H1. by rewrite H1. }
  destruct (String.eqb (attr_Name attr) "given_name") eqn:H2.
  { apply String.eqb_eq in H2. by rewrite H2. }
  destruct (String.eqb (attr_Name attr) "family_name") eqn:H3.
  { apply String.eqb_eq in H3. by rewrite H3. }
  destruct (String.eqb (attr_Name attr) "custom:userType") eqn:H4; [done|].
  destruct (String.eqb (attr_Name attr) "phone_number") eqn:H5; [done|].
  by destruct (String.eqb (attr_Name attr) "email_verified").
Qed.

Lemma fold_attributes_type attrs user :
  Forall (fun attr => attr_Name attr = "custom:userType" ->
                      value_or (attr_Value attr) "" = "") attrs ->
  au_userType user = "renter" ->
  au_userType (fold_left map_attribute attrs user) = "renter".
Proof.
  revert user. induction attrs as [|attr attrs IH]; intros user Hall Huser; [done|].
  apply Forall_cons in Hall as [Hattr Hall]. simpl. apply IH; [done|].
  rewrite map_attribute_type.
  destruct (String.eqb (attr_Name attr) "custom:userType") eqn:Hname; [|done].
  apply String.eqb_eq in Hname. specialize (Hattr Hname).
  unfold value_or in *. destruct (attr_Value attr) as [v|]; [|done].
  destruct (String.eqb v "") eqn:Hv; [done|]. subst v. discriminate.
Qed.

Section Authentication_facts.
Context `{Runtime} `{Cognito}.

(** X25: optionalAuth never answers a request itself.  A request that
    authMiddleware lets pass carries a user with a non-empty id, and
    optionalAuth attaches the same user to it; a user attached by
    optionalAuth is the one authMiddleware attaches.  Every refusal of
    authMiddleware is a 401, and optionalAuth passes such a request on
    without a user. *)
Theorem optional_auth_agrees_with_auth now authorization :
  (exists user, optionalAuth now authorization = Next user)
  /\ (forall user,
        authMiddleware now authorization = Next user ->
        exists a, user = Some a /\ au_id a <> ""
                  /\ optionalAuth now authorization = Next (Some a))
  /\ (forall a,
        optionalAuth now authorization = Next (Some a) ->
        authMiddleware now authorization = Next (Some a))
  /\ (forall status error,
        authMiddleware now authorization = Answer status error ->
        status = 401%Z /\ optionalAuth now authorization = Next None).
Proof.
  unfold optionalAuth, authMiddleware.
  destruct (lacks_bearer authorization).
  { split; [by eexists|]. split; [discriminate|]. split; [discriminate|].
    by intros status error [= <- _]. }
  destruct (cognito_getUser _) as [result|].
  2:{ split; [by eexists|]. split; [discriminate|]. split; [discriminate|].
      by intros status error [= <- _]. }
  destruct (String.eqb (Username result) "") eqn:Hname.
  { split; [by eexists|]. split; [discriminate|]. split; [discriminate|].
    by intros status error [= <- _]. }
  split; [by eexists|]. split; [|split; [done|discriminate]].
  intros user [= <-]. eexists. split; [reflexivity|]. split; [|reflexivity].
  unfold user_of_response. rewrite fold_attributes_id. simpl.
  by apply String.eqb_neq.
Qed.

(** X26: A user whose token is valid and whose Cognito attributes hold no
    (or an empty) custom:userType is taken for a renter: every landlord-only
    route answers 403 "Landlord access required", and every renter-only
    route runs its handler for that user as a renter. *)
Theorem untyped_users_are_renters {D} now authorization result
    (next : User -> World -> Response D * World) w :
  lacks_bearer authorization = false ->
  cognito_getUser (bearer_token (default "" authorization)) = Some result ->
  Username result <> "" ->
  Forall (fun attr => attr_Name attr = "custom:userType" ->
                      value_or (attr_Value attr) "" = "")
    (default [] (UserAttributes result)) ->
  authenticated now authorization requireLandlord next w
  = (Failure 403 "Landlord access required", w)
  /\ authenticated now authorization requireRenter next w
     = next (mkUser (Username result) "renter") w.
Proof.
  intros Hbearer Hcognito Hname Hattrs.
  unfold authenticated, authMiddleware. rewrite Hbearer, Hcognito.
  apply String.eqb_neq in Hname. rewrite Hname.
  assert (Htype : au_userType (user_of_response now result) = "renter").
  { unfold user_of_response. by apply fold_attributes_type. }
  assert (Hid : au_id (user_of_response now result) = Username result).
  { unfold user_of_response. by rewrite fold_attributes_id. }
  simpl. unfold requireLandlord, requireRenter, as_User. simpl.
  rewrite Htype, Hid. done.
Qed.

End Authentication_facts.

(** Landlord L1 lists a cottage with one photo. *)
Lemma created_property_lists_its_uploads_witness :
  exists property images,
    (route_POST_properties (H := Sample.runtime) (Some Sample.landlord1) Sample.now0
       Sample.property_form [Sample.photo] (Sample.world Sample.emptyDB)).1
    = Success 201 (Some "Property created successfully") property
    /\ property !! "images" = Some (AList images)
    /\ length images = 1.
Proof.
  assert (Hrun := run_shape (∅ : Item)
    (route_POST_properties (H := Sample.runtime) (Some Sample.landlord1) Sample.now0
       Sample.property_form [Sample.photo] (Sample.world Sample.emptyDB))
    201 (Some "Property created successfully") ltac:(vm_compute; reflexivity)).
  destruct (created_property_lists_its_uploads (H := Sample.runtime) _ _ _ _ _ _ _ _ _
              Hrun) as (u & id & images & _ & _ & _ & Himages & Hall & _).
  eexists. exists images.
  split; [rewrite Hrun; reflexivity|]. split; [exact Himages|].
  by apply Forall2_length in Hall.
Defined.

(** Landlord L1 deletes the house while the bucket rejects requests: the
    house is gone, its photo stays in the bucket, the answer is a success. *)
Lemma property_deletion_is_owner_only_witness :
  let deletion :=
    route_DELETE_properties_id (H := Sample.runtime) (Some Sample.landlord1) "h1"
      Sample.gallery in
  deletion.1 = Success 200 (Some "Property deleted successfully") tt
  /\ properties (db deletion.2) !! "h1" = None
  /\ bucket deletion.2 = bucket Sample.gallery.
Proof.
  intros deletion.
  destruct (property_deletion_is_owner_only (H := Sample.runtime)
              (Some Sample.landlord1) "h1" Sample.gallery
              deletion.1 deletion.2 (surjective_pairing _)) as (_ & _ & _ & Hs3).
  apply (Hs3 Sample.landlord1 Sample.gallery_house [s3_url "h1/i1.jpg"]).
  - reflexivity.
  - reflexivity.
  - discriminate.
  - vm_compute. reflexivity.
  - vm_compute. reflexivity.
  - vm_compute. reflexivity.
  - reflexivity.
Defined.

(** Landlord L1 lists a cottage with one photo and deletes the listing again:
    the bucket is as it was before. *)
Lemma uploaded_images_go_with_the_property_witness :
  let creation :=
    route_POST_properties (H := Sample.runtime) (Some Sample.landlord1) Sample.now0
      Sample.property_form [Sample.photo] (Sample.world Sample.emptyDB) in
  let deletion :=
    route_DELETE_properties_id (H := Sample.runtime) (Some Sample.landlord1) "uuid-0"
      creation.2 in
  deletion.1 = Success 200 (Some "Property deleted successfully") tt
  /\ exists keys, length keys = 1 /\ bucket deletion.2 = foldr delete ∅ keys.
Proof.
  intros creation deletion.
  destruct (uploaded_images_go_with_the_property (H := Sample.runtime)
              Sample.landlord1 Sample.now0 Sample.property_form [Sample.photo]
              (Sample.world Sample.emptyDB) 201
              (Some "Property created successfully") (data_or ∅ creation.1) creation.2
              "uuid-0" deletion.1 deletion.2) as (Hr & _ & keys & _ & Hlen & Hbucket).
  - apply (run_shape (∅ : Item) creation). vm_compute. reflexivity.
  - vm_compute. reflexivity.
  - discriminate.
  - intros n Hn. simpl in Hn.
    assert (Hcases : n = 0 \/ n = 1) by lia.
    destruct Hcases as [-> | ->]; vm_compute; reflexivity.
  - repeat constructor.
  - vm_compute. reflexivity.
  - apply surjective_pairing.
  - split; [exact Hr|]. exists keys. split; [exact Hlen | exact Hbucket].
Defined.

(** Renter R2, who has no profile item in the sample tenancy, sends an empty
    profile update and so gets one; nothing but updatedAt is set on it. *)
Lemma profile_update_is_own_upsert_witness :
  let update :=
    route_PUT_users_profile (H := Sample.runtime) Sample.renter2 Sample.now0 ∅ None
      Sample.tenancy in
  update.1 = Success 200 (Some "Profile updated successfully") (data_or ∅ update.1)
  /\ users (db update.2) !! "R2" = Some (data_or ∅ update.1)
  /\ data_or ∅ update.1 !! "id" = Some (AStr "R2")
  /\ data_or ∅ update.1 !! "userType" = None.
Proof.
  intros update.
  assert (Hr : update.1
               = Success 200 (Some "Profile updated successfully") (data_or ∅ update.1)).
  { vm_compute. reflexivity. }
  destruct (profile_update_is_own_upsert (H := Sample.runtime) Sample.renter2 Sample.now0
              ∅ None Sample.tenancy update.1 update.2 (surjective_pairing _))
    as [_ Hupdate].
  destruct (Hupdate _ _ _ Hr) as [Hdb Hkeep].
  split; [exact Hr|]. split; [|split].
  - rewrite Hdb. apply lookup_insert_eq.
  - rewrite Hkeep; [vm_compute; reflexivity|].
    intros Hin. repeat (apply elem_of_cons in Hin as [Hin|Hin]; [discriminate|]).
    by apply elem_of_nil in Hin.
  - rewrite Hkeep; [vm_compute; reflexivity|].
    intros Hin. repeat (apply elem_of_cons in Hin as [Hin|Hin]; [discriminate|]).
    by apply elem_of_nil in Hin.
Defined.

(** Landlord L1 renames the listed house and names, in vain, another
    landlord; the same request with a status is refused. *)
Lemma property_update_keeps_identity_witness :
  let update :=
    route_PUT_properties_id (H := Sample.downleveled) (Some Sample.landlord1)
      Sample.now0 "h1"
      (object [("title", AStr "Manor"); ("landlordId", AStr "L2")]) []
      (Sample.listing "available" "pending") in
  update.1 = Success 200 (Some "Property updated successfully") (data_or ∅ update.1)
  /\ data_or ∅ update.1 !! "title" = Some (AStr "Manor")
  /\ data_or ∅ update.1 !! "landlordId" = Some (AStr "L1")
  /\ data_or ∅ update.1 !! "status" = Some (AStr "available")
  /\ succeeded
       (route_PUT_properties_id (H := Sample.downleveled) (Some Sample.landlord1)
          Sample.now0 "h1"
          (object [("title", AStr "Manor"); ("status", AStr "maintenance")]) []
          (Sample.listing "available" "pending")).1 = false.
Proof.
  intros update.
  assert (Hr : update.1
               = Success 200 (Some "Property updated successfully") (data_or ∅ update.1)).
  { vm_compute. reflexivity. }
  destruct (property_update_keeps_identity (H := Sample.downleveled)
              (Some Sample.landlord1) Sample.now0 "h1"
              (object [("title", AStr "Manor"); ("landlordId", AStr "L2")]) []
              (Sample.listing "available" "pending") update.1 update.2
              (surjective_pairing _)) as (_ & _ & Hupdate).
  destruct (Hupdate _ _ _ Hr)
    as (u & item & [= <-] & _ & Hitem & Howner & _ & Hkeep & Hstatus & _).
  injection Hitem as <-.
  split; [exact Hr|]. split; [vm_compute; reflexivity|]. split; [|split].
  - rewrite Hkeep; [exact Howner|].
    intros Hin. repeat (apply elem_of_cons in Hin as [Hin|Hin]; [discriminate|]).
    by apply elem_of_nil in Hin.
  - rewrite Hstatus. reflexivity.
  - destruct (property_update_keeps_identity (H := Sample.downleveled)
                (Some Sample.landlord1) Sample.now0 "h1"
                (object [("title", AStr "Manor"); ("status", AStr "maintenance")]) []
                (Sample.listing "available" "pending") _ _
                (surjective_pairing _)) as (_ & Hrefused & _).
    apply Hrefused. reflexivity.
Defined.

(** The landlord L1 of the sample pool presents a valid token: both
    middlewares attach the same user. *)
Lemma optional_auth_agrees_with_auth_witness :
  exists a,
    authMiddleware (H := Sample.runtime) (H0 := Sample.pool) Sample.now0
      (Some "Bearer token-L1") = Next (Some a)
    /\ optionalAuth (H := Sample.runtime) (H0 := Sample.pool) Sample.now0
         (Some "Bearer token-L1") = Next (Some a)
    /\ au_id a = "L1".
Proof.
  destruct (optional_auth_agrees_with_auth (H := Sample.runtime) (H0 := Sample.pool)
              Sample.now0 (Some "Bearer token-L1")) as (_ & Hauth & _).
  destruct (authMiddleware (H := Sample.runtime) (H0 := Sample.pool) Sample.now0
              (Some "Bearer token-L1")) as [user|status error] eqn:Hrun.
  - destruct (Hauth user eq_refl) as (a & -> & _ & Hoptional).
    exists a. split; [reflexivity|]. split; [exact Hoptional|].
    vm_compute in Hrun. by injection Hrun as <-.
  - vm_compute in Hrun. discriminate.
Defined.

(** The user R9 of the sample pool has no custom:userType attribute. *)
Lemma untyped_users_are_renters_witness :
  authenticated (H := Sample.runtime) (H0 := Sample.pool) Sample.now0
    (Some "Bearer token-R9") requireLandlord
    (fun u => route_GET_users_profile u) Sample.tenancy
  = (Failure 403 "Landlord access required", Sample.tenancy)
  /\ authenticated (H := Sample.runtime) (H0 := Sample.pool) Sample.now0
       (Some "Bearer token-R9") requireRenter
       (fun u => route_GET_users_profile u) Sample.tenancy
     = route_GET_users_profile (mkUser "R9" "renter") Sample.tenancy.
Proof.
  apply (untyped_users_are_renters (H := Sample.runtime) (H0 := Sample.pool)
           Sample.now0 (Some "Bearer token-R9")
           (mkGetUserResponse "R9"
              (Some [mkAttribute "email" (Some "r9@example.org");
                     mkAttribute "email_verified" (Some "true")]))).
  - reflexivity.
  - reflexivity.
  - discriminate.
  - repeat constructor; discriminate.
Defined.

